(** * vold bootstrap (main.cpp): disk-source configuration and coldboot

    A shallow embedding of [process_config], [do_coldboot], [coldboot] and
    the start-up sequence of [vold_main], with the properties of the
    bootstrap specification stated over it.

    Conventions of the embedding:
    - [std::string] is [string]; positions are [nat]; [std::string::npos]
      as a result of a search is [None];
    - [int] values are [Z];
    - the process state touched by the bootstrap (the volume manager's list
      of disk sources, the local [has_adoptable] of [vold_main], the
      sequence of externally visible actions) is threaded through a small
      state monad that can also stop the process ([exit], a failed [CHECK],
      an uncaught exception);
    - everything read from outside the process (fstab, kernel command line,
      sysfs, results of start-up calls) is a field of the record [env]. *)

From Stdlib Require Import ZArith List String Ascii Bool Lia Permutation.
Import ListNotations.

Local Open Scope string_scope.
Local Open Scope Z_scope.
Local Open Scope list_scope.

(* ================================================================== *)
(** ** The parts of the C++ standard library used by [process_config] *)
(* ================================================================== *)

(** The character [\n], the separator set [" \n"] of the command-line
    token and the bytes ["add\n"] written to a [uevent] file. *)
Definition nl : ascii := ascii_of_nat 10.
Definition space_nl : string := String " "%char (String nl EmptyString).
Definition add_nl : string := ("add" ++ String nl EmptyString)%string.

Module Std.

(** [::isdigit] in the C locale. *)
Definition isdigit (c : ascii) : bool :=
  (48 <=? nat_of_ascii c)%nat && (nat_of_ascii c <=? 57)%nat.

(** [::isspace] in the C locale. *)
Definition isspace (c : ascii) : bool :=
  let n := nat_of_ascii c in
  (n =? 32)%nat || ((9 <=? n)%nat && (n <=? 13)%nat).

(** [needle] occurs in [s] at position 0. *)
Fixpoint starts_with (s needle : string) {struct needle} : bool :=
  match needle with
  | EmptyString => true
  | String a needle' =>
      match s with
      | EmptyString => false
      | String b s' => Ascii.eqb a b && starts_with s' needle'
      end
  end.

(** [s.find(needle, pos)]: the first position, counted from the start of
    the whole string, at which [needle] occurs. *)
Fixpoint find_at (s needle : string) (pos : nat) : option nat :=
  if starts_with s needle then Some pos
  else match s with
       | EmptyString => None
       | String _ s' => find_at s' needle (S pos)
       end.

Definition find (s needle : string) : option nat := find_at s needle 0.

Fixpoint mem_char (c : ascii) (cs : string) : bool :=
  match cs with
  | EmptyString => false
  | String c' cs' => Ascii.eqb c c' || mem_char c cs'
  end.

Fixpoint find_first_of_at (s cs : string) (pos : nat) : option nat :=
  match s with
  | EmptyString => None
  | String c s' =>
      if mem_char c cs then Some pos else find_first_of_at s' cs (S pos)
  end.

(** [s.find_first_of(cs)]. *)
Definition find_first_of (s cs : string) : option nat :=
  find_first_of_at s cs 0.

Fixpoint drop (n : nat) (s : string) : string :=
  match n, s with
  | O, _ => s
  | S n', String _ s' => drop n' s'
  | S _, EmptyString => EmptyString
  end.

Fixpoint take (n : nat) (s : string) : string :=
  match n, s with
  | S n', String c s' => String c (take n' s')
  | _, _ => EmptyString
  end.

(** [s.substr(pos, count)]; [count = None] is the default argument
    [npos], and so is the result of a failed search passed as count.
    ([substr] throws when [pos > s.size()]; [process_config] never calls
    it so, see [find_at_bound] and [trailing_pos_le].) *)
Definition substr (s : string) (pos : nat) (count : option nat) : string :=
  match count with
  | None => drop pos s
  | Some n => take n (drop pos s)
  end.

(** [std::find_if_not(first, last, p)] over a range given as the list of
    its elements: the result is the iterator to the first element that
    does not satisfy [p], represented by the range that starts there. *)
Fixpoint find_if_not {A : Type} (p : A -> bool) (range : list A) : list A :=
  match range with
  | [] => []
  | x :: r => if p x then find_if_not p r else range
  end.

(** [std::distance(it, last)] for an iterator into a range ending at
    [last]. *)
Definition distance {A : Type} (it : list A) : nat := List.length it.

(** The reverse range [s.rbegin() .. s.rend()]. *)
Definition rrange (s : string) : list ascii := rev (list_ascii_of_string s).

Definition INT_MAX : Z := 2147483647.
Definition INT_MIN : Z := -2147483648.

Definition digit_val (c : ascii) : Z := Z.of_nat (nat_of_ascii c) - 48.

Fixpoint digits_value (s : string) (acc : Z) : Z :=
  match s with
  | EmptyString => acc
  | String c s' =>
      if isdigit c then digits_value s' (acc * 10 + digit_val c) else acc
  end.

Fixpoint skip_space (s : string) : string :=
  match s with
  | String c s' => if isspace c then skip_space s' else s
  | EmptyString => s
  end.

Inductive stoi_result : Type :=
| StoiValue (v : Z)
| StoiInvalidArgument
| StoiOutOfRange.

(** [std::stoi(s)] in base 10: leading white space, an optional sign, then
    the longest run of digits; [std::invalid_argument] when there is no
    digit, [std::out_of_range] when the value does not fit an [int]. *)
Definition stoi (s : string) : stoi_result :=
  let s1 := skip_space s in
  let '(neg, s2) :=
    match s1 with
    | String c r =>
        if Ascii.eqb c "-" then (true, r)
        else if Ascii.eqb c "+" then (false, r)
        else (false, s1)
    | EmptyString => (false, s1)
    end in
  match s2 with
  | String c _ =>
      if isdigit c then
        let v := digits_value s2 0 in
        let v := if neg then - v else v in
        if (INT_MIN <=? v) && (v <=? INT_MAX) then StoiValue v
        else StoiOutOfRange
      else StoiInvalidArgument
  | EmptyString => StoiInvalidArgument
  end.

End Std.

(* ================================================================== *)
(** ** Data model *)
(* ================================================================== *)

(** [android::vold::Disk::Flags]. Disk.h is not part of the sources at
    hand, so the three enumerators used by [process_config] are parameters
    of the development. *)
Class DiskFlags : Type := {
  kAdoptable : Z;
  kDefaultPrimary : Z;
  kNonRemovable : Z
}.

(** The arguments of the [VolumeManager::DiskSource] constructor, in the
    order of the calls in [process_config]. *)
Record DiskSource : Type := mkDiskSource {
  ds_sysPattern : string;
  ds_nickname : string;
  ds_partnum : Z;
  ds_flags : Z;
  ds_fstype : string;
  ds_mntopts : string
}.

(** One [struct fstab_rec] of fs_mgr, restricted to what [process_config]
    reads. [blk_device], [fs_type], [fs_options] and [label] are [char*],
    and a [char*] may be null: fs_mgr sets [label] only from a well-formed
    [voldmanaged=] flag. The four [fs_mgr_is_*] predicates of fs_mgr are
    functions of the record; they are its boolean fields here. *)
Record fstab_rec : Type := mkRec {
  blk_device : option string;
  fs_type : option string;
  fs_options : option string;
  label : option string;
  partnum : Z;
  fs_mgr_is_voldmanaged : bool;
  fs_mgr_is_encryptable : bool;
  fs_mgr_is_noemulatedsd : bool;
  fs_mgr_is_nonremovable : bool
}.

(** [d_type] of a [struct dirent]. *)
Inductive d_type : Type :=
| DT_UNKNOWN | DT_FIFO | DT_CHR | DT_DIR | DT_BLK | DT_REG | DT_LNK
| DT_SOCK | DT_WHT.

Definition is_DT_DIR (t : d_type) : bool :=
  match t with DT_DIR => true | _ => false end.

(** What [openat(dfd, "uevent", O_WRONLY | O_CLOEXEC)] finds in a
    directory: the open fails, or it succeeds and the following [write]
    of four bytes succeeds or fails. *)
Inductive uevent_node : Type :=
| UeventAbsent
| UeventWritable (write_ok : bool).

(** An open directory stream, as [do_coldboot] sees it: the state of its
    [uevent] entry and the entries [readdir] returns, in the order it
    returns them. Each entry carries what
    [openat(dfd, d_name, O_RDONLY | O_DIRECTORY)] followed by [fdopendir]
    gives for it. *)
Inductive dir : Type :=
| Dir (uevent : uevent_node) (entries : list dirent)
with dirent : Type :=
| Dirent (d_name : string) (dt : d_type) (target : open_result)
with open_result : Type :=
| OpenatFails
| FdopendirFails
| Opened (d2 : dir).

(** A file-system location: the path given to [coldboot] followed by the
    entry names walked through. [do_coldboot] itself addresses entries
    relative to [dirfd(d)]; the location names the file an action was
    performed on. *)
Definition location : Type := list string.

(** System calls issued by [coldboot] and [do_coldboot]. *)
Inductive syscall : Type :=
| sys_opendir (p : location) (ok : bool)
| sys_openat_wronly (p : location) (ok : bool)
| sys_write (p : location) (buf : string) (ok : bool)
| sys_close (p : location)
| sys_openat_directory (p : location) (ok : bool)
| sys_fdopendir (p : location) (ok : bool)
| sys_closedir (p : location).

(** Externally visible actions of the bootstrap, in program order. *)
Inductive event : Type :=
| EvLog (msg : string)
| EvLogSdcard (sdcard : string) (partnum : Z)
| EvCall (name : string)
| EvSetDebug
| EvNewCommandListener
| EvNewCryptCommandListener
| EvSetBroadcasters
| EvVolumeManagerStart (ok : bool)
| EvReadFstab (path : string) (ok : bool)
| EvReadFile (path : string) (ok : bool)
| EvAccess (path : string) (ok : bool)
| EvAddDiskSource (ds : DiskSource)
| EvNetlinkManagerStart (ok : bool)
| EvColdboot (s : syscall)
| EvStartListener (name : string) (ok : bool)
| EvPropertySet (key : string) (value : option string)
| EvIdleLoop.

(** Everything the bootstrap reads from outside the process. *)
Record env : Type := mkEnv {
  (* parse_args: the four contexts after option parsing *)
  sBlkidContext : option string;
  sBlkidUntrustedContext : option string;
  sFsckContext : option string;
  sFsckUntrustedContext : option string;
  (* compile-time configuration *)
  MINIVOLD : bool;
  (* singletons and listeners *)
  VolumeManager_Instance : bool;
  NetlinkManager_Instance : bool;
  prop_vold_debug : bool;
  vm_start_ok : bool;
  nm_start_ok : bool;
  cl_startListener_ok : bool;
  ccl_startListener_ok : bool;
  (* process_config *)
  DefaultFstabPath : string;
  fs_mgr_read_fstab : option (list fstab_rec);
  prop_vold_debug_default_primary : bool;
  proc_cmdline : option string;
  access_X_OK : string -> bool;
  (* coldboot *)
  sys_block : option dir
}.

(** The mutable state of the process: the disk sources registered with
    the volume manager, the local [bool has_adoptable] of [vold_main]
    ([None] while it has never been assigned), and the actions so far. *)
Record world : Type := mkWorld {
  mDiskSources : list DiskSource;
  has_adoptable : option bool;
  trace : list event
}.

Definition world0 : world := mkWorld [] None [].

(* ================================================================== *)
(** ** The monad of the bootstrap *)
(* ================================================================== *)

Inductive result (A : Type) : Type :=
| Ret (a : A)
| Exit (code : Z)
| Aborted.
Arguments Ret {A} a.
Arguments Exit {A} code.
Arguments Aborted {A}.

Definition M (A : Type) : Type := world -> result A * world.

Definition ret {A : Type} (a : A) : M A := fun w => (Ret a, w).

Definition bind {A B : Type} (m : M A) (f : A -> M B) : M B :=
  fun w =>
    match m w with
    | (Ret a, w') => f a w'
    | (Exit c, w') => (Exit c, w')
    | (Aborted, w') => (Aborted, w')
    end.

Declare Scope vold_scope.
Delimit Scope vold_scope with vold.
Notation "x <- m ;; k" := (bind m (fun x => k))
  (at level 61, m at next level, right associativity) : vold_scope.
Notation "m ;; k" := (bind m (fun _ => k))
  (at level 61, right associativity) : vold_scope.
Local Open Scope vold_scope.

Definition emit (ev : event) : M unit :=
  fun w => (Ret tt, mkWorld (mDiskSources w) (has_adoptable w) (trace w ++ [ev])).

Definition emit_all (evs : list event) : M unit :=
  fun w => (Ret tt, mkWorld (mDiskSources w) (has_adoptable w) (trace w ++ evs)).

(** [exit(code)]. *)
Definition exit {A : Type} (code : Z) : M A := fun w => (Exit code, w).

(** A failed [CHECK] or an exception nobody catches: the process is
    terminated abnormally. *)
Definition abort {A : Type} : M A := fun w => (Aborted, w).

(** [*has_adoptable = b]. *)
Definition set_has_adoptable (b : bool) : M unit :=
  fun w => (Ret tt, mkWorld (mDiskSources w) (Some b) (trace w)).

(** Modelled from the spec: [VolumeManager::addDiskSource] (VolumeManager.cpp
    is not part of the sources at hand) appends the rule to the registry's
    list, which keeps rules in discovery order and never changes one. *)
Definition addDiskSource (ds : DiskSource) : M unit :=
  fun w => (Ret tt, mkWorld (mDiskSources w ++ [ds]) (has_adoptable w)
                            (trace w ++ [EvAddDiskSource ds])).

Definition when (b : bool) (m : M unit) : M unit := if b then m else ret tt.

Fixpoint for_each {A : Type} (l : list A) (body : A -> M unit) : M unit :=
  match l with
  | [] => ret tt
  | x :: l' => body x ;; for_each l' body
  end.

(* ================================================================== *)
(** ** [process_config] *)
(* ================================================================== *)

Section ProcessConfig.
Context {F : DiskFlags}.
Variable e : env.

(** Lines 245-271: the rule built for a vold-managed entry, where
    [sysPattern] and [nickname] are the [std::string]s that lines 244 and
    253 make of [blk_device] and [label]. *)
Definition DiskSource_of_rec (r : fstab_rec) (sysPattern nickname : string)
  : DiskSource :=
  let fstype := match fs_type r with Some t => t | None => "" end in
  let mntopts := match fs_options r with Some o => o | None => "" end in
  let partnum := partnum r in
  let flags := 0 in
  let flags :=
    if fs_mgr_is_encryptable r then Z.lor flags kAdoptable else flags in
  let flags :=
    if fs_mgr_is_noemulatedsd r || prop_vold_debug_default_primary e
    then Z.lor flags kDefaultPrimary else flags in
  let flags :=
    if fs_mgr_is_nonremovable r then Z.lor flags kNonRemovable else flags in
  mkDiskSource sysPattern nickname partnum flags fstype mntopts.

(** Lines 243-272: the body of the loop over the fstab entries. Unlike
    [fs_type] and [fs_options], [blk_device] and [label] are given to the
    [std::string] constructor without a test (lines 244 and 253); on a
    null pointer that is undefined behaviour, and the process is
    terminated there (the constructor takes the length of the string it
    is given), before the flags are computed and before anything is
    registered. *)
Definition process_fstab_rec (r : fstab_rec) : M unit :=
  if fs_mgr_is_voldmanaged r then
    match blk_device r with
    | None => abort
    | Some sysPattern =>
        match label r with
        | None => abort
        | Some nickname =>
            when (fs_mgr_is_encryptable r) (set_has_adoptable true) ;;
            addDiskSource (DiskSource_of_rec r sysPattern nickname)
        end
    end
  else ret tt.

(** Lines 288-295: the name once the digits are gone; [pos] is its
    length. ([pos - 1] is a [size_t] subtraction; it is only evaluated
    when the name is not empty, see [strip_separator_pos].) *)
Definition strip_separator (sdcard : string) (pos : nat) : string :=
  let sdcard :=
    match Std.find sdcard "mmcblk" with
    | Some _ => Std.substr sdcard 0 (Some (pos - 1)%nat)
    | None => sdcard
    end in
  let sdcard :=
    match Std.find sdcard "nvme" with
    | Some _ => Std.substr sdcard 0 (Some (pos - 1)%nat)
    | None => sdcard
    end in
  sdcard.

(** Lines 283-296: [sdcard] does not name a disk. The result is the new
    [sdcard] and [partnum]; [stoi] may throw. *)
Definition split_partition (sdcard : string) : M (string * Z) :=
  let d := Std.find_if_not Std.isdigit (Std.rrange sdcard) in
  let pos := Std.distance d in
  if negb (pos =? String.length sdcard)%nat then
    match Std.stoi (Std.substr sdcard pos None) with
    | Std.StoiValue partnum =>
        let sdcard := Std.substr sdcard 0 (Some pos) in
        ret (strip_separator sdcard pos, partnum)
    | _ => abort
    end
  else ret (sdcard, -1).

(** Lines 276-279: the raw device token that follows [SDCARD=], when the
    command line has one. *)
Definition raw_token (path : string) : option string :=
  match Std.find path "SDCARD=" with
  | Some pos =>
      let sdcard := Std.substr path (pos + 7)%nat None in
      Some (Std.substr sdcard 0 (Std.find_first_of sdcard space_nl))
  | None => None
  end.

(** Lines 276-304: the [SDCARD=] token of the kernel command line. *)
Definition process_cmdline (path : string) : M unit :=
  match raw_token path with
  | Some sdcard =>
      if negb (String.eqb sdcard "") then
        let accessible := access_X_OK e ("/sys/block/" ++ sdcard)%string in
        emit (EvAccess ("/sys/block/" ++ sdcard)%string accessible) ;;
        sp <- (if negb accessible then split_partition sdcard
               else ret (sdcard, -1)) ;;
        let '(sdcard, partnum) := sp in
        addDiskSource (mkDiskSource ("/devices/*/" ++ sdcard)%string sdcard
                                    partnum kAdoptable "auto" "") ;;
        set_has_adoptable true ;;
        emit (EvLogSdcard sdcard partnum)
      else ret tt
  | None => ret tt
  end.

Definition process_config : M Z :=
  let path := DefaultFstabPath e in
  match fs_mgr_read_fstab e with
  | None =>
      emit (EvReadFstab path false) ;;
      emit (EvLog ("Failed to open default fstab " ++ path)%string) ;;
      ret (-1)
  | Some recs =>
      emit (EvReadFstab path true) ;;
      set_has_adoptable false ;;
      for_each recs process_fstab_rec ;;
      match proc_cmdline e with
      | Some path =>
          emit (EvReadFile "/proc/cmdline" true) ;;
          process_cmdline path
      | None => emit (EvReadFile "/proc/cmdline" false)
      end ;;
      ret 0
  end.

End ProcessConfig.

(* ================================================================== *)
(** ** [do_coldboot] and [coldboot] *)
(* ================================================================== *)

(** [de->d_name[0] == '.'] *)
Definition first_is_dot (name : string) : bool :=
  match name with
  | String c _ => Ascii.eqb c "."%char
  | EmptyString => false
  end.

(** Lines 195-199: the [uevent] entry of the directory at [p]. *)
Definition trigger_uevent (p : location) (ue : uevent_node) : list syscall :=
  match ue with
  | UeventAbsent => [sys_openat_wronly (p ++ ["uevent"]) false]
  | UeventWritable ok =>
      [sys_openat_wronly (p ++ ["uevent"]) true;
       sys_write (p ++ ["uevent"]) add_nl ok;
       sys_close (p ++ ["uevent"])]
  end.

(** Lines 210-220: the entry [name] is opened as a directory and walked;
    [rec] is the recursive call. *)
Definition descend (rec : location -> dir -> Z -> list syscall)
    (p : location) (lvl : Z) (name : string) (tgt : open_result)
  : list syscall :=
  match tgt with
  | OpenatFails => [sys_openat_directory (p ++ [name]) false]
  | FdopendirFails =>
      [sys_openat_directory (p ++ [name]) true;
       sys_fdopendir (p ++ [name]) false;
       sys_close (p ++ [name])]
  | Opened d2 =>
      [sys_openat_directory (p ++ [name]) true;
       sys_fdopendir (p ++ [name]) true]
      ++ rec (p ++ [name]) d2 (lvl + 1)
      ++ [sys_closedir (p ++ [name])]
  end.

(** Lines 204-220: the body of the [readdir] loop for one entry. *)
Definition visit_entry (rec : location -> dir -> Z -> list syscall)
    (p : location) (lvl : Z) (de : dirent) : list syscall :=
  match de with
  | Dirent name dt tgt =>
      if first_is_dot name then []
      else if negb (is_DT_DIR dt) && (lvl >? 0) then []
      else descend rec p lvl name tgt
  end.

(** [do_coldboot(d, lvl)] for the directory stream [d] opened at [p]: the
    system calls it issues, in order. *)
Fixpoint do_coldboot (p : location) (d : dir) (lvl : Z) {struct d}
  : list syscall :=
  match d with
  | Dir ue ents =>
      trigger_uevent p ue ++
      (fix readdir_loop (l : list dirent) : list syscall :=
         match l with
         | [] => []
         | de :: l' => visit_entry do_coldboot p lvl de ++ readdir_loop l'
         end) ents
  end.

(** The [while ((de = readdir(d)))] loop on its own. *)
Fixpoint readdir_loop (p : location) (lvl : Z) (l : list dirent)
  : list syscall :=
  match l with
  | [] => []
  | de :: l' => visit_entry do_coldboot p lvl de ++ readdir_loop p lvl l'
  end.

(** [coldboot(path)], where [root] is what [opendir(path)] gives. *)
Definition coldboot (path : string) (root : option dir) : list syscall :=
  match root with
  | Some d =>
      [sys_opendir [path] true] ++ do_coldboot [path] d 0
      ++ [sys_closedir [path]]
  | None => [sys_opendir [path] false]
  end.

(** The files a run wrote to (successfully or not), in order. *)
Fixpoint write_attempts (t : list syscall) : list location :=
  match t with
  | [] => []
  | sys_write p _ _ :: t' => p :: write_attempts t'
  | _ :: t' => write_attempts t'
  end.

(** The directories the walk visits from a directory [d] opened at [p]
    with level [lvl], following the recursion of [do_coldboot]. *)
Inductive visits : location -> dir -> Z -> location -> dir -> Z -> Prop :=
| visits_here p d lvl : visits p d lvl p d lvl
| visits_below p ue ents lvl name dt d2 q d' lvl' :
    In (Dirent name dt (Opened d2)) ents ->
    first_is_dot name = false ->
    (is_DT_DIR dt = true \/ lvl <= 0) ->
    visits (p ++ [name]) d2 (lvl + 1) q d' lvl' ->
    visits p (Dir ue ents) lvl q d' lvl'.

(** Two directory streams that differ only in the order in which
    [readdir] enumerates entries, at any depth. *)
Inductive same_tree : dir -> dir -> Prop :=
| same_Dir ue l1 l2 : same_entries l1 l2 -> same_tree (Dir ue l1) (Dir ue l2)
with same_entries : list dirent -> list dirent -> Prop :=
| same_nil : same_entries [] []
| same_cons e1 e2 l1 l2 :
    same_dirent e1 e2 -> same_entries l1 l2 ->
    same_entries (e1 :: l1) (e2 :: l2)
| same_swap e1 e2 l : same_entries (e1 :: e2 :: l) (e2 :: e1 :: l)
| same_trans l1 l2 l3 :
    same_entries l1 l2 -> same_entries l2 l3 -> same_entries l1 l3
with same_dirent : dirent -> dirent -> Prop :=
| same_Dirent name dt t1 t2 :
    same_target t1 t2 -> same_dirent (Dirent name dt t1) (Dirent name dt t2)
with same_target : open_result -> open_result -> Prop :=
| same_OpenatFails : same_target OpenatFails OpenatFails
| same_FdopendirFails : same_target FdopendirFails FdopendirFails
| same_Opened d1 d2 : same_tree d1 d2 -> same_target (Opened d1) (Opened d2).

Scheme same_tree_min := Minimality for same_tree Sort Prop
  with same_entries_min := Minimality for same_entries Sort Prop
  with same_dirent_min := Minimality for same_dirent Sort Prop
  with same_target_min := Minimality for same_target Sort Prop.

(** The same tree with every [write] to a [uevent] file failing, and with
    every one succeeding. *)
Fixpoint with_writes (ok : bool) (d : dir) {struct d} : dir :=
  match d with
  | Dir ue ents =>
      Dir (match ue with
           | UeventAbsent => UeventAbsent
           | UeventWritable _ => UeventWritable ok
           end)
          ((fix go (l : list dirent) : list dirent :=
              match l with
              | [] => []
              | Dirent name dt tgt :: l' =>
                  Dirent name dt
                    (match tgt with
                     | Opened d2 => Opened (with_writes ok d2)
                     | other => other
                     end) :: go l'
              end) ents)
  end.

(* ================================================================== *)
(** ** [vold_main] *)
(* ================================================================== *)

Section VoldMain.
Context {F : DiskFlags}.
Variable e : env.

(** Lines 183-186: the four [CHECK]s of [parse_args]. *)
Definition parse_args : M unit :=
  match sBlkidContext e, sBlkidUntrustedContext e,
        sFsckContext e, sFsckUntrustedContext e with
  | Some _, Some _, Some _, Some _ => ret tt
  | _, _, _, _ => abort
  end.

(** [if (call) { PLOG(ERROR) << msg; exit(1); }] *)
Definition or_die (ok : bool) (msg : string) : M unit :=
  if ok then ret tt else (emit (EvLog msg) ;; exit 1).

Definition get_has_adoptable : M (option bool) :=
  fun w => (Ret (has_adoptable w), w).

Definition vold_main : M unit :=
  emit (EvCall "setenv ANDROID_LOG_TAGS") ;;
  emit (EvCall "InitLogging") ;;
  emit (EvLog "Vold 3.0 (the awakening) firing up") ;;
  parse_args ;;
  emit (EvCall "selinux_android_file_context_handle") ;;
  emit (EvCall "fcntl vold FD_CLOEXEC") ;;
  emit (EvCall "fcntl cryptd FD_CLOEXEC") ;;
  emit (EvCall "mkdir /dev/block/vold") ;;
  emit (EvCall "klog_set_level 6") ;;
  or_die (VolumeManager_Instance e) "Unable to create VolumeManager" ;;
  or_die (NetlinkManager_Instance e) "Unable to create NetlinkManager" ;;
  when (prop_vold_debug e) (emit EvSetDebug) ;;
  emit EvNewCommandListener ;;
  when (negb (MINIVOLD e)) (emit EvNewCryptCommandListener) ;;
  emit EvSetBroadcasters ;;
  emit (EvVolumeManagerStart (vm_start_ok e)) ;;
  or_die (vm_start_ok e) "Unable to start VolumeManager" ;;
  (* bool has_adoptable; *)
  rc <- process_config e ;;
  when (negb (rc =? 0))
       (emit (EvLog "Error reading configuration... continuing anyways")) ;;
  emit (EvNetlinkManagerStart (nm_start_ok e)) ;;
  or_die (nm_start_ok e) "Unable to start NetlinkManager" ;;
  emit_all (map EvColdboot (coldboot "/sys/block" (sys_block e))) ;;
  emit (EvStartListener "CommandListener" (cl_startListener_ok e)) ;;
  or_die (cl_startListener_ok e) "Unable to start CommandListener" ;;
  when (negb (MINIVOLD e))
       (emit (EvStartListener "CryptCommandListener" (ccl_startListener_ok e)) ;;
        or_die (ccl_startListener_ok e) "Unable to start CryptCommandListener") ;;
  h <- get_has_adoptable ;;
  emit (EvPropertySet "vold.has_adoptable"
          (option_map (fun b : bool => if b then "1" else "0") h)) ;;
  (* while (1) sleep(1000); *)
  emit EvIdleLoop.

End VoldMain.

(** Running the bootstrap from the initial state of the process. *)
Definition run {A : Type} (m : M A) : result A * world := m world0.

(* ================================================================== *)
(** ** Vocabulary of the specification *)
(* ================================================================== *)

(** [s] contains the substring [needle]. *)
Definition contains (s needle : string) : Prop :=
  exists a b : string, s = (a ++ needle ++ b)%string.

(** Every character of [s] is a decimal digit. *)
Fixpoint all_digits (s : string) : bool :=
  match s with
  | EmptyString => true
  | String c s' => Std.isdigit c && all_digits s'
  end.

Fixpoint last_char (s : string) : option ascii :=
  match s with
  | EmptyString => None
  | String c EmptyString => Some c
  | String _ s' => last_char s'
  end.

(** [s] ends in a decimal digit. *)
Definition ends_in_digit (s : string) : bool :=
  match last_char s with
  | Some c => Std.isdigit c
  | None => false
  end.

(** The number a string of decimal digits denotes. *)
Definition decimal (s : string) : Z :=
  fold_left (fun acc c => acc * 10 + Std.digit_val c)
            (list_ascii_of_string s) 0.

(** No character of [s] is a space or a newline. *)
Fixpoint no_separator (s : string) : bool :=
  match s with
  | EmptyString => true
  | String c s' => negb (Std.mem_char c space_nl) && no_separator s'
  end.

(** The rule registered for the [SDCARD=] token, lines 298-300. *)
Definition sdcard_rule {F : DiskFlags} (name : string) (partnum : Z)
  : DiskSource :=
  mkDiskSource ("/devices/*/" ++ name)%string name partnum kAdoptable "auto" "".

(** The state after the rule for [name] and [partnum] has been
    registered from the command line, lines 282-302. *)
Definition after_sdcard {F : DiskFlags} (w : world) (raw name : string)
    (accessible : bool) (partnum : Z) : world :=
  mkWorld (mDiskSources w ++ [sdcard_rule name partnum])
          (Some true)
          (trace w ++ [EvAccess ("/sys/block/" ++ raw)%string accessible]
                   ++ [EvAddDiskSource (sdcard_rule name partnum)]
                   ++ [EvLogSdcard name partnum]).

(** Flag [k] is set in [flags]. *)
Definition flag_set (k flags : Z) : Prop := Z.land flags k = k.

(** The value of the adoptable output after the loop over the entries. *)
Definition any_adoptable (recs : list fstab_rec) : bool :=
  existsb (fun r => fs_mgr_is_voldmanaged r && fs_mgr_is_encryptable r) recs.

(** The two strings that lines 244 and 253 construct for an entry, when
    neither [blk_device] nor [label] is a null pointer. *)
Definition rule_strings (r : fstab_rec) : option (string * string) :=
  match blk_device r, label r with
  | Some sysPattern, Some nickname => Some (sysPattern, nickname)
  | _, _ => None
  end.

(** A vold-managed entry whose block device or label is a null
    pointer. *)
Definition is_null_string (r : fstab_rec) : bool :=
  fs_mgr_is_voldmanaged r
  && match rule_strings r with None => true | Some _ => false end.

(** Some entry of the fstab is vold-managed with a null block device or
    label. *)
Definition null_string (recs : list fstab_rec) : bool :=
  existsb is_null_string recs.

(** The entries before the first vold-managed one with a null block
    device or label. *)
Fixpoint before_null_string (recs : list fstab_rec) : list fstab_rec :=
  match recs with
  | [] => []
  | r :: recs' =>
      if is_null_string r then [] else r :: before_null_string recs'
  end.

(** The rules of the vold-managed entries of the fstab that have a block
    device and a label, in its order. *)
Definition fstab_rules {F : DiskFlags} (e : env) (recs : list fstab_rec)
  : list DiskSource :=
  flat_map (fun r =>
              if fs_mgr_is_voldmanaged r then
                match rule_strings r with
                | Some (sysPattern, nickname) =>
                    [DiskSource_of_rec e r sysPattern nickname]
                | None => []
                end
              else [])
           recs.

(** The state when the loop over the entries of a loaded fstab is done,
    lines 234-273. *)
Definition after_fstab {F : DiskFlags} (e : env) (w : world)
    (recs : list fstab_rec) : world :=
  mkWorld (mDiskSources w ++ fstab_rules e recs)
          (Some (any_adoptable recs))
          (trace w ++ [EvReadFstab (DefaultFstabPath e) true]
                   ++ map EvAddDiskSource (fstab_rules e recs)).

(** The state after [/proc/cmdline] has been read, line 275. *)
Definition after_read_cmdline (ok : bool) (w : world) : world :=
  mkWorld (mDiskSources w) (has_adoptable w)
          (trace w ++ [EvReadFile "/proc/cmdline" ok]).

Definition is_AddDiskSource (ev : event) : bool :=
  match ev with EvAddDiskSource _ => true | _ => false end.

Definition is_Coldboot (ev : event) : bool :=
  match ev with EvColdboot _ => true | _ => false end.

Definition is_ReadCmdline (ev : event) : bool :=
  match ev with EvReadFile _ _ => true | _ => false end.

(** A complete environment in which every start-up dependency is
    available; the examples vary its configuration inputs. *)
Definition healthy_env (fstab : option (list fstab_rec))
    (cmdline : option string) (access : string -> bool)
    (root : option dir) : env :=
  mkEnv (Some "u:r:blkid:s0") (Some "u:r:blkid_untrusted:s0")
        (Some "u:r:fsck:s0") (Some "u:r:fsck_untrusted:s0")
        false true true false true true true true
        "/fstab.device" fstab false cmdline access root.

(** An instance of the flag enumerators with pairwise distinct bits, for
    the examples. *)
Definition example_flags : DiskFlags :=
  {| kAdoptable := 1; kDefaultPrimary := 2; kNonRemovable := 32 |}.

(** A computation only appends events that satisfy [ok] to the trace. *)
Definition emits {A : Type} (ok : event -> bool) (m : M A) : Prop :=
  forall w : world,
    exists evs, trace (snd (m w)) = trace w ++ evs /\ forallb ok evs = true.

(** The trace of a computation is a part [a] without coldboot events
    followed by a part [b] without registrations. *)
Definition ordered {A : Type} (m : M A) : Prop :=
  forall w : world,
    exists a b,
      trace (snd (m w)) = trace w ++ a ++ b
      /\ forallb (fun ev => negb (is_Coldboot ev)) a = true
      /\ forallb (fun ev => negb (is_AddDiskSource ev)) b = true.

(* ================================================================== *)
(** ** Example inputs *)
(* ================================================================== *)

(** An fstab with one entry mounted by init and two vold-managed ones. *)
Definition example_recs : list fstab_rec :=
  [ mkRec (Some "/dev/block/by-name/system") (Some "ext4") (Some "ro") None 0
          false false false false;
    mkRec (Some "/devices/*/mmcblk1") (Some "auto") None (Some "sdcard1") (-1)
          true true false false;
    mkRec (Some "/devices/*/usb*") None (Some "utf8") (Some "usbdisk") 1
          true false true true ]%string.

(** The same fstab with, between the two vold-managed entries, one whose
    [voldmanaged=] flag is malformed, so that its label is null. *)
Definition example_recs_null_label : list fstab_rec :=
  [ mkRec (Some "/dev/block/by-name/system") (Some "ext4") (Some "ro") None 0
          false false false false;
    mkRec (Some "/devices/*/mmcblk1") (Some "auto") None (Some "sdcard1") (-1)
          true true false false;
    mkRec (Some "/devices/*/sdb") (Some "auto") None None 0
          true false false false;
    mkRec (Some "/devices/*/usb*") None (Some "utf8") (Some "usbdisk") 1
          true false true true ]%string.

(** A [/sys/block] with a disk that has a partition, a CD drive and an
    entry that does not open. *)
Definition example_sda : dir :=
  Dir (UeventWritable true)
      [ Dirent "uevent" DT_REG OpenatFails;
        Dirent "sda1" DT_DIR (Opened (Dir (UeventWritable false) []));
        Dirent "queue" DT_DIR (Opened (Dir (UeventWritable true) []));
        Dirent "subsystem" DT_LNK (Opened (Dir (UeventWritable true) [])) ]%string.

Definition example_tree : dir :=
  Dir UeventAbsent
      [ Dirent "." DT_DIR (Opened (Dir (UeventWritable true) []));
        Dirent ".." DT_DIR (Opened (Dir (UeventWritable true) []));
        Dirent "sda" DT_LNK (Opened example_sda);
        Dirent "sr0" DT_LNK (Opened (Dir (UeventWritable true) []));
        Dirent "loop0" DT_LNK OpenatFails ]%string.

(** The same tree enumerated in another order. *)
Definition example_sda_reordered : dir :=
  Dir (UeventWritable true)
      [ Dirent "uevent" DT_REG OpenatFails;
        Dirent "queue" DT_DIR (Opened (Dir (UeventWritable true) []));
        Dirent "sda1" DT_DIR (Opened (Dir (UeventWritable false) []));
        Dirent "subsystem" DT_LNK (Opened (Dir (UeventWritable true) [])) ]%string.

Definition example_tree_reordered : dir :=
  Dir UeventAbsent
      [ Dirent "." DT_DIR (Opened (Dir (UeventWritable true) []));
        Dirent ".." DT_DIR (Opened (Dir (UeventWritable true) []));
        Dirent "sr0" DT_LNK (Opened (Dir (UeventWritable true) []));
        Dirent "sda" DT_LNK (Opened example_sda_reordered);
        Dirent "loop0" DT_LNK OpenatFails ]%string.

Definition example_env (fstab : option (list fstab_rec)) (cmdline : string)
  : env :=
  healthy_env fstab (Some cmdline) (fun _ => false) (Some example_tree).

(* ================================================================== *)
(** ** Further vocabulary: outcomes, registry, descriptors, options *)
(* ================================================================== *)

(** A string cut in two at the start of its trailing run of decimal
    digits: what precedes the run, and the run. *)
Fixpoint trailing_split (s : string) : string * string :=
  match s with
  | EmptyString => (EmptyString, EmptyString)
  | String c s' =>
      let '(b, d) := trailing_split s' in
      match b with
      | EmptyString =>
          if Std.isdigit c then (EmptyString, String c d)
          else (String c EmptyString, d)
      | _ => (String c b, d)
      end
  end.

(** The command line is readable and carries a non-empty [SDCARD=]
    token. *)
Definition sdcard_token_present (e : env) : bool :=
  match proc_cmdline e with
  | Some path =>
      match raw_token path with
      | Some t => negb (String.eqb t "")
      | None => false
      end
  | None => false
  end.

(** The fstab loads, and the [SDCARD=] token is not accessible under
    [/sys/block] and ends in a run of digits that denotes a number above
    [INT_MAX]. *)
Definition sdcard_overflow (e : env) : bool :=
  match fs_mgr_read_fstab e, proc_cmdline e with
  | Some _, Some path =>
      match raw_token path with
      | Some t =>
          negb (access_X_OK e ("/sys/block/" ++ t)%string)
          && negb (String.eqb (snd (trailing_split t)) "")
          && (Std.INT_MAX <? decimal (snd (trailing_split t)))
      | None => false
      end
  | _, _ => false
  end.

Definition is_some {A : Type} (o : option A) : bool :=
  match o with Some _ => true | None => false end.

(** The four [CHECK]s of [parse_args] pass. *)
Definition contexts_ok (e : env) : bool :=
  is_some (sBlkidContext e) && is_some (sBlkidUntrustedContext e)
  && is_some (sFsckContext e) && is_some (sFsckUntrustedContext e).

(** The fstab loads and has a vold-managed entry with a null block device
    or label. *)
Definition null_string_in_fstab (e : env) : bool :=
  match fs_mgr_read_fstab e with
  | Some recs => null_string recs
  | None => false
  end.

(** Every call whose failure makes [vold_main] call [exit(1)]
    succeeds. *)
Definition dependencies_ok (e : env) : bool :=
  VolumeManager_Instance e && NetlinkManager_Instance e && vm_start_ok e
  && nm_start_ok e && cl_startListener_ok e
  && (MINIVOLD e || ccl_startListener_ok e).

(** [vold_main] up to the call of [process_config], lines 60-121, with
    what follows as [k]; and from the return of [process_config] on,
    lines 125-159. *)
Definition before_config (e : env) (k : M unit) : M unit :=
  emit (EvCall "setenv ANDROID_LOG_TAGS") ;;
  emit (EvCall "InitLogging") ;;
  emit (EvLog "Vold 3.0 (the awakening) firing up") ;;
  parse_args e ;;
  emit (EvCall "selinux_android_file_context_handle") ;;
  emit (EvCall "fcntl vold FD_CLOEXEC") ;;
  emit (EvCall "fcntl cryptd FD_CLOEXEC") ;;
  emit (EvCall "mkdir /dev/block/vold") ;;
  emit (EvCall "klog_set_level 6") ;;
  or_die (VolumeManager_Instance e) "Unable to create VolumeManager" ;;
  or_die (NetlinkManager_Instance e) "Unable to create NetlinkManager" ;;
  when (prop_vold_debug e) (emit EvSetDebug) ;;
  emit EvNewCommandListener ;;
  when (negb (MINIVOLD e)) (emit EvNewCryptCommandListener) ;;
  emit EvSetBroadcasters ;;
  emit (EvVolumeManagerStart (vm_start_ok e)) ;;
  or_die (vm_start_ok e) "Unable to start VolumeManager" ;;
  k.

Definition after_config (e : env) (rc : Z) : M unit :=
  when (negb (rc =? 0))
       (emit (EvLog "Error reading configuration... continuing anyways")) ;;
  emit (EvNetlinkManagerStart (nm_start_ok e)) ;;
  or_die (nm_start_ok e) "Unable to start NetlinkManager" ;;
  emit_all (map EvColdboot (coldboot "/sys/block" (sys_block e))) ;;
  emit (EvStartListener "CommandListener" (cl_startListener_ok e)) ;;
  or_die (cl_startListener_ok e) "Unable to start CommandListener" ;;
  when (negb (MINIVOLD e))
       (emit (EvStartListener "CryptCommandListener" (ccl_startListener_ok e)) ;;
        or_die (ccl_startListener_ok e) "Unable to start CryptCommandListener") ;;
  h <- get_has_adoptable ;;
  emit (EvPropertySet "vold.has_adoptable"
          (option_map (fun b : bool => if b then "1" else "0") h)) ;;
  emit EvIdleLoop.

(** A computation ends with the result [r] from every state. *)
Definition returns {A : Type} (m : M A) (r : result A) : Prop :=
  forall w : world, fst (m w) = r.

(** In the events a computation appends, an event that satisfies [guard]
    comes before the first one that satisfies [trigger]. *)
Definition guards {A : Type} (trigger guard : event -> bool) (m : M A)
  : Prop :=
  forall w : world,
    exists evs,
      trace (snd (m w)) = trace w ++ evs
      /\ (forallb (fun ev => negb (trigger ev)) evs = true
          \/ exists a g b,
               evs = a ++ g :: b
               /\ forallb (fun ev => negb (trigger ev)) a = true
               /\ guard g = true).

Definition is_NetlinkStarted (ev : event) : bool :=
  match ev with EvNetlinkManagerStart true => true | _ => false end.

Definition is_PropertySet (ev : event) : bool :=
  match ev with EvPropertySet _ _ => true | _ => false end.

Definition is_ListenerStarted (name : string) (ev : event) : bool :=
  match ev with
  | EvStartListener n true => String.eqb n name
  | _ => false
  end.

Definition is_VolumeManagerStarted (ev : event) : bool :=
  match ev with EvVolumeManagerStart true => true | _ => false end.

(** File descriptors and directory streams a run obtained, and those it
    released. [fdopendir] takes over the descriptor it is given. *)
Fixpoint descriptors_opened (t : list syscall) : nat :=
  match t with
  | [] => O
  | sys_opendir _ true :: t' => S (descriptors_opened t')
  | sys_openat_wronly _ true :: t' => S (descriptors_opened t')
  | sys_openat_directory _ true :: t' => S (descriptors_opened t')
  | _ :: t' => descriptors_opened t'
  end.

Fixpoint descriptors_closed (t : list syscall) : nat :=
  match t with
  | [] => O
  | sys_close _ :: t' => S (descriptors_closed t')
  | sys_closedir _ :: t' => S (descriptors_closed t')
  | _ :: t' => descriptors_closed t'
  end.

(** The three enumerators are non-zero and share no bit. *)
Definition distinct_flags (F : DiskFlags) : Prop :=
  kAdoptable <> 0 /\ kDefaultPrimary <> 0 /\ kNonRemovable <> 0
  /\ Z.land kAdoptable kDefaultPrimary = 0
  /\ Z.land kAdoptable kNonRemovable = 0
  /\ Z.land kDefaultPrimary kNonRemovable = 0.

(** The four contexts set by [parse_args]. *)
Record contexts : Type := mkContexts {
  c_blkid : option string;
  c_blkid_untrusted : option string;
  c_fsck : option string;
  c_fsck_untrusted : option string
}.

(** Lines 175-180: the [switch] on the value [c] returned by
    [getopt_long], with [optarg]. *)
Definition set_context (cs : contexts) (opt : ascii * string) : contexts :=
  let '(c, optarg) := opt in
  if Ascii.eqb c "b" then
    mkContexts (Some optarg) (c_blkid_untrusted cs) (c_fsck cs)
               (c_fsck_untrusted cs)
  else if Ascii.eqb c "B" then
    mkContexts (c_blkid cs) (Some optarg) (c_fsck cs) (c_fsck_untrusted cs)
  else if Ascii.eqb c "f" then
    mkContexts (c_blkid cs) (c_blkid_untrusted cs) (Some optarg)
               (c_fsck_untrusted cs)
  else if Ascii.eqb c "F" then
    mkContexts (c_blkid cs) (c_blkid_untrusted cs) (c_fsck cs) (Some optarg)
  else cs.

(** Lines 174-181: the loop over the successive results of [getopt_long],
    given as the list of the pairs of the returned character and
    [optarg], from the contexts [cs] it starts with. *)
Definition scan_options (opts : list (ascii * string)) (cs : contexts)
  : contexts :=
  fold_left set_context opts cs.

(** The environment in which the four contexts are [cs]. *)
Definition with_contexts (e : env) (cs : contexts) : env :=
  mkEnv (c_blkid cs) (c_blkid_untrusted cs) (c_fsck cs)
        (c_fsck_untrusted cs)
        (MINIVOLD e) (VolumeManager_Instance e) (NetlinkManager_Instance e)
        (prop_vold_debug e) (vm_start_ok e) (nm_start_ok e)
        (cl_startListener_ok e) (ccl_startListener_ok e)
        (DefaultFstabPath e) (fs_mgr_read_fstab e)
        (prop_vold_debug_default_primary e) (proc_cmdline e)
        (access_X_OK e) (sys_block e).

(** [o] when it is set, [d] otherwise. *)
Definition or_else {A : Type} (o d : option A) : option A :=
  match o with Some x => Some x | None => d end.

(** The last [optarg] given with the character [c], if any. *)
Fixpoint last_optarg (c : ascii) (opts : list (ascii * string))
  : option string :=
  match opts with
  | [] => None
  | (c', a) :: opts' =>
      match last_optarg c opts' with
      | Some a' => Some a'
      | None => if Ascii.eqb c' c then Some a else None
      end
  end.

(* ================================================================== *)
(** ** Strings *)
(* ================================================================== *)

Section Strings.
Local Open Scope string_scope.
Local Open Scope nat_scope.

Lemma append_nil_r (s : string) : s ++ "" = s.
Proof. induction s; simpl; congruence. Qed.

Lemma append_assoc (a b c : string) : (a ++ b) ++ c = a ++ b ++ c.
Proof. induction a; simpl; congruence. Qed.

Lemma length_append (a b : string) :
  String.length (a ++ b) = String.length a + String.length b.
Proof. induction a; simpl; congruence. Qed.

Lemma list_of_append (a b : string) :
  list_ascii_of_string (a ++ b)
  = (list_ascii_of_string a ++ list_ascii_of_string b)%list.
Proof. induction a; simpl; congruence. Qed.

Lemma length_list_of (s : string) :
  List.length (list_ascii_of_string s) = String.length s.
Proof. induction s; simpl; congruence. Qed.

Lemma starts_with_true (s n : string) :
  Std.starts_with s n = true <-> exists b, s = n ++ b.
Proof.
  revert s; induction n as [|c n IH]; intros s; simpl.
  - split; [intros _; now exists s | reflexivity].
  - destruct s as [|c' s].
    + split; [discriminate | intros [b Hb]; discriminate].
    + destruct (Ascii.eqb_spec c c') as [->|Hne]; simpl.
      * rewrite IH. split; intros [b Hb]; exists b; congruence.
      * split; [discriminate | intros [b Hb]; congruence].
Qed.

Lemma find_at_Some (s n : string) (k m : nat) :
  Std.find_at s n k = Some m ->
  exists a b, s = a ++ n ++ b /\ m = k + String.length a.
Proof.
  revert k; induction s as [|c s IH]; intros k; simpl.
  - destruct (Std.starts_with "" n) eqn:P; [|discriminate].
    intros [= <-]. apply starts_with_true in P as [b Hb].
    exists "", b. simpl. split; [assumption | lia].
  - destruct (Std.starts_with (String c s) n) eqn:P.
    + intros [= <-]. apply starts_with_true in P as [b Hb].
      exists "", b. simpl. split; [assumption | lia].
    + intros H. apply IH in H as (a & b & -> & ->).
      exists (String c a), b. simpl. split; [reflexivity | lia].
Qed.

Lemma find_at_None (s n : string) (k : nat) :
  Std.find_at s n k = None -> ~ contains s n.
Proof.
  revert k; induction s as [|c s IH]; intros k; simpl.
  - destruct (Std.starts_with "" n) eqn:P; [discriminate|].
    intros _ (a & b & H). destruct a; simpl in H.
    + assert (Std.starts_with "" n = true) by (apply starts_with_true; now exists b).
      congruence.
    + discriminate.
  - destruct (Std.starts_with (String c s) n) eqn:P; [discriminate|].
    intros H (a & b & Hs). destruct a as [|c' a]; simpl in Hs.
    + assert (Std.starts_with (String c s) n = true)
        by (apply starts_with_true; now exists b).
      congruence.
    + injection Hs as -> ->. apply (IH _ H). now exists a, b.
Qed.

Lemma find_Some_contains (s n : string) (m : nat) :
  Std.find s n = Some m -> contains s n.
Proof.
  intros H. apply find_at_Some in H as (a & b & -> & _). now exists a, b.
Qed.

Lemma find_None_iff (s n : string) :
  Std.find s n = None <-> ~ contains s n.
Proof.
  split; [apply find_at_None|].
  intros H. destruct (Std.find s n) eqn:E; [|reflexivity].
  exfalso. apply H. eapply find_Some_contains; eassumption.
Qed.

(** [path.substr(pos + 7)] at line 278 is within the string. *)
Lemma find_at_bound (s n : string) (m : nat) :
  Std.find s n = Some m -> m + String.length n <= String.length s.
Proof.
  intros H. apply find_at_Some in H as (a & b & -> & ->).
  rewrite !length_append. lia.
Qed.

Lemma drop_append (a b : string) : Std.drop (String.length a) (a ++ b) = b.
Proof. induction a; simpl; [destruct b|]; auto. Qed.

Lemma take_append (a b : string) : Std.take (String.length a) (a ++ b) = a.
Proof. induction a; simpl; [destruct b|]; congruence. Qed.

(** A non-empty string is its first [length - 1] characters followed by
    its last character. *)
Lemma take_pred_snoc (s : string) :
  s <> "" ->
  exists c, s = Std.take (String.length s - 1) s ++ String c "".
Proof.
  induction s as [|c s IH]; [congruence|]. intros _.
  destruct s as [|c' s].
  - exists c. reflexivity.
  - destruct IH as [x Hx]; [discriminate|]. exists x.
    simpl String.length in *.
    replace (S (S (String.length s)) - 1) with (S (String.length s)) by lia.
    replace (S (String.length s) - 1) with (String.length s) in Hx by lia.
    simpl. simpl in Hx. congruence.
Qed.

Lemma contains_length (s n : string) :
  contains s n -> String.length n <= String.length s.
Proof. intros (a & b & ->). rewrite !length_append. lia. Qed.

End Strings.
Section Digits.
Local Open Scope string_scope.
Local Open Scope nat_scope.

Lemma find_if_not_skip {A : Type} (p : A -> bool) (l r : list A) :
  forallb p l = true -> Std.find_if_not p (l ++ r) = Std.find_if_not p r.
Proof.
  induction l as [|x l IH]; simpl; [reflexivity|].
  intros H. apply andb_prop in H as [Hx Hl]. rewrite Hx. auto.
Qed.

Lemma forallb_rev' {A : Type} (p : A -> bool) (l : list A) :
  forallb p (rev l) = forallb p l.
Proof.
  induction l as [|x l IH]; [reflexivity|]. simpl.
  rewrite forallb_app, IH. simpl. rewrite andb_true_r. apply andb_comm.
Qed.

Lemma all_digits_forallb (s : string) :
  all_digits s = forallb Std.isdigit (list_ascii_of_string s).
Proof. induction s; simpl; congruence. Qed.

Lemma last_char_None (s : string) : last_char s = None -> s = "".
Proof.
  induction s as [|c s IH]; [reflexivity|]. simpl.
  destruct s; [discriminate|]. intros H. specialize (IH H). discriminate.
Qed.

Lemma last_char_Some (s : string) (c : ascii) :
  last_char s = Some c -> exists s', s = s' ++ String c "".
Proof.
  induction s as [|x s IH]; [discriminate|]. simpl.
  destruct s as [|y s].
  - intros [= ->]. now exists "".
  - intros H. destruct (IH H) as [s' Hs']. exists (String x s').
    simpl. congruence.
Qed.

Lemma find_if_not_base (base : string) :
  ends_in_digit base = false ->
  Std.find_if_not Std.isdigit (Std.rrange base) = Std.rrange base.
Proof.
  unfold ends_in_digit, Std.rrange. destruct (last_char base) eqn:L.
  - apply last_char_Some in L as [s' ->]. intros H.
    rewrite list_of_append, rev_app_distr. simpl. now rewrite H.
  - apply last_char_None in L as ->. reflexivity.
Qed.

(** Line 284: [pos] is the length of the token without its trailing
    digits. *)
Lemma trailing_pos (base digits : string) :
  all_digits digits = true -> ends_in_digit base = false ->
  Std.distance (Std.find_if_not Std.isdigit (Std.rrange (base ++ digits)))
  = String.length base.
Proof.
  intros Hd Hb. unfold Std.rrange at 1.
  rewrite list_of_append, rev_app_distr, find_if_not_skip.
  - fold (Std.rrange base). rewrite find_if_not_base by assumption.
    unfold Std.distance, Std.rrange.
    now rewrite length_rev, length_list_of.
  - rewrite forallb_rev', <- all_digits_forallb. assumption.
Qed.

Lemma find_if_not_length {A : Type} (p : A -> bool) (l : list A) :
  List.length (Std.find_if_not p l) <= List.length l.
Proof.
  induction l as [|x l IH]; simpl; [lia|]. destruct (p x); simpl; lia.
Qed.

(** [sdcard.substr(pos)] at line 286 is within the string. *)
Lemma trailing_pos_le (s : string) :
  Std.distance (Std.find_if_not Std.isdigit (Std.rrange s))
  <= String.length s.
Proof.
  unfold Std.distance. etransitivity; [apply find_if_not_length|].
  unfold Std.rrange. now rewrite length_rev, length_list_of.
Qed.

Lemma isdigit_range (c : ascii) :
  Std.isdigit c = true -> 48 <= nat_of_ascii c <= 57.
Proof.
  unfold Std.isdigit. intros H. apply andb_prop in H as [H1 H2].
  apply Nat.leb_le in H1, H2. lia.
Qed.

Lemma isdigit_not_space (c : ascii) :
  Std.isdigit c = true -> Std.isspace c = false.
Proof.
  intros H. apply isdigit_range in H. unfold Std.isspace.
  apply orb_false_iff. split.
  - apply Nat.eqb_neq. lia.
  - apply andb_false_iff. right. apply Nat.leb_gt. lia.
Qed.

Lemma isdigit_not_char (c x : ascii) :
  Std.isdigit c = true -> Std.isdigit x = false ->
  Ascii.eqb c x = false.
Proof.
  intros H Hx. destruct (Ascii.eqb_spec c x) as [->|]; congruence.
Qed.

Local Open Scope Z_scope.

Lemma digits_value_fold (s : string) (acc : Z) :
  all_digits s = true ->
  Std.digits_value s acc
  = fold_left (fun a c => a * 10 + Std.digit_val c)
              (list_ascii_of_string s) acc.
Proof.
  revert acc; induction s as [|c s IH]; intros acc; simpl; [reflexivity|].
  intros H. apply andb_prop in H as [Hc Hs]. rewrite Hc. auto.
Qed.

Lemma fold_digits_nonneg (l : list ascii) (acc : Z) :
  forallb Std.isdigit l = true -> 0 <= acc ->
  0 <= fold_left (fun a c => a * 10 + Std.digit_val c) l acc.
Proof.
  revert acc; induction l as [|c l IH]; intros acc; simpl; [auto|].
  intros H Ha. apply andb_prop in H as [Hc Hl]. apply IH; [assumption|].
  apply isdigit_range in Hc. unfold Std.digit_val. lia.
Qed.

Lemma decimal_nonneg (s : string) : all_digits s = true -> 0 <= decimal s.
Proof.
  intros H. apply fold_digits_nonneg; [|lia].
  now rewrite <- all_digits_forallb.
Qed.

(** Line 286 on a non-empty run of digits. *)
Lemma stoi_digits (s : string) :
  all_digits s = true -> s <> "" ->
  Std.stoi s = if decimal s <=? Std.INT_MAX then Std.StoiValue (decimal s)
               else Std.StoiOutOfRange.
Proof.
  intros Ha Hne. destruct s as [|c s]; [congruence|].
  pose proof Ha as Hc. simpl in Hc. apply andb_prop in Hc as [Hc _].
  unfold Std.stoi. simpl Std.skip_space.
  rewrite (isdigit_not_space c Hc).
  rewrite (isdigit_not_char c "-" Hc) by reflexivity.
  rewrite (isdigit_not_char c "+" Hc) by reflexivity.
  rewrite Hc. rewrite digits_value_fold by assumption.
  fold (decimal (String c s)).
  pose proof (decimal_nonneg _ Ha) as Hpos.
  replace (Std.INT_MIN <=? decimal (String c s)) with true
    by (symmetry; apply Z.leb_le; unfold Std.INT_MIN; lia).
  reflexivity.
Qed.

End Digits.

(* ================================================================== *)
(** ** The [SDCARD=] token of the kernel command line *)
(* ================================================================== *)

Ltac run_monad :=
  cbv beta iota delta [bind emit emit_all ret addDiskSource set_has_adoptable
                       when abort exit].

Section Cmdline.
Context {F : DiskFlags}.
Variable e : env.
Local Open Scope string_scope.
Local Open Scope Z_scope.

Lemma raw_token_None_iff (path : string) :
  raw_token path = None <-> ~ contains path "SDCARD=".
Proof.
  unfold raw_token. rewrite <- find_None_iff.
  destruct (Std.find path "SDCARD="); split; congruence.
Qed.

Lemma find_first_of_None (s : string) (k : nat) :
  Std.find_first_of_at s space_nl k = None -> no_separator s = true.
Proof.
  revert k; induction s as [|c s IH]; intros k;
    cbn [Std.find_first_of_at no_separator]; [reflexivity|].
  destruct (Std.mem_char c space_nl); [discriminate|]. simpl. apply IH.
Qed.

Lemma find_first_of_Some (s : string) (k m : nat) :
  Std.find_first_of_at s space_nl k = Some m ->
  exists a c b, s = a ++ String c b /\ m = (k + String.length a)%nat
                /\ Std.mem_char c space_nl = true
                /\ no_separator a = true.
Proof.
  revert k; induction s as [|c s IH]; intros k;
    cbn [Std.find_first_of_at]; [discriminate|].
  destruct (Std.mem_char c space_nl) eqn:Hc.
  - intros [= <-]. exists "", c, s. cbn [append String.length no_separator].
    repeat split; auto; lia.
  - intros H. apply IH in H as (a & c' & b & -> & -> & Hc' & Ha).
    exists (String c a), c', b. cbn [append String.length no_separator].
    rewrite Hc, Ha. repeat split; auto; lia.
Qed.

(** What [raw_token] extracts: the text between the first [SDCARD=] and
    the next space or newline (or the end of the command line). *)
Lemma raw_token_shape (path t : string) :
  raw_token path = Some t ->
  exists pre rest,
    path = pre ++ "SDCARD=" ++ t ++ rest
    /\ Std.find path "SDCARD=" = Some (String.length pre)
    /\ no_separator t = true
    /\ (rest = "" \/ exists c r, rest = String c r
                                 /\ Std.mem_char c space_nl = true).
Proof.
  unfold raw_token. destruct (Std.find path "SDCARD=") as [pos|] eqn:Hf;
    [|discriminate].
  pose proof Hf as Hf'.
  apply find_at_Some in Hf as (a & b & -> & ->). simpl Nat.add in *.
  intros Ht. exists a.
  assert (Hd : Std.substr (a ++ "SDCARD=" ++ b) (String.length a + 7) None
               = b).
  { unfold Std.substr. rewrite <- append_assoc.
    replace (String.length a + 7)%nat
      with (String.length (a ++ "SDCARD=")) by (rewrite length_append; reflexivity).
    apply drop_append. }
  cbv zeta in Ht. rewrite Hd in Ht. unfold Std.find_first_of in Ht.
  destruct (Std.find_first_of_at b space_nl 0) as [m|] eqn:Hm.
  - apply find_first_of_Some in Hm as (t' & c & r & -> & -> & Hc & Ht').
    unfold Std.substr in Ht. cbn [Std.drop Nat.add] in Ht.
    rewrite take_append in Ht. injection Ht as <-.
    exists (String c r). repeat split; auto. right. now exists c, r.
  - unfold Std.substr in Ht. cbn [Std.drop] in Ht. injection Ht as <-.
    exists "". rewrite append_nil_r.
    repeat split; auto. eapply find_first_of_None; eassumption.
Qed.

Lemma contains_nonempty (s n : string) :
  contains s n -> n <> "" -> s <> "".
Proof.
  intros H Hn ->. apply contains_length in H. destruct n; [congruence|].
  simpl in H. lia.
Qed.

Lemma take_idem (n : nat) (s : string) :
  Std.take n (Std.take n s) = Std.take n s.
Proof.
  revert s; induction n as [|n IH]; intros [|c s]; simpl; congruence.
Qed.

Lemma strip_separator_found (base : string) :
  contains base "mmcblk" \/ contains base "nvme" ->
  exists c, base = strip_separator base (String.length base) ++ String c "".
Proof.
  intros H.
  assert (Hne : base <> "").
  { destruct H as [H|H]; eapply contains_nonempty; eauto; discriminate. }
  destruct (take_pred_snoc base Hne) as [c Hc].
  exists c. unfold strip_separator, Std.substr. cbn [Std.drop].
  destruct (Std.find base "mmcblk") eqn:E1.
  - destruct (Std.find _ "nvme") eqn:E2; [|assumption].
    rewrite take_idem. assumption.
  - destruct (Std.find base "nvme") eqn:E2; [assumption|].
    apply find_None_iff in E1, E2. tauto.
Qed.

Lemma strip_separator_not_found (base : string) :
  ~ contains base "mmcblk" -> ~ contains base "nvme" ->
  strip_separator base (String.length base) = base.
Proof.
  intros H1 H2. apply find_None_iff in H1, H2.
  unfold strip_separator. now rewrite H1, H2.
Qed.

(** [pos - 1] at lines 290 and 294 does not wrap around: a name that
    contains one of the two substrings is not empty. *)
Lemma strip_separator_pos (base : string) :
  contains base "mmcblk" \/ contains base "nvme" ->
  (0 < String.length base)%nat.
Proof.
  intros [H|H]; apply contains_length in H; simpl in H; lia.
Qed.

Lemma split_partition_digits (base digits : string) (w : world) :
  all_digits digits = true -> digits <> "" -> ends_in_digit base = false ->
  split_partition (base ++ digits) w
  = if decimal digits <=? Std.INT_MAX
    then (Ret (strip_separator base (String.length base), decimal digits), w)
    else (Aborted, w).
Proof.
  intros Hd Hne Hb. unfold split_partition.
  rewrite trailing_pos by assumption.
  assert (Hlen : (String.length base =? String.length (base ++ digits))%nat
                 = false).
  { apply Nat.eqb_neq. rewrite length_append.
    destruct digits; [congruence|]. simpl. lia. }
  rewrite Hlen. simpl negb. cbv iota.
  unfold Std.substr at 1. rewrite drop_append.
  rewrite stoi_digits by assumption.
  destruct (decimal digits <=? Std.INT_MAX); [|reflexivity].
  assert (Hs : Std.substr (base ++ digits) 0 (Some (String.length base))
               = base) by apply take_append.
  rewrite !Hs. reflexivity.
Qed.

Lemma split_partition_no_digits (sdcard : string) (w : world) :
  ends_in_digit sdcard = false ->
  split_partition sdcard w = (Ret (sdcard, -1), w).
Proof.
  intros H. unfold split_partition.
  rewrite find_if_not_base by assumption.
  unfold Std.distance, Std.rrange. rewrite length_rev, length_list_of.
  rewrite Nat.eqb_refl. reflexivity.
Qed.

Lemma process_cmdline_token (path sdcard : string) (w : world) :
  raw_token path = Some sdcard -> sdcard <> "" ->
  process_cmdline e path w
  = let accessible := access_X_OK e ("/sys/block/" ++ sdcard) in
    let w1 := mkWorld (mDiskSources w) (has_adoptable w)
                      (trace w ++ [EvAccess ("/sys/block/" ++ sdcard)
                                            accessible]) in
    match (if accessible then (Ret (sdcard, -1), w1)
           else split_partition sdcard w1) with
    | (Ret (name, partnum), w2) =>
        (Ret tt,
         mkWorld (mDiskSources w2 ++ [sdcard_rule name partnum])
                 (Some true)
                 ((trace w2 ++ [EvAddDiskSource (sdcard_rule name partnum)])
                  ++ [EvLogSdcard name partnum]))
    | (Exit c, w2) => (Exit c, w2)
    | (Aborted, w2) => (Aborted, w2)
    end.
Proof.
  intros Ht Hne. unfold process_cmdline. rewrite Ht.
  destruct (String.eqb_spec sdcard "") as [|_]; [congruence|].
  cbn [negb]. cbv zeta.
  destruct (access_X_OK e ("/sys/block/" ++ sdcard)); cbn [negb]; run_monad.
  - reflexivity.
  - destruct (split_partition sdcard _) as [[[name partnum]| |] w2];
      reflexivity.
Qed.

End Cmdline.

(* ================================================================== *)
(** ** The loop over the fstab entries and [process_config] as a whole *)
(* ================================================================== *)

Section Fstab.
Context {F : DiskFlags}.
Variable e : env.

(** One iteration of the loop, lines 243-272. *)
Lemma process_fstab_rec_run (r : fstab_rec) (w : world) :
  process_fstab_rec e r w
  = if fs_mgr_is_voldmanaged r then
      match rule_strings r with
      | Some (sysPattern, nickname) =>
          (Ret tt,
           mkWorld (mDiskSources w
                    ++ [DiskSource_of_rec e r sysPattern nickname])
                   (if fs_mgr_is_encryptable r then Some true
                    else has_adoptable w)
                   (trace w
                    ++ [EvAddDiskSource
                          (DiskSource_of_rec e r sysPattern nickname)]))
      | None => (Aborted, w)
      end
    else (Ret tt, w).
Proof.
  unfold process_fstab_rec, rule_strings.
  destruct (fs_mgr_is_voldmanaged r); [|reflexivity].
  destruct (blk_device r); [|reflexivity].
  destruct (label r); [|reflexivity].
  destruct (fs_mgr_is_encryptable r); reflexivity.
Qed.

Lemma before_null_string_all (recs : list fstab_rec) :
  null_string recs = false -> before_null_string recs = recs.
Proof.
  induction recs as [|r recs IH]; [reflexivity|].
  cbn [null_string existsb before_null_string]. intros H.
  apply orb_false_iff in H as [Hr Hrecs]. rewrite Hr. f_equal. now apply IH.
Qed.

(** The loop, lines 242-273: it stops at the first vold-managed entry
    with a null block device or label. *)
Lemma for_each_fstab (recs : list fstab_rec) (w : world) :
  for_each recs (process_fstab_rec e) w
  = (if null_string recs then Aborted else Ret tt,
     mkWorld (mDiskSources w ++ fstab_rules e (before_null_string recs))
             (if any_adoptable (before_null_string recs) then Some true
              else has_adoptable w)
             (trace w
              ++ map EvAddDiskSource
                     (fstab_rules e (before_null_string recs)))).
Proof.
  revert w; induction recs as [|r recs IH]; intros w.
  - unfold fstab_rules. simpl. unfold ret. rewrite !app_nil_r.
    now destruct w.
  - cbn [for_each]. unfold bind at 1. rewrite process_fstab_rec_run.
    cbn [null_string existsb before_null_string]. unfold is_null_string.
    destruct (fs_mgr_is_voldmanaged r) eqn:Hv; cbn [andb orb].
    + destruct (rule_strings r) as [[sysPattern nickname]|] eqn:Hl;
        cbn [orb].
      * rewrite IH. unfold fstab_rules, any_adoptable.
        cbn [flat_map existsb mDiskSources has_adoptable trace].
        rewrite Hv, Hl. cbn [andb app map].
        rewrite <- !app_assoc. cbn [app].
        destruct (fs_mgr_is_encryptable r); cbn [orb]; [|reflexivity].
        now destruct (existsb _ (before_null_string recs)).
      * unfold fstab_rules. simpl. rewrite !app_nil_r. now destruct w.
    + rewrite IH. unfold fstab_rules, any_adoptable.
      cbn [flat_map existsb]. rewrite Hv. reflexivity.
Qed.

(** [process_config] once the fstab is loaded and its loop is not
    stopped: the loop, then the command line. *)
Lemma process_config_loaded (recs : list fstab_rec) (w : world) :
  fs_mgr_read_fstab e = Some recs ->
  null_string recs = false ->
  process_config e w
  = match proc_cmdline e with
    | Some path =>
        match process_cmdline e path
                (after_read_cmdline true (after_fstab e w recs)) with
        | (Ret _, w2) => (Ret 0, w2)
        | (Exit c, w2) => (Exit c, w2)
        | (Aborted, w2) => (Aborted, w2)
        end
    | None => (Ret 0, after_read_cmdline false (after_fstab e w recs))
    end.
Proof.
  intros Hf Hn. unfold process_config. rewrite Hf.
  unfold bind at 1. cbn [emit]. unfold bind at 1. cbn [set_has_adoptable].
  unfold bind at 1. rewrite for_each_fstab, Hn, (before_null_string_all recs Hn).
  cbn [mDiskSources has_adoptable trace].
  assert (Hw : forall evs : list event,
    mkWorld (mDiskSources w ++ fstab_rules e recs)
            (if any_adoptable recs then Some true else Some false)
            ((trace w ++ [EvReadFstab (DefaultFstabPath e) true])
               ++ map EvAddDiskSource (fstab_rules e recs))
    = after_fstab e w recs).
  { intros _. unfold after_fstab. rewrite <- app_assoc.
    now destruct (any_adoptable recs). }
  rewrite (Hw []).
  destruct (proc_cmdline e) as [path|]; run_monad.
  - fold (after_read_cmdline true (after_fstab e w recs)).
    destruct (process_cmdline e path _) as [[[]| |] w2]; reflexivity.
  - reflexivity.
Qed.

(** [process_config] when the loop is stopped by a null block device or
    label: the process is terminated with what the entries before it registered, and
    the command line is not read. *)
Lemma process_config_null_string (recs : list fstab_rec) (w : world) :
  fs_mgr_read_fstab e = Some recs ->
  null_string recs = true ->
  process_config e w
  = (Aborted, after_fstab e w (before_null_string recs)).
Proof.
  intros Hf Hn. unfold process_config. rewrite Hf.
  unfold bind at 1. cbn [emit]. unfold bind at 1. cbn [set_has_adoptable].
  unfold bind at 1. rewrite for_each_fstab, Hn.
  cbn [mDiskSources has_adoptable trace]. unfold after_fstab.
  rewrite <- app_assoc.
  now destruct (any_adoptable (before_null_string recs)).
Qed.

(** [process_config] when the fstab cannot be loaded, lines 234-238. *)
Lemma process_config_not_loaded (w : world) :
  fs_mgr_read_fstab e = None ->
  process_config e w
  = (Ret (-1),
     mkWorld (mDiskSources w) (has_adoptable w)
             (trace w ++ [EvReadFstab (DefaultFstabPath e) false;
                          EvLog ("Failed to open default fstab "
                                 ++ DefaultFstabPath e)%string])).
Proof.
  intros Hf. unfold process_config. rewrite Hf. run_monad.
  cbn [mDiskSources has_adoptable trace]. now rewrite <- app_assoc.
Qed.

(** The command line adds at most one rule, at the end, and only ever
    sets the adoptable output to true. *)
Lemma process_cmdline_effect (path : string) (w : world) :
  exists tail,
    mDiskSources (snd (process_cmdline e path w)) = mDiskSources w ++ tail
    /\ (List.length tail <= 1)%nat
    /\ (forall ds, In ds tail ->
          exists name partnum, ds = sdcard_rule name partnum)
    /\ (has_adoptable w = Some true ->
        has_adoptable (snd (process_cmdline e path w)) = Some true).
Proof.
  destruct (raw_token path) as [sdcard|] eqn:Ht.
  2:{ unfold process_cmdline. rewrite Ht. exists []. simpl.
      rewrite app_nil_r. repeat split; auto. intros ? []. }
  destruct (String.eqb_spec sdcard "") as [->|Hne].
  { unfold process_cmdline. rewrite Ht. exists []. simpl.
    rewrite app_nil_r. repeat split; auto. intros ? []. }
  rewrite (process_cmdline_token e path sdcard w Ht Hne). cbv zeta.
  set (w1 := mkWorld _ _ _).
  assert (Hsp : forall s, snd (split_partition s w1) = w1).
  { intros s. unfold split_partition.
    destruct (negb _); [|reflexivity].
    destruct (Std.stoi _); reflexivity. }
  destruct (access_X_OK e _).
  - exists [sdcard_rule sdcard (-1)]. simpl. repeat split; auto.
    intros ds [<-|[]]. eauto.
  - specialize (Hsp sdcard).
    destruct (split_partition sdcard w1) as [[[name partnum]| |] w2];
      simpl in Hsp; subst w2.
    + exists [sdcard_rule name partnum]. simpl. repeat split; auto.
      intros ds [<-|[]]. eauto.
    + exists []. simpl. rewrite app_nil_r. repeat split; auto. intros ? [].
    + exists []. simpl. rewrite app_nil_r. repeat split; auto. intros ? [].
Qed.

End Fstab.

(* ================================================================== *)
(** ** Properties of the configuration builder *)
(* ================================================================== *)

Lemma lor_flag_set (x k : Z) : flag_set k (Z.lor x k).
Proof.
  unfold flag_set. apply Z.bits_inj'. intros n _.
  rewrite Z.land_spec, Z.lor_spec.
  destruct (Z.testbit x n), (Z.testbit k n); reflexivity.
Qed.

Lemma lor_keeps_flag (x k k' : Z) : flag_set k x -> flag_set k (Z.lor x k').
Proof.
  unfold flag_set. intros H. apply Z.bits_inj'. intros n _.
  rewrite Z.land_spec, Z.lor_spec.
  apply (f_equal (fun z => Z.testbit z n)) in H. rewrite Z.land_spec in H.
  destruct (Z.testbit x n), (Z.testbit k n), (Z.testbit k' n);
    simpl in *; congruence.
Qed.

Lemma any_adoptable_In (recs : list fstab_rec) (r : fstab_rec) :
  In r recs -> fs_mgr_is_voldmanaged r = true ->
  fs_mgr_is_encryptable r = true -> any_adoptable recs = true.
Proof.
  intros Hin Hv He. apply existsb_exists. exists r.
  split; [assumption|]. now rewrite Hv, He.
Qed.

Section Flags.
Context {F : DiskFlags}.
Variables (e : env) (r : fstab_rec) (sysPattern nickname : string).

Lemma flags_of_rec :
  ds_flags (DiskSource_of_rec e r sysPattern nickname)
  = Z.lor (Z.lor (if fs_mgr_is_encryptable r then kAdoptable else 0)
                 (if fs_mgr_is_noemulatedsd r
                     || prop_vold_debug_default_primary e
                  then kDefaultPrimary else 0))
          (if fs_mgr_is_nonremovable r then kNonRemovable else 0).
Proof.
  unfold DiskSource_of_rec. cbn [ds_flags].
  destruct (fs_mgr_is_encryptable r),
           (fs_mgr_is_noemulatedsd r || prop_vold_debug_default_primary e),
           (fs_mgr_is_nonremovable r);
    rewrite ?Z.lor_0_r, ?Z.lor_0_l; reflexivity.
Qed.

Lemma flags_adoptable :
  fs_mgr_is_encryptable r = true ->
  flag_set kAdoptable (ds_flags (DiskSource_of_rec e r sysPattern nickname)).
Proof.
  intros H. rewrite flags_of_rec, H.
  apply lor_keeps_flag, lor_keeps_flag. apply Z.land_diag.
Qed.

Lemma flags_default_primary :
  fs_mgr_is_noemulatedsd r = true
  \/ prop_vold_debug_default_primary e = true ->
  flag_set kDefaultPrimary (ds_flags (DiskSource_of_rec e r sysPattern nickname)).
Proof.
  intros H. rewrite flags_of_rec.
  replace (fs_mgr_is_noemulatedsd r || prop_vold_debug_default_primary e)
    with true by (symmetry; apply orb_true_iff; exact H).
  apply lor_keeps_flag, lor_flag_set.
Qed.

Lemma flags_non_removable :
  fs_mgr_is_nonremovable r = true ->
  flag_set kNonRemovable (ds_flags (DiskSource_of_rec e r sysPattern nickname)).
Proof.
  intros H. rewrite flags_of_rec, H. apply lor_flag_set.
Qed.

End Flags.

(** X19. What the loop over the fstab registers. An iteration appends a
    rule exactly when the entry is vold-managed and has a block device and
    a label: then it appends the rule of that entry; on a vold-managed
    entry whose block device or label is null the process is terminated
    and nothing is appended; on any other entry nothing changes. When no
    vold-managed entry has a null block device or label, the rules
    registered by [process_config] are those of the vold-managed entries,
    in fstab order, followed by at most the rule of the command line. The
    flags of a rule are the bitwise or of: Adoptable when the entry is
    encryptable, DefaultPrimary when it has no emulated storage or the
    debug property is set, NonRemovable when it is non-removable. An
    encryptable vold-managed entry makes the adoptable output true. *)
Theorem fstab_rules_of_labelled_entries
    {F : DiskFlags} (e : env) (recs : list fstab_rec) (w : world) :
  fs_mgr_read_fstab e = Some recs ->
  null_string recs = false ->
  (forall (r : fstab_rec) (w' : world),
      (exists ds, mDiskSources (snd (process_fstab_rec e r w'))
                  = mDiskSources w' ++ [ds])
      <-> fs_mgr_is_voldmanaged r = true
          /\ blk_device r <> None /\ label r <> None)
  /\ (forall (r : fstab_rec) (w' : world) (sysPattern nickname : string),
        fs_mgr_is_voldmanaged r = true ->
        blk_device r = Some sysPattern ->
        label r = Some nickname ->
        fst (process_fstab_rec e r w') = Ret tt
        /\ mDiskSources (snd (process_fstab_rec e r w'))
           = mDiskSources w' ++ [DiskSource_of_rec e r sysPattern nickname]
        /\ ds_sysPattern (DiskSource_of_rec e r sysPattern nickname)
           = sysPattern
        /\ ds_nickname (DiskSource_of_rec e r sysPattern nickname)
           = nickname
        /\ ds_partnum (DiskSource_of_rec e r sysPattern nickname)
           = partnum r)
  /\ (forall (r : fstab_rec) (w' : world),
        fs_mgr_is_voldmanaged r = true ->
        blk_device r = None \/ label r = None ->
        process_fstab_rec e r w' = (Aborted, w'))
  /\ (forall (r : fstab_rec) (w' : world),
        fs_mgr_is_voldmanaged r = false ->
        process_fstab_rec e r w' = (Ret tt, w'))
  /\ (exists tail,
        mDiskSources (snd (process_config e w))
        = mDiskSources w ++ fstab_rules e recs ++ tail
        /\ (List.length tail <= 1)%nat
        /\ forall ds, In ds tail ->
             exists name partnum, ds = sdcard_rule name partnum)
  /\ (forall (r : fstab_rec) (sysPattern nickname : string),
        ds_flags (DiskSource_of_rec e r sysPattern nickname)
        = Z.lor (Z.lor (if fs_mgr_is_encryptable r then kAdoptable else 0)
                       (if fs_mgr_is_noemulatedsd r
                           || prop_vold_debug_default_primary e
                        then kDefaultPrimary else 0))
                (if fs_mgr_is_nonremovable r then kNonRemovable else 0)
        /\ (fs_mgr_is_encryptable r = true ->
            flag_set kAdoptable
              (ds_flags (DiskSource_of_rec e r sysPattern nickname)))
        /\ (fs_mgr_is_noemulatedsd r = true
            \/ prop_vold_debug_default_primary e = true ->
            flag_set kDefaultPrimary
              (ds_flags (DiskSource_of_rec e r sysPattern nickname)))
        /\ (fs_mgr_is_nonremovable r = true ->
            flag_set kNonRemovable
              (ds_flags (DiskSource_of_rec e r sysPattern nickname))))
  /\ (forall r : fstab_rec,
        In r recs -> fs_mgr_is_voldmanaged r = true ->
        fs_mgr_is_encryptable r = true ->
        has_adoptable (after_fstab e w recs) = Some true
        /\ has_adoptable (snd (process_config e w)) = Some true).
Proof.
  intros Hf Hn. repeat apply conj.
  - intros r w'. rewrite process_fstab_rec_run. unfold rule_strings.
    destruct (fs_mgr_is_voldmanaged r);
      [destruct (blk_device r) as [sp|]; [destruct (label r) as [n|]|]|];
      cbn [snd mDiskSources].
    + split; [intros _; repeat split; discriminate | eauto].
    + split; [|intros (_ & _ & H); now destruct H]. intros [ds Hds].
      apply (f_equal (@List.length _)) in Hds.
      rewrite length_app in Hds. simpl in Hds. lia.
    + split; [|intros (_ & H & _); now destruct H]. intros [ds Hds].
      apply (f_equal (@List.length _)) in Hds.
      rewrite length_app in Hds. simpl in Hds. lia.
    + split; [|intros [H _]; discriminate H]. intros [ds Hds].
      apply (f_equal (@List.length _)) in Hds.
      rewrite length_app in Hds. simpl in Hds. lia.
  - intros r w' sp n Hv Hb Hl. rewrite process_fstab_rec_run.
    unfold rule_strings. rewrite Hv, Hb, Hl. repeat split.
  - intros r w' Hv Hl. rewrite process_fstab_rec_run. unfold rule_strings.
    rewrite Hv. destruct Hl as [-> | ->]; [reflexivity|].
    now destruct (blk_device r).
  - intros r w' Hv. rewrite process_fstab_rec_run, Hv. reflexivity.
  - rewrite (process_config_loaded e recs w Hf Hn).
    destruct (proc_cmdline e) as [path|].
    + destruct (process_cmdline_effect e path
                  (after_read_cmdline true (after_fstab e w recs)))
        as (tail & Hs & Hl & Ht).
      exists tail. split; [|split; [assumption | apply Ht]].
      destruct (process_cmdline e path _) as [[[]| |] w2];
        cbn [snd mDiskSources after_read_cmdline after_fstab] in *;
        rewrite Hs, <- app_assoc; reflexivity.
    + exists []. cbn [snd mDiskSources after_read_cmdline after_fstab].
      rewrite app_nil_r. split; [reflexivity|]. split; [simpl; lia|].
      intros ? [].
  - intros r sp n. repeat apply conj.
    + apply flags_of_rec.
    + apply flags_adoptable.
    + apply flags_default_primary.
    + apply flags_non_removable.
  - intros r Hin Hv He.
    pose proof (any_adoptable_In recs r Hin Hv He) as Ha.
    split; [cbn [after_fstab has_adoptable]; now rewrite Ha|].
    rewrite (process_config_loaded e recs w Hf Hn).
    destruct (proc_cmdline e) as [path|].
    + destruct (process_cmdline_effect e path
                  (after_read_cmdline true (after_fstab e w recs)))
        as (tail & _ & _ & _ & Hk).
      cbn [after_read_cmdline after_fstab has_adoptable] in Hk.
      rewrite Ha in Hk. specialize (Hk eq_refl).
      destruct (process_cmdline e path _) as [[[]| |] w2]; exact Hk.
    + cbn [snd after_read_cmdline after_fstab has_adoptable].
      now rewrite Ha.
Qed.

(** C5, amended. When the command line has no [SDCARD=], or the text
    between [SDCARD=] and the next space or newline character is empty
    (the two characters the scanner stops at; a tab or a carriage return
    does not end the token), the scanner changes nothing: the rules
    registered by [process_config] and its adoptable output are those the
    loop over the fstab leaves, and when that loop is not stopped
    [process_config] returns 0 with the rules of the fstab alone. *)
Theorem no_sdcard_token_no_rule
    {F : DiskFlags} (e : env) (recs : list fstab_rec) (path : string)
    (w : world) :
  fs_mgr_read_fstab e = Some recs ->
  proc_cmdline e = Some path ->
  ~ contains path "SDCARD=" \/ raw_token path = Some ""%string ->
  (forall w' : world, process_cmdline e path w' = (Ret tt, w'))
  /\ mDiskSources (snd (process_config e w))
     = mDiskSources
         (snd ((set_has_adoptable false ;;
                for_each recs (process_fstab_rec e)) w))
  /\ has_adoptable (snd (process_config e w))
     = has_adoptable
         (snd ((set_has_adoptable false ;;
                for_each recs (process_fstab_rec e)) w))
  /\ (null_string recs = false ->
      process_config e w
      = (Ret 0, after_read_cmdline true (after_fstab e w recs))
      /\ mDiskSources (snd (process_config e w))
         = mDiskSources w ++ fstab_rules e recs).
Proof.
  intros Hf Hc Ht.
  assert (Hp : forall w', process_cmdline e path w' = (Ret tt, w')).
  { intros w'. unfold process_cmdline.
    destruct Ht as [Ht|Ht]; [apply raw_token_None_iff in Ht|];
      rewrite Ht; reflexivity. }
  assert (Hr : null_string recs = false ->
               process_config e w
               = (Ret 0, after_read_cmdline true (after_fstab e w recs))).
  { intros Hn. rewrite (process_config_loaded e recs w Hf Hn), Hc, Hp.
    reflexivity. }
  split; [exact Hp|].
  unfold bind. cbn [set_has_adoptable]. rewrite for_each_fstab.
  cbn [snd mDiskSources has_adoptable].
  destruct (null_string recs) eqn:Hn.
  - rewrite (process_config_null_string e recs w Hf Hn).
    cbn [snd mDiskSources has_adoptable after_fstab].
    split; [reflexivity|]. split; [|discriminate].
    now destruct (any_adoptable (before_null_string recs)).
  - rewrite (Hr eq_refl), (before_null_string_all recs Hn).
    cbn [snd mDiskSources has_adoptable after_read_cmdline after_fstab].
    split; [reflexivity|]. split; [now destruct (any_adoptable recs)|].
    intros _. split; reflexivity.
Qed.

(** C3. A non-empty token for which [/sys/block/<token>] is accessible is
    registered as a whole disk: the name is the token and the partition
    number is -1. The same holds for a token that is not accessible and
    does not end in a decimal digit. *)
Theorem sdcard_whole_disk
    {F : DiskFlags} (e : env) (path sdcard : string) (w : world) :
  raw_token path = Some sdcard ->
  sdcard <> ""%string ->
  access_X_OK e ("/sys/block/" ++ sdcard)%string = true
  \/ ends_in_digit sdcard = false ->
  process_cmdline e path w
  = (Ret tt,
     after_sdcard w sdcard sdcard
                  (access_X_OK e ("/sys/block/" ++ sdcard)%string) (-1)).
Proof.
  intros Ht Hne Hc. rewrite (process_cmdline_token e path sdcard w Ht Hne).
  cbv zeta. unfold after_sdcard.
  destruct (access_X_OK e ("/sys/block/" ++ sdcard)%string).
  - cbn [mDiskSources trace]. now rewrite <- !app_assoc.
  - destruct Hc as [Hc|Hc]; [discriminate|].
    rewrite split_partition_no_digits by assumption.
    cbn [mDiskSources trace]. now rewrite <- !app_assoc.
Qed.

(** C2, amended. For a token that is not accessible under [/sys/block] and
    is [base] followed by a non-empty run [digits] of decimal digits, where
    [base] does not end in a digit and the run denotes a number of at most
    [INT_MAX]: the rule is registered with the partition number the run
    denotes and with a name that is [base] without its last character when
    [base] contains [mmcblk] or [nvme], and [base] itself otherwise. *)
Theorem sdcard_partition_split
    {F : DiskFlags} (e : env) (path base digits : string) (w : world) :
  raw_token path = Some (base ++ digits)%string ->
  access_X_OK e ("/sys/block/" ++ base ++ digits)%string = false ->
  digits <> ""%string ->
  all_digits digits = true ->
  ends_in_digit base = false ->
  decimal digits <= Std.INT_MAX ->
  exists name : string,
    process_cmdline e path w
    = (Ret tt,
       after_sdcard w (base ++ digits)%string name false (decimal digits))
    /\ (contains base "mmcblk" \/ contains base "nvme" ->
        exists c, base = (name ++ String c "")%string)
    /\ (~ contains base "mmcblk" -> ~ contains base "nvme" -> name = base).
Proof.
  intros Ht Ha Hne Hd Hb Hmax.
  exists (strip_separator base (String.length base)).
  split; [|split].
  - assert (Hn : (base ++ digits)%string <> ""%string).
    { destruct base; [assumption | discriminate]. }
    rewrite (process_cmdline_token e path _ w Ht Hn). cbv zeta. rewrite Ha.
    rewrite split_partition_digits by assumption.
    apply Z.leb_le in Hmax. rewrite Hmax. unfold after_sdcard.
    cbn [mDiskSources trace]. now rewrite <- !app_assoc.
  - apply strip_separator_found.
  - apply strip_separator_not_found.
Qed.

(** C10. When the fstab cannot be loaded, [process_config] returns -1 at
    once: no disk source is registered, the adoptable output is not
    assigned, and [/proc/cmdline] is not read, whatever it contains. *)
Theorem fstab_failure_returns_early
    {F : DiskFlags} (e : env) (w : world) :
  fs_mgr_read_fstab e = None ->
  exists evs : list event,
    process_config e w
    = (Ret (-1), mkWorld (mDiskSources w) (has_adoptable w) (trace w ++ evs))
    /\ forallb (fun ev => negb (is_ReadCmdline ev)
                          && negb (is_AddDiskSource ev)) evs = true.
Proof.
  intros Hf. eexists. split.
  - apply process_config_not_loaded. assumption.
  - reflexivity.
Qed.

(* ================================================================== *)
(** ** The coldboot walk *)
(* ================================================================== *)

Section DirInduction.
Variable P : dir -> Prop.
Hypothesis Hdir :
  forall ue ents,
    (forall name dt d2, In (Dirent name dt (Opened d2)) ents -> P d2) ->
    P (Dir ue ents).

(** Induction on a directory tree: the property may be assumed of every
    directory an entry opens. *)
Lemma dir_tree_ind : forall d : dir, P d.
Proof.
  fix IH 1. intros [ue ents]. apply Hdir.
  induction ents as [|[n t tgt] l IHl]; intros name dt d2 Hin.
  - destruct Hin.
  - destruct Hin as [Heq|Hin].
    + destruct tgt as [| |d]; try discriminate Heq.
      injection Heq as _ _ <-. apply IH.
    + eapply IHl; eassumption.
Qed.
End DirInduction.

Section Coldboot.

Lemma do_coldboot_eq (p : location) (ue : uevent_node)
    (ents : list dirent) (lvl : Z) :
  do_coldboot p (Dir ue ents) lvl
  = trigger_uevent p ue ++ readdir_loop p lvl ents.
Proof.
  cbn [do_coldboot]. f_equal.
  induction ents as [|de l IH]; [reflexivity|].
  cbn [readdir_loop]. now rewrite IH.
Qed.

Lemma readdir_loop_app (p : location) (lvl : Z) (l1 l2 : list dirent) :
  readdir_loop p lvl (l1 ++ l2)
  = readdir_loop p lvl l1 ++ readdir_loop p lvl l2.
Proof.
  induction l1 as [|de l IH]; [reflexivity|].
  cbn [readdir_loop app]. now rewrite IH, app_assoc.
Qed.

Lemma readdir_loop_In (p : location) (lvl : Z) (l : list dirent)
    (x : syscall) :
  In x (readdir_loop p lvl l) <->
  exists de, In de l /\ In x (visit_entry do_coldboot p lvl de).
Proof.
  induction l as [|de l IH]; cbn [readdir_loop].
  - split; [intros [] | intros (de & [] & _)].
  - rewrite in_app_iff, IH. split.
    + intros [H|(de' & H1 & H2)]; [exists de | exists de']; simpl; auto.
    + intros (de' & [<-|H1] & H2); [left | right; exists de']; auto.
Qed.

Lemma write_attempts_app (t1 t2 : list syscall) :
  write_attempts (t1 ++ t2) = write_attempts t1 ++ write_attempts t2.
Proof.
  induction t1 as [|s t IH]; [reflexivity|].
  destruct s; cbn [write_attempts app]; rewrite IH; reflexivity.
Qed.

Lemma write_attempts_In (t : list syscall) (q : location) :
  In q (write_attempts t) <-> exists buf ok, In (sys_write q buf ok) t.
Proof.
  induction t as [|s t IH]; cbn [write_attempts].
  - split; [intros [] | intros (? & ? & [])].
  - destruct s; cbn [In]; rewrite ?IH;
      (split;
       [ intros H;
         repeat match goal with
                | H : _ \/ _ |- _ => destruct H
                | H : exists _, _ |- _ => destruct H
                end; subst; eauto
       | intros (b & o & [H|H]);
         [ try discriminate H; injection H as -> _ _; auto
         | eauto ] ]).
Qed.

Lemma first_is_dot_iff (name : string) :
  first_is_dot name = true <-> exists rest, name = String "."%char rest.
Proof.
  destruct name as [|c rest]; cbn [first_is_dot].
  - split; [discriminate | intros [? ?]; discriminate].
  - destruct (Ascii.eqb_spec c "."%char) as [->|Hne].
    + split; eauto.
    + split; [discriminate | intros [? [= ? ?]]; contradiction].
Qed.

Lemma visit_entry_passes (p : location) (lvl : Z) (name : string)
    (dt : d_type) (tgt : open_result) :
  first_is_dot name = false ->
  is_DT_DIR dt = true \/ lvl <= 0 ->
  visit_entry do_coldboot p lvl (Dirent name dt tgt)
  = descend do_coldboot p lvl name tgt.
Proof.
  intros Hd Hp. cbn [visit_entry]. rewrite Hd.
  destruct Hp as [Hp|Hp].
  - now rewrite Hp.
  - replace (lvl >? 0) with false; [now rewrite andb_false_r|].
    symmetry. rewrite Z.gtb_ltb. apply Z.ltb_ge. assumption.
Qed.

Lemma visit_entry_In (p : location) (lvl : Z) (de : dirent) (x : syscall) :
  In x (visit_entry do_coldboot p lvl de) ->
  exists name dt tgt,
    de = Dirent name dt tgt /\ first_is_dot name = false
    /\ (is_DT_DIR dt = true \/ lvl <= 0)
    /\ In x (descend do_coldboot p lvl name tgt).
Proof.
  destruct de as [name dt tgt]. cbn [visit_entry].
  destruct (first_is_dot name) eqn:Hdot; [intros []|].
  destruct (is_DT_DIR dt) eqn:Hdt; cbn [negb andb].
  - intros H. exists name, dt, tgt. repeat split; auto.
  - destruct (lvl >? 0) eqn:Hl; [intros []|].
    intros H. exists name, dt, tgt. repeat split; auto.
    right. rewrite Z.gtb_ltb in Hl. apply Z.ltb_ge in Hl. assumption.
Qed.

(** Every directory the walk visits has its [uevent] entry tried. *)
Lemma visits_trigger (p : location) (d : dir) (lvl : Z)
    (q : location) (ue : uevent_node) (ents : list dirent) (lvl' : Z) :
  visits p d lvl q (Dir ue ents) lvl' ->
  incl (trigger_uevent q ue) (do_coldboot p d lvl).
Proof.
  intros H. remember (Dir ue ents) as d' eqn:Hd'.
  induction H as [p d lvl | p ue0 ents0 lvl name dt d2 q d' lvl' Hin Hdot
                              Hpol Hv IH]; subst.
  - rewrite do_coldboot_eq. apply incl_appl, incl_refl.
  - specialize (IH eq_refl). rewrite do_coldboot_eq.
    apply incl_appr. intros x Hx. apply readdir_loop_In.
    exists (Dirent name dt (Opened d2)). split; [assumption|].
    rewrite visit_entry_passes by assumption. cbn [descend].
    apply in_or_app. right. apply in_or_app. left. apply IH, Hx.
Qed.

(** Every [write] of the walk is the four bytes [add\n] to the [uevent]
    entry of a directory it visits. *)
Lemma write_visits (d : dir) :
  forall (p : location) (lvl : Z) (q : location) (buf : string) (ok : bool),
    In (sys_write q buf ok) (do_coldboot p d lvl) ->
    buf = add_nl
    /\ exists q' ents lvl',
         q = q' ++ ["uevent"]
         /\ visits p d lvl q' (Dir (UeventWritable ok) ents) lvl'.
Proof.
  induction d as [ue ents IH] using dir_tree_ind.
  intros p lvl q buf ok. rewrite do_coldboot_eq, in_app_iff.
  intros [H|H].
  - destruct ue as [|ok']; cbn [trigger_uevent In] in H.
    + destruct H as [H|[]]; discriminate H.
    + destruct H as [H|[H|[H|[]]]]; try discriminate H.
      injection H as <- <- <-. split; [reflexivity|].
      exists p, ents, lvl. split; [reflexivity | constructor].
  - apply readdir_loop_In in H as (de & Hde & H).
    apply visit_entry_In in H as (name & dt & tgt & -> & Hdot & Hpol & H).
    destruct tgt as [| |d2]; cbn [descend In app] in H.
    + destruct H as [H|[]]; discriminate H.
    + destruct H as [H|[H|[H|[]]]]; discriminate H.
    + destruct H as [H|[H|H]]; try discriminate H.
      apply in_app_iff in H as [H|[H|[]]]; [|discriminate H].
      destruct (IH name dt d2 Hde _ _ _ _ _ H)
        as (-> & q' & ents' & lvl' & -> & Hv).
      split; [reflexivity|]. exists q', ents', lvl'.
      split; [reflexivity|].
      eapply visits_below; eassumption.
Qed.

End Coldboot.

Section WriteFailures.

(** A failing [write] changes nothing in which files the walk writes
    to. *)
Lemma write_attempts_with_writes (b : bool) (d : dir) :
  forall (p : location) (lvl : Z),
    write_attempts (do_coldboot p (with_writes b d) lvl)
    = write_attempts (do_coldboot p d lvl).
Proof.
  induction d as [ue ents IH] using dir_tree_ind. intros p lvl.
  cbn [with_writes]. rewrite !do_coldboot_eq, !write_attempts_app. f_equal.
  - destruct ue; reflexivity.
  - induction ents as [|[name dt tgt] l IHl]; [reflexivity|].
    cbn [readdir_loop]. rewrite !write_attempts_app. f_equal.
    + cbn [visit_entry]. destruct (first_is_dot name); [reflexivity|].
      destruct (negb (is_DT_DIR dt) && (lvl >? 0)); [reflexivity|].
      destruct tgt as [| |d2]; try reflexivity.
      cbn [descend]. rewrite !write_attempts_app. do 2 f_equal.
      apply (IH name dt d2). now left.
    + apply IHl. intros n t d2 Hin. apply (IH n t d2). now right.
Qed.

End WriteFailures.

Section Enumeration.

(** The order in which [readdir] enumerates entries does not change
    which files the walk writes to. *)
Lemma same_tree_write_attempts (d1 d2 : dir) :
  same_tree d1 d2 ->
  forall p lvl, Permutation (write_attempts (do_coldboot p d1 lvl))
                            (write_attempts (do_coldboot p d2 lvl)).
Proof.
  apply (same_tree_min
           (fun d1 d2 => forall p lvl,
                Permutation (write_attempts (do_coldboot p d1 lvl))
                            (write_attempts (do_coldboot p d2 lvl)))
           (fun l1 l2 => forall p lvl,
                Permutation (write_attempts (readdir_loop p lvl l1))
                            (write_attempts (readdir_loop p lvl l2)))
           (fun e1 e2 => forall p lvl,
                Permutation
                  (write_attempts (visit_entry do_coldboot p lvl e1))
                  (write_attempts (visit_entry do_coldboot p lvl e2)))
           (fun t1 t2 => forall p lvl name,
                Permutation
                  (write_attempts (descend do_coldboot p lvl name t1))
                  (write_attempts (descend do_coldboot p lvl name t2)))).
  - intros ue l1 l2 _ IH p lvl.
    rewrite !do_coldboot_eq, !write_attempts_app.
    apply Permutation_app_head, IH.
  - intros p lvl. apply Permutation_refl.
  - intros e1 e2 l1 l2 _ IHe _ IHl p lvl. cbn [readdir_loop].
    rewrite !write_attempts_app. apply Permutation_app; auto.
  - intros e1 e2 l p lvl. cbn [readdir_loop].
    rewrite !write_attempts_app, !app_assoc.
    apply Permutation_app_tail, Permutation_app_comm.
  - intros l1 l2 l3 _ IH1 _ IH2 p lvl.
    eapply Permutation_trans; [apply IH1 | apply IH2].
  - intros name dt t1 t2 _ IH p lvl. cbn [visit_entry].
    destruct (first_is_dot name); [apply Permutation_refl|].
    destruct (negb (is_DT_DIR dt) && (lvl >? 0)); [apply Permutation_refl|].
    apply IH.
  - intros p lvl name. apply Permutation_refl.
  - intros p lvl name. apply Permutation_refl.
  - intros d1' d2' _ IH p lvl name. cbn [descend].
    rewrite !write_attempts_app. cbn [write_attempts app].
    apply Permutation_app_tail, IH.
Qed.

Lemma same_tree_refl (d : dir) : same_tree d d.
Proof.
  induction d as [ue ents IH] using dir_tree_ind. constructor.
  induction ents as [|[name dt tgt] l IHl]; [constructor|].
  constructor.
  - constructor. destruct tgt as [| |d2]; constructor.
    apply (IH name dt d2). now left.
  - apply IHl. intros n t d2 Hin. apply (IH n t d2). now right.
Qed.

End Enumeration.

(** C6. In the loop over the entries of a directory an entry whose name
    begins with [.] is skipped. An entry with another name is, at level 0,
    opened as a directory and walked whatever its type; at level 1 and
    deeper this happens only when its type is [DT_DIR], and an entry of
    any other type is skipped. Walking an entry that opens as a directory
    is a recursive call one level deeper. For the walk of a directory this
    means: an entry whose name begins with [.], and below the root an
    entry that is not a directory, can be removed from the directory
    without changing what [do_coldboot] does; any other entry that opens
    contributes, at its place among the entries, its [openat] and
    [fdopendir], the walk of the directory it opens one level deeper, and
    its [closedir]. *)
Theorem depth_policy
    (p : location) (lvl : Z) (name : string) (dt : d_type)
    (tgt : open_result) (ue : uevent_node) (l1 l2 : list dirent) :
  0 <= lvl ->
  (forall rest : string,
      visit_entry do_coldboot p lvl (Dirent (String "."%char rest) dt tgt)
      = [])
  /\ ((forall rest : string, name <> String "."%char rest) ->
      lvl = 0 ->
      visit_entry do_coldboot p lvl (Dirent name dt tgt)
      = descend do_coldboot p 0 name tgt)
  /\ ((forall rest : string, name <> String "."%char rest) ->
      1 <= lvl -> dt = DT_DIR ->
      visit_entry do_coldboot p lvl (Dirent name dt tgt)
      = descend do_coldboot p lvl name tgt)
  /\ (1 <= lvl -> dt <> DT_DIR ->
      visit_entry do_coldboot p lvl (Dirent name dt tgt) = [])
  /\ (forall d2 : dir,
        descend do_coldboot p lvl name (Opened d2)
        = [sys_openat_directory (p ++ [name]) true;
           sys_fdopendir (p ++ [name]) true]
          ++ do_coldboot (p ++ [name]) d2 (lvl + 1)
          ++ [sys_closedir (p ++ [name])])
  /\ (forall rest : string,
        do_coldboot p
          (Dir ue (l1 ++ Dirent (String "."%char rest) dt tgt :: l2)) lvl
        = do_coldboot p (Dir ue (l1 ++ l2)) lvl)
  /\ ((forall rest : string, name <> String "."%char rest) ->
      lvl = 0 \/ dt = DT_DIR ->
      forall d2 : dir,
        do_coldboot p (Dir ue (l1 ++ Dirent name dt (Opened d2) :: l2)) lvl
        = trigger_uevent p ue
          ++ readdir_loop p lvl l1
          ++ [sys_openat_directory (p ++ [name]) true;
              sys_fdopendir (p ++ [name]) true]
          ++ do_coldboot (p ++ [name]) d2 (lvl + 1)
          ++ [sys_closedir (p ++ [name])]
          ++ readdir_loop p lvl l2)
  /\ (1 <= lvl -> dt <> DT_DIR ->
      do_coldboot p (Dir ue (l1 ++ Dirent name dt tgt :: l2)) lvl
      = do_coldboot p (Dir ue (l1 ++ l2)) lvl).
Proof.
  intros Hl.
  assert (Hnd : (forall rest, name <> String "."%char rest) ->
                first_is_dot name = false).
  { intros H. destruct (first_is_dot name) eqn:E; [|reflexivity].
    apply first_is_dot_iff in E as [rest ->]. now destruct (H rest). }
  assert (Hskip : 1 <= lvl -> dt <> DT_DIR ->
                  visit_entry do_coldboot p lvl (Dirent name dt tgt) = []).
  { intros H1 Hdt. cbn [visit_entry].
    destruct (first_is_dot name); [reflexivity|].
    replace (is_DT_DIR dt) with false
      by (destruct dt; try reflexivity; congruence).
    replace (lvl >? 0) with true; [reflexivity|].
    symmetry. rewrite Z.gtb_ltb. apply Z.ltb_lt. lia. }
  repeat apply conj.
  - intros rest. reflexivity.
  - intros Hn ->. apply visit_entry_passes; [auto | right; lia].
  - intros Hn _ ->. apply visit_entry_passes; [auto | now left].
  - exact Hskip.
  - reflexivity.
  - intros rest. rewrite !do_coldboot_eq, !readdir_loop_app.
    reflexivity.
  - intros Hn Hw d2. rewrite do_coldboot_eq, readdir_loop_app.
    cbn [readdir_loop]. rewrite visit_entry_passes.
    + cbn [descend]. now rewrite <- !app_assoc.
    + auto.
    + destruct Hw as [->| ->]; [right; lia | now left].
  - intros H1 Hdt. rewrite !do_coldboot_eq, !readdir_loop_app.
    cbn [readdir_loop]. now rewrite (Hskip H1 Hdt).
Qed.

(** C7. The walk writes the four bytes [add\n] to the [uevent] entry of the
    root directory and of every directory it visits, when that entry opens
    for writing, and it writes nothing else. A [uevent] entry that does not
    open, or a [write] that fails, changes nothing in what follows: the
    loop over the entries runs all the same, and the files written to are
    the same whether writes fail or succeed. When the root path does not
    open, nothing is done. An entry that cannot be opened as a directory
    contributes no write, and the entries after it are walked as if it were
    not there. *)
Theorem uevent_triggered_failures_ignored :
  (forall (path : string) (d : dir) (q : location) (ue : uevent_node)
          (ents : list dirent) (lvl' : Z),
      visits [path] d 0 q (Dir ue ents) lvl' ->
      match ue with
      | UeventWritable ok =>
          In (sys_write (q ++ ["uevent"]) add_nl ok) (coldboot path (Some d))
      | UeventAbsent =>
          In (sys_openat_wronly (q ++ ["uevent"]) false)
             (coldboot path (Some d))
      end)
  /\ (forall (path : string) (root : option dir) (q : location)
             (buf : string) (ok : bool),
        In (sys_write q buf ok) (coldboot path root) ->
        buf = add_nl
        /\ exists d q' ents lvl',
             root = Some d /\ q = q' ++ ["uevent"]
             /\ visits [path] d 0 q' (Dir (UeventWritable ok) ents) lvl')
  /\ (forall (p : location) (ue : uevent_node) (ents : list dirent) (lvl : Z),
        do_coldboot p (Dir ue ents) lvl
        = trigger_uevent p ue ++ readdir_loop p lvl ents)
  /\ (forall (b : bool) (path : string) (d : dir),
        write_attempts (coldboot path (Some (with_writes b d)))
        = write_attempts (coldboot path (Some d)))
  /\ (forall path : string,
        coldboot path None = [sys_opendir [path] false]
        /\ write_attempts (coldboot path None) = [])
  /\ (forall (p : location) (lvl : Z) (l1 l2 : list dirent) (de : dirent),
        readdir_loop p lvl (l1 ++ de :: l2)
        = readdir_loop p lvl l1 ++ visit_entry do_coldboot p lvl de
          ++ readdir_loop p lvl l2)
  /\ (forall (p : location) (lvl : Z) (name : string) (dt : d_type)
             (tgt : open_result),
        (forall d2, tgt <> Opened d2) ->
        write_attempts (visit_entry do_coldboot p lvl (Dirent name dt tgt))
        = []).
Proof.
  repeat apply conj.
  - intros path d q ue ents lvl' Hv.
    pose proof (visits_trigger _ _ _ _ _ _ _ Hv) as Hi.
    unfold coldboot.
    destruct ue as [|ok]; apply in_or_app; right; apply in_or_app; left;
      apply Hi; cbn [trigger_uevent In]; auto.
  - intros path root q buf ok H. destruct root as [d|]; cbn [coldboot] in H.
    + apply in_app_iff in H as [[H|[]]|H]; [discriminate H|].
      apply in_app_iff in H as [H|[H|[]]]; [|discriminate H].
      destruct (write_visits d _ _ _ _ _ H) as (-> & q' & ents & lvl' & -> & Hv).
      split; [reflexivity|]. exists d, q', ents, lvl'. auto.
    + destruct H as [H|[]]. discriminate H.
  - apply do_coldboot_eq.
  - intros b path d. unfold coldboot. rewrite !write_attempts_app.
    now rewrite write_attempts_with_writes.
  - intros path. split; reflexivity.
  - intros p lvl l1 l2 de. rewrite readdir_loop_app. reflexivity.
  - intros p lvl name dt tgt Hn. cbn [visit_entry].
    destruct (first_is_dot name); [reflexivity|].
    destruct (negb (is_DT_DIR dt) && (lvl >? 0)); [reflexivity|].
    destruct tgt as [| |d2]; [reflexivity | reflexivity |].
    now destruct (Hn d2).
Qed.

(** C8. Two walks of the same tree that differ only in the order in which
    [readdir] enumerates the entries of its directories write to the same
    [uevent] files: the lists of files written to are permutations of each
    other, so the same files are targeted. *)
Theorem coldboot_targets_stable (path : string) (d1 d2 : dir) :
  same_tree d1 d2 ->
  Permutation (write_attempts (coldboot path (Some d1)))
              (write_attempts (coldboot path (Some d2)))
  /\ forall q : location,
       In q (write_attempts (coldboot path (Some d1)))
       <-> In q (write_attempts (coldboot path (Some d2))).
Proof.
  intros H.
  assert (Hp : Permutation (write_attempts (coldboot path (Some d1)))
                           (write_attempts (coldboot path (Some d2)))).
  { unfold coldboot. rewrite !write_attempts_app.
    apply Permutation_app_head, Permutation_app_tail.
    apply same_tree_write_attempts, H. }
  split; [exact Hp|]. intros q. split; apply Permutation_in; [|symmetry]; exact Hp.
Qed.

(* ================================================================== *)
(** ** The order of events in [vold_main] *)
(* ================================================================== *)

Section Emits.
Variable ok : event -> bool.

Lemma emits_ret {A : Type} (a : A) : emits ok (ret a).
Proof. intros w. exists []. now rewrite app_nil_r. Qed.

Lemma emits_exit {A : Type} (c : Z) : emits ok (@exit A c).
Proof. intros w. exists []. now rewrite app_nil_r. Qed.

Lemma emits_abort {A : Type} : emits ok (@abort A).
Proof. intros w. exists []. now rewrite app_nil_r. Qed.

Lemma emits_emit (ev : event) : ok ev = true -> emits ok (emit ev).
Proof. intros H w. exists [ev]. simpl. now rewrite H. Qed.

Lemma emits_emit_all (evs : list event) :
  forallb ok evs = true -> emits ok (emit_all evs).
Proof. intros H w. exists evs. auto. Qed.

Lemma emits_set_has_adoptable (b : bool) : emits ok (set_has_adoptable b).
Proof. intros w. exists []. now rewrite app_nil_r. Qed.

Lemma emits_get_has_adoptable : emits ok get_has_adoptable.
Proof. intros w. exists []. now rewrite app_nil_r. Qed.

Lemma emits_addDiskSource (ds : DiskSource) :
  ok (EvAddDiskSource ds) = true -> emits ok (addDiskSource ds).
Proof. intros H w. exists [EvAddDiskSource ds]. simpl. now rewrite H. Qed.

Lemma emits_bind {A B : Type} (m : M A) (f : A -> M B) :
  emits ok m -> (forall a, emits ok (f a)) -> emits ok (bind m f).
Proof.
  intros Hm Hf w. unfold bind. destruct (Hm w) as (e1 & H1 & O1).
  destruct (m w) as [[a|c|] w1]; cbn [snd] in *.
  - destruct (Hf a w1) as (e2 & H2 & O2). exists (e1 ++ e2).
    rewrite H2, H1, app_assoc, forallb_app, O1, O2. auto.
  - exists e1. auto.
  - exists e1. auto.
Qed.

Lemma emits_when (b : bool) (m : M unit) : emits ok m -> emits ok (when b m).
Proof. destruct b; [auto | intros _; apply emits_ret]. Qed.

Lemma emits_or_die (b : bool) (msg : string) :
  ok (EvLog msg) = true -> emits ok (or_die b msg).
Proof.
  intros H. destruct b; [apply emits_ret|].
  apply emits_bind; [now apply emits_emit | intros; apply emits_exit].
Qed.

Lemma emits_for_each {A : Type} (l : list A) (body : A -> M unit) :
  (forall x, emits ok (body x)) -> emits ok (for_each l body).
Proof.
  intros H. induction l as [|x l IH]; [apply emits_ret|].
  apply emits_bind; auto.
Qed.

Lemma emits_parse_args (e : env) : emits ok (parse_args e).
Proof.
  unfold parse_args.
  destruct (sBlkidContext e), (sBlkidUntrustedContext e),
           (sFsckContext e), (sFsckUntrustedContext e);
    first [apply emits_ret | apply emits_abort].
Qed.

End Emits.

Ltac emits_step :=
  first [ apply emits_ret | apply emits_exit | apply emits_abort
        | apply emits_set_has_adoptable | apply emits_get_has_adoptable
        | apply emits_parse_args
        | apply emits_emit; reflexivity
        | apply emits_addDiskSource; reflexivity
        | apply emits_or_die; reflexivity
        | apply emits_when
        | apply emits_bind; [|intros] ].

Section Order.
Context {F : DiskFlags}.
Variable e : env.

(** [process_config] issues no coldboot system call. *)
Lemma process_config_no_coldboot :
  emits (fun ev => negb (is_Coldboot ev)) (process_config e).
Proof.
  unfold process_config.
  destruct (fs_mgr_read_fstab e) as [recs|]; [|repeat emits_step].
  repeat emits_step.
  - apply emits_for_each. intros r. unfold process_fstab_rec.
    destruct (fs_mgr_is_voldmanaged r);
      [destruct (blk_device r); [destruct (label r)|]|];
      repeat emits_step.
  - destruct (proc_cmdline e) as [path|]; repeat emits_step.
    unfold process_cmdline. destruct (raw_token path); [|emits_step].
    destruct (negb _); repeat emits_step.
    + destruct (negb _); [|emits_step]. unfold split_partition.
      destruct (negb _); [|emits_step].
      destruct (Std.stoi _); emits_step.
    + match goal with sp : (string * Z)%type |- _ => destruct sp end.
      repeat emits_step.
Qed.

Lemma ordered_bind {A B : Type} (m : M A) (f : A -> M B) :
  emits (fun ev => negb (is_Coldboot ev)) m ->
  (forall a, ordered (f a)) -> ordered (bind m f).
Proof.
  intros Hm Hf w. unfold bind. destruct (Hm w) as (e1 & H1 & O1).
  destruct (m w) as [[a|c|] w1]; cbn [snd] in *.
  - destruct (Hf a w1) as (a2 & b2 & H2 & Oa & Ob).
    exists (e1 ++ a2), b2. rewrite H2, H1, forallb_app, O1, Oa, Ob.
    rewrite <- !app_assoc. auto.
  - exists e1, []. rewrite app_nil_r. auto.
  - exists e1, []. rewrite app_nil_r. auto.
Qed.

Lemma ordered_tail {A : Type} (m : M A) :
  emits (fun ev => negb (is_AddDiskSource ev)) m -> ordered m.
Proof.
  intros Hm w. destruct (Hm w) as (b & H & O). exists [], b. auto.
Qed.

Lemma forallb_map_Coldboot (t : list syscall) :
  forallb (fun ev => negb (is_AddDiskSource ev)) (map EvColdboot t) = true.
Proof. induction t; simpl; auto. Qed.

Lemma vold_main_ordered : ordered (vold_main e).
Proof.
  unfold vold_main.
  repeat (apply ordered_bind;
          [ first [ apply process_config_no_coldboot
                  | solve [repeat emits_step] ]
          | intros ]).
  apply ordered_tail.
  repeat emits_step.
  apply emits_emit_all, forallb_map_Coldboot.
Qed.

End Order.

(** C9. In the trace of [vold_main] every registration of a disk source
    comes before every system call of the coldboot walk: the trace is a
    part without coldboot calls followed by a part without registrations,
    so no [addDiskSource] follows the first coldboot call. *)
Theorem rules_registered_before_coldboot {F : DiskFlags} (e : env) :
  (exists before after,
      trace (snd (run (vold_main e))) = before ++ after
      /\ forallb (fun ev => negb (is_Coldboot ev)) before = true
      /\ forallb (fun ev => negb (is_AddDiskSource ev)) after = true)
  /\ (forall pre ev post,
        trace (snd (run (vold_main e))) = pre ++ ev :: post ->
        is_Coldboot ev = true ->
        forall ds, ~ In (EvAddDiskSource ds) post).
Proof.
  destruct (vold_main_ordered e world0) as (a & b & Ht & Oa & Ob).
  cbn [trace world0 app] in Ht. unfold run.
  split; [exists a, b; auto|].
  intros pre ev post Hs Hev ds Hin. rewrite Ht in Hs.
  apply app_eq_app in Hs as [l [[Ha Hb]|[Ha Hb]]].
  - (* the coldboot call cannot lie in [a] *)
    destruct l as [|x l]; cbn [app] in Hb.
    + subst b. cbn [forallb] in Ob. apply andb_prop in Ob as [_ Ob].
      rewrite forallb_forall in Ob. specialize (Ob _ Hin). discriminate Ob.
    + injection Hb as <- Hb. subst a.
      rewrite forallb_app in Oa. apply andb_prop in Oa as [_ Oa].
      cbn [forallb] in Oa. rewrite Hev in Oa. discriminate Oa.
  - subst b. rewrite forallb_app in Ob. apply andb_prop in Ob as [_ Ob].
    cbn [forallb] in Ob. apply andb_prop in Ob as [_ Ob].
    rewrite forallb_forall in Ob. specialize (Ob _ Hin). discriminate Ob.
Qed.

(* ================================================================== *)
(** ** The properties on the example inputs *)
(* ================================================================== *)

Lemma snoc_inj (a b : string) (c d : ascii) :
  (a ++ String c "")%string = (b ++ String d "")%string -> a = b /\ c = d.
Proof.
  revert b; induction a as [|x a IH]; intros [|y b] H; simpl in H.
  - injection H as ->. auto.
  - injection H as -> H. destruct b; discriminate H.
  - injection H as -> H. destruct a; discriminate H.
  - injection H as -> H. apply IH in H as [-> ->]. auto.
Qed.

Lemma same_dirent_refl (de : dirent) : same_dirent de de.
Proof.
  destruct de as [name dt [| |d]]; repeat constructor. apply same_tree_refl.
Qed.

Lemma same_entries_refl (l : list dirent) : same_entries l l.
Proof.
  induction l; constructor; [apply same_dirent_refl | assumption].
Qed.

Lemma example_trees_same : same_tree example_tree example_tree_reordered.
Proof.
  unfold example_tree, example_tree_reordered. constructor.
  do 2 (constructor; [apply same_dirent_refl|]).
  eapply same_trans; [apply same_swap|].
  constructor; [apply same_dirent_refl|].
  constructor; [|apply same_entries_refl].
  do 2 constructor. unfold example_sda, example_sda_reordered. constructor.
  constructor; [apply same_dirent_refl|]. apply same_swap.
Qed.

(** C2 on the three tokens of the specification. *)
Lemma sdcard_partition_split_examples :
  @process_cmdline example_flags
     (example_env (Some []) "quiet SDCARD=mmcblk0p12 ro")
     "quiet SDCARD=mmcblk0p12 ro" world0
  = (Ret tt, @after_sdcard example_flags world0 "mmcblk0p12" "mmcblk0" false 12)
  /\ @process_cmdline example_flags
       (example_env (Some []) "SDCARD=nvme0n1p3")
       "SDCARD=nvme0n1p3" world0
     = (Ret tt, @after_sdcard example_flags world0 "nvme0n1p3" "nvme0n1" false 3)
  /\ @process_cmdline example_flags
       (example_env (Some []) "root=/dev/ram0 SDCARD=sda1")
       "root=/dev/ram0 SDCARD=sda1" world0
     = (Ret tt, @after_sdcard example_flags world0 "sda1" "sda" false 1).
Proof.
  split; [|split].
  - destruct (@sdcard_partition_split example_flags
                (example_env (Some []) "quiet SDCARD=mmcblk0p12 ro")
                "quiet SDCARD=mmcblk0p12 ro" "mmcblk0p" "12" world0
                eq_refl eq_refl ltac:(discriminate) eq_refl eq_refl
                ltac:(vm_compute; intro; discriminate))
      as (name & Hrun & Hstrip & _).
    destruct Hstrip as [c Hc]; [left; exists ""%string, "0p"%string; reflexivity|].
    change "mmcblk0p"%string with ("mmcblk0" ++ String "p" "")%string in Hc.
    apply snoc_inj in Hc as [<- _]. exact Hrun.
  - destruct (@sdcard_partition_split example_flags
                (example_env (Some []) "SDCARD=nvme0n1p3")
                "SDCARD=nvme0n1p3" "nvme0n1p" "3" world0
                eq_refl eq_refl ltac:(discriminate) eq_refl eq_refl
                ltac:(vm_compute; intro; discriminate))
      as (name & Hrun & Hstrip & _).
    destruct Hstrip as [c Hc]; [right; exists ""%string, "0n1p"%string; reflexivity|].
    change "nvme0n1p"%string with ("nvme0n1" ++ String "p" "")%string in Hc.
    apply snoc_inj in Hc as [<- _]. exact Hrun.
  - destruct (@sdcard_partition_split example_flags
                (example_env (Some []) "root=/dev/ram0 SDCARD=sda1")
                "root=/dev/ram0 SDCARD=sda1" "sda" "1" world0
                eq_refl eq_refl ltac:(discriminate) eq_refl eq_refl
                ltac:(vm_compute; intro; discriminate))
      as (name & Hrun & _ & Hkeep).
    rewrite Hkeep in Hrun by (apply find_None_iff; reflexivity).
    exact Hrun.
Defined.

(** C2 as stated fails on a run of digits that does not fit an [int]:
    [stoi] throws, the process is terminated and no rule is registered. *)
Lemma sdcard_partition_overflow_aborts :
  raw_token "SDCARD=sda99999999999" = Some "sda99999999999"%string
  /\ ends_in_digit "sda99999999999" = true
  /\ access_X_OK (example_env (Some []) "SDCARD=sda99999999999")
                 "/sys/block/sda99999999999" = false
  /\ fst (run (@process_config example_flags
                 (example_env (Some []) "SDCARD=sda99999999999")))
     = Aborted
  /\ mDiskSources
       (snd (run (@process_config example_flags
                    (example_env (Some []) "SDCARD=sda99999999999"))))
     = [].
Proof. repeat split. Qed.

(** C3 on a token that names a disk and on one without digits. *)
Lemma sdcard_whole_disk_examples :
  @process_cmdline example_flags
     (healthy_env (Some []) (Some "SDCARD=sda quiet"%string)
                  (fun p => String.eqb p "/sys/block/sda") None)
     "SDCARD=sda quiet" world0
  = (Ret tt, @after_sdcard example_flags world0 "sda" "sda" true (-1))
  /\ @process_cmdline example_flags
       (example_env (Some []) "SDCARD=cdrom") "SDCARD=cdrom" world0
     = (Ret tt, @after_sdcard example_flags world0 "cdrom" "cdrom" false (-1)).
Proof.
  split.
  - apply (@sdcard_whole_disk example_flags
             (healthy_env (Some []) (Some "SDCARD=sda quiet"%string)
                          (fun p => String.eqb p "/sys/block/sda") None)
             "SDCARD=sda quiet" "sda" world0);
      [reflexivity | discriminate | left; reflexivity].
  - apply (@sdcard_whole_disk example_flags
             (example_env (Some []) "SDCARD=cdrom") "SDCARD=cdrom" "cdrom"
             world0);
      [reflexivity | discriminate | right; reflexivity].
Defined.

(** X19 on the example fstab: two rules, and the adoptable output
    true. *)
Lemma fstab_rules_of_labelled_entries_example :
  @fstab_rules example_flags (example_env (Some example_recs) "quiet")
               example_recs
  = [ mkDiskSource "/devices/*/mmcblk1" "sdcard1" (-1) 1 "auto" "";
      mkDiskSource "/devices/*/usb*" "usbdisk" 1 34 "" "utf8" ]%string
  /\ has_adoptable
       (snd (run (@process_config example_flags
                    (example_env (Some example_recs) "quiet"))))
     = Some true.
Proof.
  split; [reflexivity|].
  destruct (@fstab_rules_of_labelled_entries example_flags
              (example_env (Some example_recs) "quiet") example_recs world0
              eq_refl eq_refl) as (_ & _ & _ & _ & _ & _ & H).
  apply (H (nth 1 example_recs
              (mkRec None None None None 0 false false false false)));
    [right; left; reflexivity | reflexivity | reflexivity].
Defined.

(** C5 on a command line without the token and on one with an empty
    token. *)
Lemma no_sdcard_token_no_rule_examples :
  run (@process_config example_flags
         (example_env (Some example_recs) "quiet root=/dev/ram0"))
  = (Ret 0,
     after_read_cmdline true
       (@after_fstab example_flags
          (example_env (Some example_recs) "quiet root=/dev/ram0")
          world0 example_recs))
  /\ run (@process_config example_flags
            (example_env (Some example_recs) "SDCARD= quiet"))
     = (Ret 0,
        after_read_cmdline true
          (@after_fstab example_flags
             (example_env (Some example_recs) "SDCARD= quiet")
             world0 example_recs)).
Proof.
  split.
  - refine (proj1 (proj2 (proj2 (proj2
             (@no_sdcard_token_no_rule example_flags
                (example_env (Some example_recs) "quiet root=/dev/ram0")
                example_recs "quiet root=/dev/ram0" world0
                eq_refl eq_refl _))) eq_refl)).
    left. apply find_None_iff. reflexivity.
  - refine (proj1 (proj2 (proj2 (proj2
             (@no_sdcard_token_no_rule example_flags
                (example_env (Some example_recs) "SDCARD= quiet")
                example_recs "SDCARD= quiet" world0
                eq_refl eq_refl _))) eq_refl)).
    right. reflexivity.
Defined.

(** A tab after [SDCARD=] does not end the token: the text up to the next
    space is taken as the device, a rule is registered for it and the
    adoptable output becomes true. *)
Lemma tab_after_sdcard_registers_rule :
  Std.isspace (ascii_of_nat 9) = true
  /\ raw_token ("SDCARD=" ++ String (ascii_of_nat 9) "quiet ro")
     = Some (String (ascii_of_nat 9) "quiet")
  /\ mDiskSources
       (snd (run (@process_config example_flags
                    (example_env (Some [])
                       ("SDCARD=" ++ String (ascii_of_nat 9) "quiet ro")))))
     = [@sdcard_rule example_flags (String (ascii_of_nat 9) "quiet") (-1)]
  /\ has_adoptable
       (snd ((set_has_adoptable false ;;
              for_each [] (@process_fstab_rec example_flags
                             (example_env (Some [])
                                ("SDCARD=" ++ String (ascii_of_nat 9)
                                                     "quiet ro")))) world0))
     = Some false
  /\ has_adoptable
       (snd (run (@process_config example_flags
                    (example_env (Some [])
                       ("SDCARD=" ++ String (ascii_of_nat 9) "quiet ro")))))
     = Some true.
Proof. vm_compute. repeat split. Qed.

(** C6 on the example tree: at level 0 the symbolic link [sda] is opened
    and walked at level 1, between the entries before it and those after
    it; at level 1 the symbolic link [subsystem] is skipped, as if [sda]
    did not have it. *)
Lemma depth_policy_example :
  do_coldboot ["/sys/block"%string] example_tree 0
  = trigger_uevent ["/sys/block"%string] UeventAbsent
    ++ readdir_loop ["/sys/block"%string] 0
         [ Dirent "." DT_DIR (Opened (Dir (UeventWritable true) []));
           Dirent ".." DT_DIR (Opened (Dir (UeventWritable true) [])) ]
    ++ [ sys_openat_directory ["/sys/block"; "sda"]%string true;
         sys_fdopendir ["/sys/block"; "sda"]%string true ]
    ++ do_coldboot ["/sys/block"; "sda"]%string example_sda 1
    ++ [ sys_closedir ["/sys/block"; "sda"]%string ]
    ++ readdir_loop ["/sys/block"%string] 0
         [ Dirent "sr0" DT_LNK (Opened (Dir (UeventWritable true) []));
           Dirent "loop0" DT_LNK OpenatFails ]
  /\ do_coldboot ["/sys/block"; "sda"]%string example_sda 1
     = do_coldboot ["/sys/block"; "sda"]%string
         (Dir (UeventWritable true)
              [ Dirent "uevent" DT_REG OpenatFails;
                Dirent "sda1" DT_DIR (Opened (Dir (UeventWritable false) []));
                Dirent "queue" DT_DIR (Opened (Dir (UeventWritable true) [])) ])
         1.
Proof.
  split.
  - refine (proj1 (proj2 (proj2 (proj2 (proj2 (proj2 (proj2
             (depth_policy ["/sys/block"%string] 0 "sda" DT_LNK
                (Opened example_sda) UeventAbsent
                [ Dirent "." DT_DIR (Opened (Dir (UeventWritable true) []));
                  Dirent ".." DT_DIR (Opened (Dir (UeventWritable true) [])) ]
                [ Dirent "sr0" DT_LNK (Opened (Dir (UeventWritable true) []));
                  Dirent "loop0" DT_LNK OpenatFails ]
                _))))))) _ _ example_sda);
      [lia | intros rest; discriminate | left; reflexivity].
  - refine (proj2 (proj2 (proj2 (proj2 (proj2 (proj2 (proj2
             (depth_policy ["/sys/block"; "sda"]%string 1 "subsystem" DT_LNK
                (Opened (Dir (UeventWritable true) [])) (UeventWritable true)
                [ Dirent "uevent" DT_REG OpenatFails;
                  Dirent "sda1" DT_DIR
                         (Opened (Dir (UeventWritable false) []));
                  Dirent "queue" DT_DIR
                         (Opened (Dir (UeventWritable true) [])) ]
                [] _))))))) _ _);
      [lia | lia | discriminate].
Defined.

(** C7 on the example tree: the partition [sda1] is visited and its
    [uevent] is written to, although the write fails. *)
Lemma uevent_triggered_example :
  In (sys_write ["/sys/block"; "sda"; "sda1"; "uevent"]%string add_nl false)
     (coldboot "/sys/block" (Some example_tree)).
Proof.
  apply (proj1 uevent_triggered_failures_ignored "/sys/block"%string
           example_tree ["/sys/block"; "sda"; "sda1"]%string
           (UeventWritable false) [] 2).
  eapply visits_below with (name := "sda"%string);
    [right; right; left; reflexivity | reflexivity | right; lia |].
  eapply visits_below with (name := "sda1"%string);
    [right; left; reflexivity | reflexivity | left; reflexivity |].
  apply visits_here.
Defined.

(** C8 on the example tree and its reordering. *)
Lemma coldboot_targets_stable_example :
  Permutation
    [ ["/sys/block"; "sda"; "uevent"];
      ["/sys/block"; "sda"; "sda1"; "uevent"];
      ["/sys/block"; "sda"; "queue"; "uevent"];
      ["/sys/block"; "sr0"; "uevent"] ]%string
    [ ["/sys/block"; "sr0"; "uevent"];
      ["/sys/block"; "sda"; "uevent"];
      ["/sys/block"; "sda"; "queue"; "uevent"];
      ["/sys/block"; "sda"; "sda1"; "uevent"] ]%string.
Proof.
  exact (proj1 (coldboot_targets_stable "/sys/block" example_tree
                  example_tree_reordered example_trees_same)).
Defined.

Lemma no_registration_forallb (l : list event) :
  (forall ds, ~ In (EvAddDiskSource ds) l) ->
  forallb (fun ev => negb (is_AddDiskSource ev)) l = true.
Proof.
  intros H. apply forallb_forall. intros ev Hin.
  destruct ev; try reflexivity. now destruct (H ds).
Qed.

(** C9 on the example environment: the first coldboot call, the
    [opendir] of [/sys/block], is the event at position 20 of the trace;
    the three registrations precede it and none follows it. *)
Lemma rules_registered_before_coldboot_example :
  nth_error
    (trace (snd (run (@vold_main example_flags
                        (example_env (Some example_recs)
                                     "quiet SDCARD=mmcblk0p12 ro")))))
    20
  = Some (EvColdboot (sys_opendir ["/sys/block"%string] true))
  /\ List.length
       (filter is_AddDiskSource
          (firstn 20
             (trace (snd (run (@vold_main example_flags
                                 (example_env (Some example_recs)
                                    "quiet SDCARD=mmcblk0p12 ro")))))))
     = 3%nat
  /\ forallb (fun ev => negb (is_AddDiskSource ev))
       (skipn 21
          (trace (snd (run (@vold_main example_flags
                              (example_env (Some example_recs)
                                 "quiet SDCARD=mmcblk0p12 ro"))))))
     = true.
Proof.
  split; [vm_compute; reflexivity|]. split; [vm_compute; reflexivity|].
  apply no_registration_forallb.
  refine (proj2 (@rules_registered_before_coldboot example_flags
                   (example_env (Some example_recs)
                                "quiet SDCARD=mmcblk0p12 ro"))
                (firstn 20
                   (trace (snd (run (@vold_main example_flags
                                       (example_env (Some example_recs)
                                          "quiet SDCARD=mmcblk0p12 ro"))))))
                (EvColdboot (sys_opendir ["/sys/block"%string] true))
                _ _ eq_refl).
  vm_compute. reflexivity.
Defined.

(** C10 on an environment without fstab and with a token on the command
    line. *)
Lemma fstab_failure_returns_early_example :
  fst (run (@process_config example_flags
              (example_env None "quiet SDCARD=mmcblk0p12 ro")))
  = Ret (-1)
  /\ mDiskSources
       (snd (run (@process_config example_flags
                    (example_env None "quiet SDCARD=mmcblk0p12 ro"))))
     = []
  /\ has_adoptable
       (snd (run (@process_config example_flags
                    (example_env None "quiet SDCARD=mmcblk0p12 ro"))))
     = None.
Proof.
  destruct (@fstab_failure_returns_early example_flags
              (example_env None "quiet SDCARD=mmcblk0p12 ro") world0 eq_refl)
    as (evs & H & _).
  unfold run. rewrite H. repeat split.
Defined.

(** C4. Not every vold-managed entry gets a rule. The third entry of
    this fstab is vold-managed and its label is null: the construction of
    [nickname] from the null pointer at line 253 terminates the process.
    Only the rule of the entry before it is registered; neither it nor the
    vold-managed entry after it gets a rule, [process_config] does not
    return, and [vold_main] ends there, before the netlink manager is
    started and before [vold.has_adoptable] is published. *)
Theorem null_label_terminates_process_config :
  map fs_mgr_is_voldmanaged example_recs_null_label
  = [false; true; true; true]
  /\ map label example_recs_null_label
     = [None; Some "sdcard1"; None; Some "usbdisk"]%string
  /\ fst (run (@process_config example_flags
                 (example_env (Some example_recs_null_label) "quiet")))
     = Aborted
  /\ mDiskSources
       (snd (run (@process_config example_flags
                    (example_env (Some example_recs_null_label) "quiet"))))
     = [ mkDiskSource "/devices/*/mmcblk1" "sdcard1" (-1) 1 "auto" "" ]%string
  /\ fst (run (@vold_main example_flags
                 (example_env (Some example_recs_null_label) "quiet")))
     = Aborted
  /\ mDiskSources
       (snd (run (@vold_main example_flags
                    (example_env (Some example_recs_null_label) "quiet"))))
     = [ mkDiskSource "/devices/*/mmcblk1" "sdcard1" (-1) 1 "auto" "" ]%string
  /\ forallb (fun ev => match ev with
                        | EvNetlinkManagerStart _ | EvColdboot _
                        | EvPropertySet _ _ | EvIdleLoop => false
                        | _ => true
                        end)
       (trace (snd (run (@vold_main example_flags
                           (example_env (Some example_recs_null_label)
                                        "quiet")))))
     = true.
Proof.
  vm_compute. repeat split.
Qed.

(** C1. With an fstab that cannot be loaded the start-up goes on and no
    rule is registered, but the adoptable output is never assigned:
    [vold_main] publishes [vold.has_adoptable] from an uninitialised
    variable. *)
Theorem fstab_failure_leaves_has_adoptable_unassigned :
  fst (run (@vold_main example_flags
              (example_env None "quiet SDCARD=mmcblk0p12 ro")))
  = Ret tt
  /\ mDiskSources
       (snd (run (@vold_main example_flags
                    (example_env None "quiet SDCARD=mmcblk0p12 ro"))))
     = []
  /\ has_adoptable
       (snd (run (@vold_main example_flags
                    (example_env None "quiet SDCARD=mmcblk0p12 ro"))))
     = None
  /\ has_adoptable
       (snd (run (@vold_main example_flags
                    (example_env None "quiet SDCARD=mmcblk0p12 ro"))))
     <> Some false
  /\ In (EvLog "Error reading configuration... continuing anyways")
        (trace (snd (run (@vold_main example_flags
                            (example_env None "quiet SDCARD=mmcblk0p12 ro")))))
  /\ In (EvPropertySet "vold.has_adoptable" None)
        (trace (snd (run (@vold_main example_flags
                            (example_env None "quiet SDCARD=mmcblk0p12 ro")))))
  /\ In EvIdleLoop
        (trace (snd (run (@vold_main example_flags
                            (example_env None "quiet SDCARD=mmcblk0p12 ro"))))).
Proof.
  vm_compute. repeat split; try discriminate; auto 60.
Qed.

(* ================================================================== *)
(** ** Outcomes of [process_config] *)
(* ================================================================== *)

Section Outcomes.
Context {F : DiskFlags}.
Variable e : env.

Lemma ends_in_digit_cons (c : ascii) (b : string) :
  b <> "" -> ends_in_digit (String c b) = ends_in_digit b.
Proof. destruct b; [congruence | reflexivity]. Qed.

(** [trailing_split] cuts a string at its maximal trailing run of
    digits. *)
Lemma trailing_split_spec (s : string) :
  s = (fst (trailing_split s) ++ snd (trailing_split s))%string
  /\ all_digits (snd (trailing_split s)) = true
  /\ ends_in_digit (fst (trailing_split s)) = false.
Proof.
  induction s as [|c s (IH1 & IH2 & IH3)]; [repeat split|].
  cbn [trailing_split]. destruct (trailing_split s) as [b d].
  cbn [fst snd] in *. destruct b as [|x b].
  - destruct (Std.isdigit c) eqn:Hc; cbn [fst snd].
    + simpl in IH1. subst s. repeat split. simpl. now rewrite Hc, IH2.
    + simpl in IH1. subst s. repeat split; [assumption|].
      unfold ends_in_digit. simpl. assumption.
  - cbn [fst snd]. repeat split; [simpl in *; congruence | assumption |].
    rewrite ends_in_digit_cons by discriminate. assumption.
Qed.

(** Lines 283-296 on any token. *)
Lemma split_partition_any (sdcard : string) (w : world) :
  split_partition sdcard w
  = if String.eqb (snd (trailing_split sdcard)) "" then (Ret (sdcard, -1), w)
    else if decimal (snd (trailing_split sdcard)) <=? Std.INT_MAX
    then (Ret (strip_separator (fst (trailing_split sdcard))
                 (String.length (fst (trailing_split sdcard))),
               decimal (snd (trailing_split sdcard))), w)
    else (Aborted, w).
Proof.
  destruct (trailing_split_spec sdcard) as (Hs & Hd & Hb).
  destruct (String.eqb_spec (snd (trailing_split sdcard)) "") as [He|Hne].
  - rewrite He, append_nil_r in Hs. rewrite Hs at 1 2.
    rewrite split_partition_no_digits by assumption. now rewrite <- Hs.
  - rewrite Hs at 1. apply split_partition_digits; assumption.
Qed.

(** Lines 276-304 on any command line. *)
Lemma process_cmdline_any (path : string) (w : world) :
  process_cmdline e path w
  = match raw_token path with
    | None => (Ret tt, w)
    | Some t =>
        if String.eqb t "" then (Ret tt, w)
        else if access_X_OK e ("/sys/block/" ++ t)%string
        then (Ret tt, after_sdcard w t t true (-1))
        else if String.eqb (snd (trailing_split t)) ""
        then (Ret tt, after_sdcard w t t false (-1))
        else if decimal (snd (trailing_split t)) <=? Std.INT_MAX
        then (Ret tt,
              after_sdcard w t
                (strip_separator (fst (trailing_split t))
                   (String.length (fst (trailing_split t))))
                false (decimal (snd (trailing_split t))))
        else (Aborted,
              mkWorld (mDiskSources w) (has_adoptable w)
                      (trace w ++ [EvAccess ("/sys/block/" ++ t)%string false]))
    end.
Proof.
  destruct (raw_token path) as [t|] eqn:Ht;
    [|unfold process_cmdline; now rewrite Ht].
  destruct (String.eqb_spec t "") as [->|Hne];
    [unfold process_cmdline; now rewrite Ht|].
  rewrite (process_cmdline_token e path t w Ht Hne). cbv zeta.
  unfold after_sdcard.
  destruct (access_X_OK e ("/sys/block/" ++ t)%string).
  - cbn [mDiskSources trace]. now rewrite <- !app_assoc.
  - rewrite split_partition_any.
    destruct (String.eqb (snd (trailing_split t)) "");
      [cbn [mDiskSources trace]; now rewrite <- !app_assoc|].
    destruct (decimal (snd (trailing_split t)) <=? Std.INT_MAX);
      [cbn [mDiskSources trace]; now rewrite <- !app_assoc | reflexivity].
Qed.

Lemma process_config_result (w : world) :
  fst (process_config e w)
  = match fs_mgr_read_fstab e with
    | None => Ret (-1)
    | Some recs =>
        if null_string recs then Aborted
        else if sdcard_overflow e then Aborted else Ret 0
    end.
Proof.
  unfold sdcard_overflow.
  destruct (fs_mgr_read_fstab e) as [recs|] eqn:Hf;
    [|now rewrite process_config_not_loaded].
  destruct (null_string recs) eqn:Hn;
    [now rewrite (process_config_null_string e recs w Hf Hn)|].
  rewrite (process_config_loaded e recs w Hf Hn).
  destruct (proc_cmdline e) as [path|]; [|reflexivity].
  rewrite process_cmdline_any.
  destruct (raw_token path) as [t|]; [|reflexivity].
  destruct (String.eqb_spec t "") as [->|Hne].
  { cbn. now rewrite andb_false_r. }
  destruct (access_X_OK e ("/sys/block/" ++ t)%string); [reflexivity|].
  destruct (String.eqb (snd (trailing_split t)) ""); [reflexivity|].
  cbn [negb andb]. rewrite Z.leb_antisym.
  destruct (Std.INT_MAX <? decimal (snd (trailing_split t))); reflexivity.
Qed.

Lemma process_config_state (recs : list fstab_rec) (w : world) :
  fs_mgr_read_fstab e = Some recs ->
  null_string recs = false ->
  sdcard_overflow e = false ->
  has_adoptable (snd (process_config e w))
  = Some (any_adoptable recs || sdcard_token_present e)
  /\ exists tail,
       mDiskSources (snd (process_config e w))
       = mDiskSources w ++ fstab_rules e recs ++ tail
       /\ List.length tail = if sdcard_token_present e then 1%nat else 0%nat.
Proof.
  intros Hf Hn Ho. unfold sdcard_overflow in Ho. rewrite Hf in Ho.
  unfold sdcard_token_present.
  rewrite (process_config_loaded e recs w Hf Hn).
  destruct (proc_cmdline e) as [path|].
  2:{ cbn [snd has_adoptable mDiskSources after_read_cmdline after_fstab].
      rewrite orb_false_r. split; [reflexivity|]. exists [].
      now rewrite app_nil_r. }
  rewrite process_cmdline_any.
  destruct (raw_token path) as [t|].
  2:{ cbn [snd has_adoptable mDiskSources after_read_cmdline after_fstab].
      rewrite orb_false_r. split; [reflexivity|]. exists [].
      now rewrite app_nil_r. }
  destruct (String.eqb_spec t "") as [->|Hne].
  { cbn [negb snd has_adoptable mDiskSources after_read_cmdline after_fstab].
    rewrite orb_false_r. split; [reflexivity|]. exists [].
    now rewrite app_nil_r. }
  cbn [negb]. rewrite orb_true_r.
  assert (Hreg : forall name acc pn,
    has_adoptable
      (after_sdcard (after_read_cmdline true (after_fstab e w recs))
                    t name acc pn) = Some true
    /\ exists tail,
         mDiskSources
           (after_sdcard (after_read_cmdline true (after_fstab e w recs))
                         t name acc pn)
         = mDiskSources w ++ fstab_rules e recs ++ tail
         /\ List.length tail = 1%nat).
  { intros name acc pn. split; [reflexivity|].
    exists [sdcard_rule name pn].
    cbn [after_sdcard mDiskSources after_read_cmdline after_fstab].
    now rewrite <- app_assoc. }
  destruct (access_X_OK e ("/sys/block/" ++ t)%string); [apply Hreg|].
  destruct (String.eqb (snd (trailing_split t)) ""); [apply Hreg|].
  cbn [negb andb] in Ho. rewrite Z.leb_antisym, Ho. apply Hreg.
Qed.

End Outcomes.

Section SdcardRule.
Context {F : DiskFlags}.
Variable e : env.

Lemma take_is_prefix (n : nat) (s : string) :
  exists r, s = (Std.take n s ++ r)%string.
Proof.
  revert s; induction n as [|n IH]; intros [|c s]; simpl.
  - now exists ""%string.
  - now exists (String c s).
  - now exists ""%string.
  - destruct (IH s) as [r Hr]. exists r. congruence.
Qed.

Lemma strip_separator_is_prefix (base : string) :
  exists r, base = (strip_separator base (String.length base) ++ r)%string.
Proof.
  unfold strip_separator, Std.substr. cbn [Std.drop].
  destruct (Std.find base "mmcblk").
  - destruct (Std.find _ "nvme"); rewrite ?take_idem; apply take_is_prefix.
  - destruct (Std.find base "nvme"); [apply take_is_prefix|].
    exists ""%string. now rewrite append_nil_r.
Qed.

Lemma app_one_more {A : Type} (l : list A) (x : A) : l <> l ++ [x].
Proof.
  intros H. apply (f_equal (@List.length A)) in H.
  rewrite length_app in H. simpl in H. lia.
Qed.

End SdcardRule.

(* ================================================================== *)
(** ** What must have happened before what, in [vold_main] *)
(* ================================================================== *)

Section Guards.
Variables trigger guard : event -> bool.

Lemma forallb_all (evs : list event) : forallb (fun _ => true) evs = true.
Proof. induction evs; simpl; auto. Qed.

Lemma guards_quiet {A : Type} (m : M A) :
  emits (fun ev => negb (trigger ev)) m -> guards trigger guard m.
Proof. intros H w. destruct (H w) as (evs & Ht & Ho). exists evs. auto. Qed.

Lemma guards_bind {A B : Type} (m : M A) (f : A -> M B) :
  emits (fun ev => negb (trigger ev)) m ->
  (forall a, guards trigger guard (f a)) ->
  guards trigger guard (bind m f).
Proof.
  intros Hm Hf w. unfold bind. destruct (Hm w) as (e1 & H1 & O1).
  destruct (m w) as [[a|c|] w1]; cbn [snd] in *.
  - destruct (Hf a w1) as (e2 & H2 & [O2|(x & g & y & -> & Ox & Hg)]).
    + exists (e1 ++ e2). rewrite H2, H1, app_assoc. split; [reflexivity|].
      left. now rewrite forallb_app, O1, O2.
    + exists (e1 ++ x ++ g :: y). rewrite H2, H1, <- app_assoc.
      split; [reflexivity|]. right. exists (e1 ++ x), g, y.
      rewrite <- app_assoc, forallb_app, O1, Ox. auto.
  - exists e1. auto.
  - exists e1. auto.
Qed.

Lemma guards_after {B : Type} (g : event) (m : M B) :
  guard g = true -> trigger g = false ->
  emits (fun _ => true) m ->
  guards trigger guard (bind (emit g) (fun _ => m)).
Proof.
  intros Hg Ht Hm w. unfold bind. cbn [emit].
  destruct (Hm (mkWorld (mDiskSources w) (has_adoptable w) (trace w ++ [g])))
    as (evs & H & _).
  exists (g :: evs). rewrite H. cbn [trace]. rewrite <- app_assoc.
  split; [reflexivity|]. right. exists [], g, evs. auto.
Qed.

(** A computation that never returns stops what follows it. *)
Lemma emits_bind_stop {A B : Type} (ok : event -> bool) (m : M A)
    (f : A -> M B) :
  emits ok m -> (forall w a, fst (m w) <> Ret a) -> emits ok (bind m f).
Proof.
  intros Hm Hs w. unfold bind. destruct (Hm w) as (evs & H & O).
  specialize (Hs w). destruct (m w) as [[a|c|] w1]; cbn [fst snd] in *.
  - now destruct (Hs a).
  - exists evs. auto.
  - exists evs. auto.
Qed.

Lemma or_die_false_stops (msg : string) (w : world) (a : unit) :
  fst (or_die false msg w) <> Ret a.
Proof. discriminate. Qed.

(** From the events a computation appends to the trace as a whole. *)
Lemma guards_run {A : Type} (m : M A) :
  (forall ev, guard ev = true -> trigger ev = false) ->
  guards trigger guard m ->
  forall pre ev post,
    trace (snd (run m)) = pre ++ ev :: post ->
    trigger ev = true ->
    exists g, In g pre /\ guard g = true.
Proof.
  intros Hdis Hm pre ev post Ht Hev. unfold run in Ht.
  destruct (Hm world0) as (evs & H & [O|(a & g & b & -> & Oa & Hg)]);
    cbn [trace world0 app] in H; rewrite H in Ht.
  - subst evs. rewrite forallb_app in O. apply andb_prop in O as [_ O].
    cbn [forallb] in O. rewrite Hev in O. discriminate O.
  - apply app_eq_app in Ht as [l [[Ha Hb]|[Ha Hb]]].
    + destruct l as [|x l]; cbn [app] in Hb.
      * injection Hb as -> _. rewrite (Hdis _ Hg) in Hev. discriminate Hev.
      * injection Hb as <- _. subst a. rewrite forallb_app in Oa.
        apply andb_prop in Oa as [_ Oa]. cbn [forallb] in Oa.
        rewrite Hev in Oa. discriminate Oa.
    + destruct l as [|x l]; cbn [app] in Hb.
      * injection Hb as -> _. rewrite (Hdis _ Hg) in Hev. discriminate Hev.
      * injection Hb as <- _. subst pre. exists g.
        split; [|assumption]. apply in_or_app. right. now left.
Qed.

End Guards.

Ltac quiet_step :=
  first [ apply emits_ret | apply emits_exit | apply emits_abort
        | apply emits_set_has_adoptable | apply emits_get_has_adoptable
        | apply emits_parse_args
        | apply emits_emit; reflexivity
        | apply emits_addDiskSource; reflexivity
        | apply emits_or_die; reflexivity
        | apply emits_emit_all; apply forallb_all
        | apply emits_emit_all; apply forallb_map_Coldboot
        | apply emits_when
        | apply emits_bind; [|intros] ].

Section ProcessConfigEmits.
Context {F : DiskFlags}.
Variable e : env.

(** [process_config] emits nothing but its own five kinds of events. *)
Lemma process_config_emits (ok : event -> bool) :
  (forall p b, ok (EvReadFstab p b) = true) ->
  (forall p b, ok (EvReadFile p b) = true) ->
  (forall p b, ok (EvAccess p b) = true) ->
  (forall ds, ok (EvAddDiskSource ds) = true) ->
  (forall m, ok (EvLog m) = true) ->
  (forall s n, ok (EvLogSdcard s n) = true) ->
  emits ok (process_config e).
Proof.
  intros H1 H2 H3 H4 H5 H6.
  assert (Hemit : forall ev,
            match ev with
            | EvReadFstab _ _ | EvReadFile _ _ | EvAccess _ _
            | EvAddDiskSource _ | EvLog _ | EvLogSdcard _ _ => True
            | _ => False
            end -> emits ok (emit ev)).
  { intros ev Hev. apply emits_emit. destruct ev; auto; contradiction. }
  assert (Hadd : forall ds, emits ok (addDiskSource ds)).
  { intros ds. apply emits_addDiskSource, H4. }
  unfold process_config.
  destruct (fs_mgr_read_fstab e) as [recs|].
  2:{ repeat first [apply Hemit; exact I | quiet_step]. }
  repeat first [apply Hemit; exact I | apply Hadd | quiet_step].
  - apply emits_for_each. intros r. unfold process_fstab_rec.
    destruct (fs_mgr_is_voldmanaged r);
      [destruct (blk_device r); [destruct (label r)|]|];
      repeat first [apply Hadd | quiet_step].
  - destruct (proc_cmdline e) as [path|];
      repeat first [apply Hemit; exact I | quiet_step].
    unfold process_cmdline. destruct (raw_token path); [|quiet_step].
    destruct (negb _);
      repeat first [apply Hemit; exact I | apply Hadd | quiet_step].
    + destruct (negb _); [|quiet_step]. unfold split_partition.
      destruct (negb _); [|quiet_step].
      destruct (Std.stoi _); quiet_step.
    + match goal with sp : (string * Z)%type |- _ => destruct sp end.
      repeat first [apply Hemit; exact I | apply Hadd | quiet_step].
Qed.

End ProcessConfigEmits.

Lemma forallb_Coldboot_ok (ok : event -> bool) (t : list syscall) :
  (forall s, ok (EvColdboot s) = true) ->
  forallb ok (map EvColdboot t) = true.
Proof. intros H. induction t; simpl; rewrite ?H; auto. Qed.

Lemma crypt_listener_failure_stops (ev : event) (msg : string) (w : world)
    (a : unit) :
  fst (bind (emit ev) (fun _ => or_die false msg) w) <> Ret a.
Proof. discriminate. Qed.

Lemma guards_after_nested {A B : Type} (trigger guard : event -> bool)
    (g : event) (m : M A) (f : A -> M B) :
  guard g = true -> trigger g = false ->
  emits (fun _ => true) m -> (forall a, emits (fun _ => true) (f a)) ->
  guards trigger guard (bind (bind (emit g) (fun _ => m)) f).
Proof.
  intros Hg Ht Hm Hf w.
  assert (He : emits (fun _ => true) (bind m f)) by now apply emits_bind.
  destruct (He (mkWorld (mDiskSources w) (has_adoptable w) (trace w ++ [g])))
    as (evs & H & _).
  exists (g :: evs). split.
  - unfold bind in *. cbn [emit] in *.
    destruct (m _) as [[a|c|] w1]; cbn [snd trace] in *;
      rewrite H, <- app_assoc; reflexivity.
  - right. exists [], g, evs. auto.
Qed.

Ltac all_step e :=
  first [ apply (process_config_emits e); intros; reflexivity
        | apply emits_emit_all; apply forallb_Coldboot_ok; intros; reflexivity
        | quiet_step ].

Ltac guards_chain e :=
  repeat first
    [ apply guards_after;
      [reflexivity | reflexivity | solve [repeat all_step e]]
    | apply guards_quiet; apply emits_bind_stop;
      [solve [repeat all_step e] | apply or_die_false_stops]
    | apply guards_bind; [solve [repeat all_step e] | intros] ].

Section StartupOrder.
Context {F : DiskFlags}.
Variable e : env.

Lemma vold_main_guards_coldboot :
  guards is_Coldboot is_NetlinkStarted (vold_main e).
Proof.
  unfold vold_main. destruct (nm_start_ok e); guards_chain e.
Qed.

Lemma vold_main_guards_registration :
  guards is_AddDiskSource is_VolumeManagerStarted (vold_main e).
Proof.
  unfold vold_main. destruct (vm_start_ok e); guards_chain e.
Qed.

Lemma vold_main_guards_property :
  guards is_PropertySet (is_ListenerStarted "CommandListener") (vold_main e).
Proof.
  unfold vold_main. destruct (cl_startListener_ok e); guards_chain e.
Qed.

Lemma vold_main_guards_property_crypt :
  MINIVOLD e = false ->
  guards is_PropertySet (is_ListenerStarted "CryptCommandListener")
         (vold_main e).
Proof.
  intros Hm. unfold vold_main. rewrite Hm. cbn [negb when].
  destruct (ccl_startListener_ok e);
    repeat first
      [ apply guards_after_nested;
        [reflexivity | reflexivity | solve [repeat all_step e]
        | intros; solve [repeat all_step e]]
      | apply guards_quiet; apply emits_bind_stop;
        [solve [repeat all_step e] | apply crypt_listener_failure_stops]
      | apply guards_bind; [solve [repeat all_step e] | intros] ].
Qed.

End StartupOrder.

(* ================================================================== *)
(** ** How [vold_main] ends *)
(* ================================================================== *)

Section Returns.

Lemma returns_ret {A : Type} (a : A) : returns (ret a) (Ret a).
Proof. intros w. reflexivity. Qed.

Lemma returns_emit (ev : event) : returns (emit ev) (Ret tt).
Proof. intros w. reflexivity. Qed.

Lemma returns_emit_all (evs : list event) : returns (emit_all evs) (Ret tt).
Proof. intros w. reflexivity. Qed.

Lemma returns_abort {A : Type} : returns (@abort A) Aborted.
Proof. intros w. reflexivity. Qed.

Lemma returns_or_die_true (msg : string) : returns (or_die true msg) (Ret tt).
Proof. intros w. reflexivity. Qed.

Lemma returns_or_die_false (msg : string) :
  returns (or_die false msg) (Exit 1).
Proof. intros w. reflexivity. Qed.

Lemma returns_bind {A B : Type} (m : M A) (f : A -> M B) (a : A)
    (r : result B) :
  returns m (Ret a) -> returns (f a) r -> returns (bind m f) r.
Proof.
  intros Hm Hf w. unfold bind. specialize (Hm w).
  destruct (m w) as [[a'|c|] w1]; cbn [fst] in Hm; try discriminate Hm.
  injection Hm as ->. apply Hf.
Qed.

Lemma returns_bind_exit {A B : Type} (m : M A) (f : A -> M B) (c : Z) :
  returns m (Exit c) -> returns (bind m f) (Exit c).
Proof.
  intros Hm w. unfold bind. specialize (Hm w).
  destruct (m w) as [[a'|c'|] w1]; cbn [fst] in Hm; try discriminate Hm.
  injection Hm as ->. reflexivity.
Qed.

Lemma returns_bind_abort {A B : Type} (m : M A) (f : A -> M B) :
  returns m Aborted -> returns (bind m f) Aborted.
Proof.
  intros Hm w. unfold bind. specialize (Hm w).
  destruct (m w) as [[a'|c'|] w1]; cbn [fst] in Hm; try discriminate Hm.
  reflexivity.
Qed.

Lemma returns_bind_get {B : Type} (f : option bool -> M B) (r : result B) :
  (forall h, returns (f h) r) -> returns (bind get_has_adoptable f) r.
Proof. intros Hf w. unfold bind. cbn [get_has_adoptable]. apply Hf. Qed.

End Returns.

Ltac returns_step :=
  cbn [negb andb orb is_some when];
  lazymatch goal with
  | |- returns (bind (emit _) _) _ =>
      eapply returns_bind; [apply returns_emit|]
  | |- returns (bind (emit_all _) _) _ =>
      eapply returns_bind; [apply returns_emit_all|]
  | |- returns (bind (ret _) _) _ =>
      eapply returns_bind; [apply returns_ret|]
  | |- returns (bind abort _) _ =>
      apply returns_bind_abort, returns_abort
  | |- returns (bind get_has_adoptable _) _ =>
      apply returns_bind_get; intros
  | |- returns (bind (or_die ?b _) _) _ =>
      destruct b;
      [ eapply returns_bind; [apply returns_or_die_true|]
      | apply returns_bind_exit, returns_or_die_false ]
  | |- returns (bind (bind (emit _) (fun _ => or_die ?b _)) _) _ =>
      destruct b;
      [ eapply returns_bind;
        [eapply returns_bind; [apply returns_emit|apply returns_or_die_true]|]
      | apply returns_bind_exit; eapply returns_bind;
        [apply returns_emit | apply returns_or_die_false] ]
  | |- returns (bind (when (negb ?b) _) _) _ => destruct b
  | |- returns (bind (when ?b _) _) _ => destruct b
  | |- returns (emit _) _ => apply returns_emit
  end.

Section HowItEnds.
Context {F : DiskFlags}.
Variable e : env.

Lemma process_config_returns :
  returns (process_config e)
          (match fs_mgr_read_fstab e with
           | None => Ret (-1)
           | Some recs =>
               if null_string recs then Aborted
               else if sdcard_overflow e then Aborted else Ret 0
           end).
Proof. intros w. apply process_config_result. Qed.

(** The result of [vold_main], case by case in program order. *)
Lemma vold_main_returns :
  returns (vold_main e)
    (if negb (contexts_ok e) then Aborted
     else if negb (VolumeManager_Instance e && NetlinkManager_Instance e
                   && vm_start_ok e) then Exit 1
     else if null_string_in_fstab e || sdcard_overflow e then Aborted
     else if negb (nm_start_ok e && cl_startListener_ok e
                   && (MINIVOLD e || ccl_startListener_ok e)) then Exit 1
     else Ret tt).
Proof.
  unfold vold_main, contexts_ok, parse_args.
  do 3 returns_step.
  destruct (sBlkidContext e), (sBlkidUntrustedContext e),
           (sFsckContext e), (sFsckUntrustedContext e);
    try (returns_step; fail).
  repeat returns_step.
  all: pose proof process_config_returns as Hpc.
  all: assert (Hov : fs_mgr_read_fstab e = None -> sdcard_overflow e = false)
         by (intros Hn; unfold sdcard_overflow; now rewrite Hn).
  all: unfold null_string_in_fstab.
  all: destruct (fs_mgr_read_fstab e) as [recs|];
       [ destruct (null_string recs); cbn [orb];
         [ apply returns_bind_abort, Hpc
         | destruct (sdcard_overflow e);
           [ apply returns_bind_abort, Hpc | ] ]
       | rewrite (Hov eq_refl); cbn [orb] ].
  all: (eapply returns_bind; [exact Hpc|]); cbn [Z.eqb].
  all: repeat returns_step.
Qed.

End HowItEnds.

Section Published.
Context {F : DiskFlags}.
Variable e : env.

Lemma vold_main_split :
  vold_main e
  = before_config e (bind (process_config e) (after_config e)).
Proof. reflexivity. Qed.

(** When nothing fails before it, [process_config] is reached with an
    empty registry and an unassigned [has_adoptable]. *)
Lemma before_config_run (k : M unit) :
  contexts_ok e = true ->
  VolumeManager_Instance e && NetlinkManager_Instance e && vm_start_ok e
  = true ->
  exists evs, before_config e k world0 = k (mkWorld [] None evs).
Proof.
  intros Hc Hd. unfold contexts_ok in Hc. unfold before_config, parse_args.
  destruct (sBlkidContext e); [|discriminate Hc].
  destruct (sBlkidUntrustedContext e); [|discriminate Hc].
  destruct (sFsckContext e); [|discriminate Hc].
  destruct (sFsckUntrustedContext e); [|discriminate Hc].
  destruct (VolumeManager_Instance e); [|discriminate Hd].
  destruct (NetlinkManager_Instance e); [|discriminate Hd].
  destruct (vm_start_ok e); [|discriminate Hd].
  destruct (prop_vold_debug e), (MINIVOLD e);
    cbv beta iota delta [bind emit ret when or_die negb world0
                         mDiskSources has_adoptable trace app];
    eexists; reflexivity.
Qed.

(** When nothing fails after it, the start-up goes from the return of
    [process_config] to the idle loop; the registry and [has_adoptable]
    stay as [process_config] left them, and the last thing before the
    idle loop is the publication of [has_adoptable]. *)
Lemma after_config_run (rc : Z) (w : world) :
  nm_start_ok e && cl_startListener_ok e
  && (MINIVOLD e || ccl_startListener_ok e) = true ->
  after_config e rc w
  = (Ret tt,
     mkWorld (mDiskSources w) (has_adoptable w)
       (trace w
        ++ (if negb (rc =? 0)
            then [EvLog "Error reading configuration... continuing anyways"]
            else [])
        ++ [EvNetlinkManagerStart true]
        ++ map EvColdboot (coldboot "/sys/block" (sys_block e))
        ++ [EvStartListener "CommandListener" true]
        ++ (if MINIVOLD e then []
            else [EvStartListener "CryptCommandListener" true])
        ++ [EvPropertySet "vold.has_adoptable"
              (option_map (fun b : bool => if b then "1" else "0")
                 (has_adoptable w));
            EvIdleLoop])).
Proof.
  intros Hd. unfold after_config.
  destruct (nm_start_ok e); [|discriminate Hd].
  destruct (cl_startListener_ok e); [|discriminate Hd].
  cbn [andb] in Hd.
  destruct (negb (rc =? 0)), (MINIVOLD e); cbn [orb] in Hd;
    try (destruct (ccl_startListener_ok e); [|discriminate Hd]);
    cbv beta iota delta [bind emit emit_all ret when or_die negb
                         get_has_adoptable];
    cbn [mDiskSources has_adoptable trace fst snd];
    do 2 f_equal; rewrite <- !app_assoc; reflexivity.
Qed.

End Published.

(* ================================================================== *)
(** ** Descriptors and write targets of the coldboot walk *)
(* ================================================================== *)

Section Descriptors.

Lemma descriptors_opened_app (t1 t2 : list syscall) :
  descriptors_opened (t1 ++ t2)
  = (descriptors_opened t1 + descriptors_opened t2)%nat.
Proof.
  induction t1 as [|s t IH]; [reflexivity|].
  destruct s as [p [|]|p [|]|p b o|p|p [|]|p o|p];
    cbn [descriptors_opened app]; rewrite IH; reflexivity.
Qed.

Lemma descriptors_closed_app (t1 t2 : list syscall) :
  descriptors_closed (t1 ++ t2)
  = (descriptors_closed t1 + descriptors_closed t2)%nat.
Proof.
  induction t1 as [|s t IH]; [reflexivity|].
  destruct s; cbn [descriptors_closed app]; rewrite IH; reflexivity.
Qed.

Lemma do_coldboot_balanced (d : dir) :
  forall (p : location) (lvl : Z),
    descriptors_opened (do_coldboot p d lvl)
    = descriptors_closed (do_coldboot p d lvl).
Proof.
  induction d as [ue ents IH] using dir_tree_ind. intros p lvl.
  rewrite do_coldboot_eq, descriptors_opened_app, descriptors_closed_app.
  f_equal; [destruct ue; reflexivity|].
  induction ents as [|[name dt tgt] l IHl]; [reflexivity|].
  cbn [readdir_loop].
  rewrite descriptors_opened_app, descriptors_closed_app. f_equal.
  - cbn [visit_entry]. destruct (first_is_dot name); [reflexivity|].
    destruct (negb (is_DT_DIR dt) && (lvl >? 0)); [reflexivity|].
    destruct tgt as [| |d2]; try reflexivity.
    cbn [descend]. rewrite !descriptors_opened_app, !descriptors_closed_app.
    rewrite (IH name dt d2) by now left. cbn. lia.
  - apply IHl. intros n t d2 Hin. apply (IH n t d2). now right.
Qed.

(** A write of the walk from [p] goes to a file named [uevent] that is
    reached from [p] through entries whose names do not begin with a
    dot. *)
Lemma do_coldboot_write_below (d : dir) :
  forall (p : location) (lvl : Z) (q : location) (buf : string) (ok : bool),
    In (sys_write q buf ok) (do_coldboot p d lvl) ->
    exists mid,
      q = p ++ mid ++ ["uevent"%string]
      /\ forall n, In n mid -> first_is_dot n = false.
Proof.
  induction d as [ue ents IH] using dir_tree_ind.
  intros p lvl q buf ok. rewrite do_coldboot_eq, in_app_iff.
  intros [H|H].
  - destruct ue as [|ok']; cbn [trigger_uevent In] in H.
    + destruct H as [H|[]]; discriminate H.
    + destruct H as [H|[H|[H|[]]]]; try discriminate H.
      injection H as <- _ _. exists []. split; [reflexivity | intros n []].
  - apply readdir_loop_In in H as (de & Hde & H).
    apply visit_entry_In in H as (name & dt & tgt & -> & Hdot & _ & H).
    destruct tgt as [| |d2]; cbn [descend In app] in H.
    + destruct H as [H|[]]; discriminate H.
    + destruct H as [H|[H|[H|[]]]]; discriminate H.
    + destruct H as [H|[H|H]]; try discriminate H.
      apply in_app_iff in H as [H|[H|[]]]; [|discriminate H].
      destruct (IH name dt d2 Hde _ _ _ _ _ H) as (mid & -> & Hmid).
      exists (name :: mid). split.
      * rewrite <- app_assoc. reflexivity.
      * intros n [<-|Hn]; auto.
Qed.

End Descriptors.

(* ================================================================== *)
(** ** The options of [parse_args] *)
(* ================================================================== *)

Section Options.

Lemma scan_options_snoc (opts : list (ascii * string)) (o : ascii * string)
    (cs : contexts) :
  scan_options (opts ++ [o]) cs = set_context (scan_options opts cs) o.
Proof. unfold scan_options. now rewrite fold_left_app. Qed.

Lemma last_optarg_snoc (c : ascii) (opts : list (ascii * string))
    (c' : ascii) (a : string) :
  last_optarg c (opts ++ [(c', a)])
  = if Ascii.eqb c' c then Some a else last_optarg c opts.
Proof.
  induction opts as [|[x y] opts IH]; cbn [app last_optarg].
  - reflexivity.
  - rewrite IH. destruct (Ascii.eqb c' c); [reflexivity|].
    reflexivity.
Qed.

Lemma scan_options_contexts (opts : list (ascii * string)) (cs : contexts) :
  c_blkid (scan_options opts cs) = or_else (last_optarg "b" opts) (c_blkid cs)
  /\ c_blkid_untrusted (scan_options opts cs)
     = or_else (last_optarg "B" opts) (c_blkid_untrusted cs)
  /\ c_fsck (scan_options opts cs) = or_else (last_optarg "f" opts) (c_fsck cs)
  /\ c_fsck_untrusted (scan_options opts cs)
     = or_else (last_optarg "F" opts) (c_fsck_untrusted cs).
Proof.
  induction opts as [|[c a] opts (I1 & I2 & I3 & I4)] using rev_ind.
  - repeat split.
  - rewrite scan_options_snoc, !last_optarg_snoc. cbn [set_context].
    destruct (Ascii.eqb_spec c "b") as [->|Hb];
      [cbn; rewrite I2, I3, I4; repeat split|].
    destruct (Ascii.eqb_spec c "B") as [->|HB];
      [cbn; rewrite I1, I3, I4; repeat split|].
    destruct (Ascii.eqb_spec c "f") as [->|Hf];
      [cbn; rewrite I1, I2, I4; repeat split|].
    destruct (Ascii.eqb_spec c "F") as [->|HF];
      [cbn; rewrite I1, I2, I3; repeat split|].
    repeat split; assumption.
Qed.

End Options.

Lemma land_lor3 (a b c k : Z) :
  Z.land (Z.lor (Z.lor a b) c) k
  = Z.lor (Z.lor (Z.land a k) (Z.land b k)) (Z.land c k).
Proof. now rewrite !Z.land_lor_distr_l. Qed.


(* ================================================================== *)
(** ** Further properties of the bootstrap *)
(* ================================================================== *)

Lemma trailing_split_digits (digits : string) :
  all_digits digits = true -> trailing_split digits = (""%string, digits).
Proof.
  induction digits as [|c d IH]; [reflexivity|]. cbn [all_digits].
  intros H. apply andb_prop in H as [Hc Hd].
  cbn [trailing_split]. rewrite (IH Hd), Hc. reflexivity.
Qed.

Lemma trailing_split_app (base digits : string) :
  all_digits digits = true -> ends_in_digit base = false ->
  trailing_split (base ++ digits)%string = (base, digits).
Proof.
  intros Hd. induction base as [|c b IH]; intros Hb.
  - now apply trailing_split_digits.
  - cbn [append trailing_split]. destruct b as [|x b].
    + cbn [append]. rewrite (trailing_split_digits digits Hd).
      unfold ends_in_digit in Hb. cbn [last_char] in Hb. now rewrite Hb.
    + rewrite IH by (rewrite <- Hb; symmetry;
                     apply ends_in_digit_cons; discriminate).
      reflexivity.
Qed.

(** X1. [process_config] returns -1 exactly when the fstab does not load;
    otherwise it returns 0, unless the process is terminated, which
    happens exactly when some vold-managed entry of the fstab has a null
    block device or label, or the [SDCARD=] token is not accessible under
    [/sys/block] and ends in a run of digits that denotes a number above
    [INT_MAX]. It never calls [exit]. *)
Theorem process_config_return_code {F : DiskFlags} (e : env) (w : world) :
  fst (process_config e w)
  = match fs_mgr_read_fstab e with
    | None => Ret (-1)
    | Some recs =>
        if null_string recs then Aborted
        else if sdcard_overflow e then Aborted else Ret 0
    end
  /\ (forall recs : list fstab_rec,
        null_string recs = true <->
        exists r, In r recs /\ fs_mgr_is_voldmanaged r = true
                  /\ (blk_device r = None \/ label r = None))
  /\ (sdcard_overflow e = true <->
      exists recs path base digits,
        fs_mgr_read_fstab e = Some recs
        /\ proc_cmdline e = Some path
        /\ raw_token path = Some (base ++ digits)%string
        /\ access_X_OK e ("/sys/block/" ++ base ++ digits)%string = false
        /\ all_digits digits = true
        /\ ends_in_digit base = false
        /\ Std.INT_MAX < decimal digits).
Proof.
  split; [apply process_config_result|]. split.
  { intros recs. unfold null_string. rewrite existsb_exists.
    split; intros (r & Hin & H); exists r; (split; [assumption|]);
      unfold is_null_string, rule_strings in *.
    - apply andb_prop in H as [Hv Hl]. split; [assumption|].
      destruct (blk_device r); [|now left].
      destruct (label r); [discriminate Hl | now right].
    - destruct H as [-> [-> | ->]]; [reflexivity|].
      now destruct (blk_device r). }
  unfold sdcard_overflow. split.
  - destruct (fs_mgr_read_fstab e) as [recs|]; [|discriminate].
    destruct (proc_cmdline e) as [path|]; [|discriminate].
    destruct (raw_token path) as [t|] eqn:Ht; [|discriminate].
    intros H. apply andb_prop in H as [H Hmax]. apply andb_prop in H as [Ha _].
    destruct (trailing_split_spec t) as (Hs & Hd & Hb).
    exists recs, path, (fst (trailing_split t)), (snd (trailing_split t)).
    rewrite <- Hs. apply negb_true_iff in Ha. apply Z.ltb_lt in Hmax.
    repeat split; auto.
  - intros (recs & path & base & digits & -> & -> & Ht & Ha & Hd & Hb & Hmax).
    rewrite Ht, Ha, (trailing_split_app base digits Hd Hb). cbn [snd negb andb].
    apply andb_true_intro. split; [|now apply Z.ltb_lt].
    destruct digits; [|reflexivity]. vm_compute in Hmax. discriminate Hmax.
Qed.

(** X2. After a [process_config] that loaded the fstab and was not
    terminated, the adoptable output is true exactly when some vold-managed
    entry is encryptable or the command line carries a non-empty [SDCARD=]
    token, and the registry has grown by the rules of the vold-managed
    entries followed by one rule when there is such a token, none
    otherwise. *)
Theorem process_config_adoptable_output
    {F : DiskFlags} (e : env) (recs : list fstab_rec) (w : world) :
  fs_mgr_read_fstab e = Some recs ->
  null_string recs = false ->
  sdcard_overflow e = false ->
  has_adoptable (snd (process_config e w))
  = Some (any_adoptable recs || sdcard_token_present e)
  /\ exists tail,
       mDiskSources (snd (process_config e w))
       = mDiskSources w ++ fstab_rules e recs ++ tail
       /\ List.length tail = if sdcard_token_present e then 1%nat else 0%nat.
Proof. apply process_config_state. Qed.

Lemma process_config_adoptable_output_example :
  has_adoptable
    (snd (run (@process_config example_flags
                 (example_env (Some [nth 0 example_recs
                                       (mkRec None None None None 0
                                              false false false false)])
                              "quiet SDCARD=sda1"))))
  = Some true
  /\ has_adoptable
       (snd (run (@process_config example_flags
                    (example_env (Some [nth 0 example_recs
                                          (mkRec None None None None 0
                                                 false false false false)])
                                 "quiet"))))
     = Some false.
Proof.
  split.
  - exact (proj1 (@process_config_adoptable_output example_flags
                    (example_env _ "quiet SDCARD=sda1")
                    [nth 0 example_recs
                            (mkRec None None None None 0
                                   false false false false)] world0 eq_refl eq_refl eq_refl)).
  - exact (proj1 (@process_config_adoptable_output example_flags
                    (example_env _ "quiet")
                    [nth 0 example_recs
                            (mkRec None None None None 0
                                   false false false false)] world0 eq_refl eq_refl eq_refl)).
Defined.

(** X3. A rule that the command line adds to the registry has the pattern
    [/devices/*/] followed by its nickname, the flag Adoptable alone, the
    file-system type [auto] and no mount options. Its nickname is the
    token without some characters at its end: none, with partition number
    -1, or at least one, with a partition number between 0 and
    [INT_MAX]. *)
Theorem sdcard_rule_shape
    {F : DiskFlags} (e : env) (path : string) (w : world) (ds : DiskSource) :
  mDiskSources (snd (process_cmdline e path w)) = mDiskSources w ++ [ds] ->
  exists t suffix,
    raw_token path = Some t
    /\ t <> ""%string
    /\ t = (ds_nickname ds ++ suffix)%string
    /\ ds = mkDiskSource ("/devices/*/" ++ ds_nickname ds)%string
                         (ds_nickname ds) (ds_partnum ds) kAdoptable
                         "auto" ""
    /\ (ds_partnum ds = -1 /\ suffix = ""%string
        \/ 0 <= ds_partnum ds <= Std.INT_MAX /\ suffix <> ""%string).
Proof.
  rewrite process_cmdline_any.
  destruct (raw_token path) as [t|];
    [|intros H; now apply app_one_more in H].
  destruct (String.eqb_spec t "") as [->|Hne];
    [intros H; now apply app_one_more in H|].
  assert (Hwhole : forall acc,
    mDiskSources (snd (Ret tt, after_sdcard w t t acc (-1)))
    = mDiskSources w ++ [ds] ->
    exists t0 suffix,
      Some t = Some t0 /\ t0 <> ""%string
      /\ t0 = (ds_nickname ds ++ suffix)%string
      /\ ds = mkDiskSource ("/devices/*/" ++ ds_nickname ds)%string
                           (ds_nickname ds) (ds_partnum ds) kAdoptable
                           "auto" ""
      /\ (ds_partnum ds = -1 /\ suffix = ""%string
          \/ 0 <= ds_partnum ds <= Std.INT_MAX /\ suffix <> ""%string)).
  { intros acc H. cbn [snd after_sdcard mDiskSources] in H.
    apply app_inv_head in H. injection H as <-.
    exists t, ""%string. cbn [sdcard_rule ds_nickname ds_partnum].
    rewrite append_nil_r. repeat split; auto. }
  destruct (access_X_OK e _); [apply Hwhole|].
  destruct (String.eqb_spec (snd (trailing_split t)) "") as [He|Hd];
    [apply Hwhole|].
  destruct (trailing_split_spec t) as (Hs & Hdig & Hb).
  destruct (decimal (snd (trailing_split t)) <=? Std.INT_MAX) eqn:Hmax.
  - intros H. cbn [snd after_sdcard mDiskSources] in H.
    apply app_inv_head in H. injection H as <-.
    destruct (strip_separator_is_prefix (fst (trailing_split t))) as [r Hr].
    exists t, (r ++ snd (trailing_split t))%string.
    cbn [sdcard_rule ds_nickname ds_partnum].
    repeat split; auto.
    + rewrite <- append_assoc, <- Hr. exact Hs.
    + right. split; [split|].
      * now apply decimal_nonneg.
      * now apply Z.leb_le.
      * intros Hz. destruct r; [|discriminate Hz]. simpl in Hz. auto.
  - intros H. cbn [snd mDiskSources] in H. now apply app_one_more in H.
Qed.

Lemma sdcard_rule_shape_example :
  exists t suffix,
    raw_token "quiet SDCARD=mmcblk0p12 ro" = Some t
    /\ t <> ""%string
    /\ t = ("mmcblk0" ++ suffix)%string
    /\ mkDiskSource "/devices/*/mmcblk0" "mmcblk0" 12 1 "auto" ""
       = mkDiskSource "/devices/*/mmcblk0" "mmcblk0" 12 1 "auto" ""
    /\ (12 = -1 /\ suffix = ""%string
        \/ 0 <= 12 <= Std.INT_MAX /\ suffix <> ""%string).
Proof.
  exact (@sdcard_rule_shape example_flags
           (example_env (Some []) "quiet SDCARD=mmcblk0p12 ro")
           "quiet SDCARD=mmcblk0p12 ro" world0
           (mkDiskSource "/devices/*/mmcblk0" "mmcblk0" 12 1 "auto" "")
           eq_refl).
Defined.

(** X4. A token made of digits only, not accessible under [/sys/block]
    and denoting a number of at most [INT_MAX], registers a rule with an
    empty nickname, the pattern [/devices/*/] and that number as partition
    number. *)
Theorem all_digit_token_gives_empty_name
    {F : DiskFlags} (e : env) (path t : string) (w : world) :
  raw_token path = Some t ->
  t <> ""%string ->
  all_digits t = true ->
  access_X_OK e ("/sys/block/" ++ t)%string = false ->
  decimal t <= Std.INT_MAX ->
  process_cmdline e path w
  = (Ret tt, after_sdcard w t "" false (decimal t)).
Proof.
  intros Ht Hne Hd Ha Hmax. rewrite process_cmdline_any, Ht, Ha.
  destruct (String.eqb_spec t "") as [|_]; [contradiction|].
  rewrite (trailing_split_digits t Hd). cbn [fst snd].
  destruct (String.eqb_spec t "") as [|_]; [contradiction|].
  apply Z.leb_le in Hmax. rewrite Hmax. reflexivity.
Qed.

Lemma all_digit_token_gives_empty_name_example :
  @process_cmdline example_flags (example_env (Some []) "SDCARD=123")
     "SDCARD=123" world0
  = (Ret tt, @after_sdcard example_flags world0 "123" "" false 123).
Proof.
  exact (@all_digit_token_gives_empty_name example_flags
           (example_env (Some []) "SDCARD=123") "SDCARD=123" "123" world0
           eq_refl ltac:(discriminate) eq_refl eq_refl
           ltac:(vm_compute; intro; discriminate)).
Defined.

(** X7. How [vold_main] ends, in program order: a missing context
    terminates the process at the [CHECK]s; a missing singleton or a
    volume manager that does not start gives [exit(1)]; then a
    vold-managed fstab entry with a null block device or label, or an
    [SDCARD=] token with an out-of-range partition number, terminates the
    process; then a netlink manager or a listener that does not start
    gives [exit(1)]; otherwise the idle loop is reached. So the idle loop
    is reached exactly when the contexts are given, every dependency is
    available, no vold-managed entry of a loaded fstab has a null block
    device or label and the token does not overflow, and 1 is the only
    exit code. *)
Theorem vold_main_outcome {F : DiskFlags} (e : env) :
  fst (run (vold_main e))
  = (if negb (contexts_ok e) then Aborted
     else if negb (VolumeManager_Instance e && NetlinkManager_Instance e
                   && vm_start_ok e) then Exit 1
     else if null_string_in_fstab e || sdcard_overflow e then Aborted
     else if negb (nm_start_ok e && cl_startListener_ok e
                   && (MINIVOLD e || ccl_startListener_ok e)) then Exit 1
     else Ret tt)
  /\ (fst (run (vold_main e)) = Ret tt
      <-> contexts_ok e = true /\ dependencies_ok e = true
          /\ null_string_in_fstab e = false
          /\ sdcard_overflow e = false)
  /\ (forall c, fst (run (vold_main e)) = Exit c -> c = 1).
Proof.
  pose proof (vold_main_returns e world0) as H. unfold run.
  split; [exact H|]. rewrite H. unfold dependencies_ok.
  split.
  - destruct (contexts_ok e), (VolumeManager_Instance e),
             (NetlinkManager_Instance e), (vm_start_ok e),
             (null_string_in_fstab e),
             (sdcard_overflow e), (nm_start_ok e), (cl_startListener_ok e),
             (MINIVOLD e), (ccl_startListener_ok e); cbn;
      (split; [intros H'; try discriminate H'; auto
              | intros (H1 & H2 & H3 & H4);
                try discriminate H1; try discriminate H2;
                try discriminate H3; try discriminate H4; reflexivity]).
  - intros c.
    destruct (contexts_ok e), (VolumeManager_Instance e),
             (NetlinkManager_Instance e), (vm_start_ok e),
             (null_string_in_fstab e),
             (sdcard_overflow e), (nm_start_ok e), (cl_startListener_ok e),
             (MINIVOLD e), (ccl_startListener_ok e); cbn;
      intros H'; try discriminate H'; now injection H'.
Qed.

(** X8. In the trace of [vold_main] a system call of the coldboot walk is
    always preceded by a successful start of the netlink manager: devices
    are only re-announced once the listener for their events runs. *)
Theorem coldboot_after_netlink_started
    {F : DiskFlags} (e : env) (pre post : list event) (ev : event) :
  trace (snd (run (vold_main e))) = pre ++ ev :: post ->
  is_Coldboot ev = true ->
  In (EvNetlinkManagerStart true) pre.
Proof.
  intros H Hev.
  destruct (guards_run is_Coldboot is_NetlinkStarted (vold_main e))
    with (pre := pre) (ev := ev) (post := post) as (g & Hin & Hg); auto.
  - intros []; try discriminate; reflexivity.
  - apply vold_main_guards_coldboot.
  - destruct g; try discriminate Hg.
    match goal with
    | Hi : In (EvNetlinkManagerStart ?b) _ |- _ =>
        destruct b; [exact Hi | discriminate Hg]
    end.
Qed.

Lemma coldboot_after_netlink_started_example :
  In (EvNetlinkManagerStart true)
     (firstn 20
        (trace (snd (run (@vold_main example_flags
                            (example_env (Some example_recs)
                                         "quiet SDCARD=mmcblk0p12 ro")))))).
Proof.
  refine (@coldboot_after_netlink_started example_flags
            (example_env (Some example_recs) "quiet SDCARD=mmcblk0p12 ro")
            _
            (skipn 21
               (trace (snd (run (@vold_main example_flags
                                   (example_env (Some example_recs)
                                      "quiet SDCARD=mmcblk0p12 ro"))))))
            (EvColdboot (sys_opendir ["/sys/block"%string] true))
            _ eq_refl).
  vm_compute. reflexivity.
Defined.

(** X9. In the trace of [vold_main] a registration of a disk source is
    always preceded by a successful start of the volume manager. *)
Theorem registration_after_volume_manager_started
    {F : DiskFlags} (e : env) (pre post : list event) (ev : event) :
  trace (snd (run (vold_main e))) = pre ++ ev :: post ->
  is_AddDiskSource ev = true ->
  In (EvVolumeManagerStart true) pre.
Proof.
  intros H Hev.
  destruct (guards_run is_AddDiskSource is_VolumeManagerStarted (vold_main e))
    with (pre := pre) (ev := ev) (post := post) as (g & Hin & Hg); auto.
  - intros []; try discriminate; reflexivity.
  - apply vold_main_guards_registration.
  - destruct g; try discriminate Hg.
    match goal with
    | Hi : In (EvVolumeManagerStart ?b) _ |- _ =>
        destruct b; [exact Hi | discriminate Hg]
    end.
Qed.

Lemma registration_after_volume_manager_started_example :
  In (EvVolumeManagerStart true)
     (firstn 13
        (trace (snd (run (@vold_main example_flags
                            (example_env (Some example_recs)
                                         "quiet SDCARD=mmcblk0p12 ro")))))).
Proof.
  refine (@registration_after_volume_manager_started example_flags
            (example_env (Some example_recs) "quiet SDCARD=mmcblk0p12 ro")
            _
            (skipn 14
               (trace (snd (run (@vold_main example_flags
                                   (example_env (Some example_recs)
                                      "quiet SDCARD=mmcblk0p12 ro"))))))
            (EvAddDiskSource
               (mkDiskSource "/devices/*/mmcblk1" "sdcard1" (-1) 1 "auto" ""))
            _ eq_refl).
  vm_compute. reflexivity.
Defined.

(** X10. In the trace of [vold_main] the property [vold.has_adoptable] is
    set only after the command listener has started, and, when the build
    is not MINIVOLD, after the crypt command listener has started. *)
Theorem publication_after_listeners_started
    {F : DiskFlags} (e : env) (pre post : list event) (ev : event) :
  trace (snd (run (vold_main e))) = pre ++ ev :: post ->
  is_PropertySet ev = true ->
  In (EvStartListener "CommandListener" true) pre
  /\ (MINIVOLD e = false ->
      In (EvStartListener "CryptCommandListener" true) pre).
Proof.
  intros H Hev. split.
  - destruct (guards_run is_PropertySet (is_ListenerStarted "CommandListener")
                (vold_main e))
      with (pre := pre) (ev := ev) (post := post) as (g & Hin & Hg); auto.
    + intros []; try discriminate; reflexivity.
    + apply vold_main_guards_property.
    + destruct g; try discriminate Hg.
      match goal with
      | Hi : In (EvStartListener ?n ?b) _ |- _ =>
          destruct b; [|discriminate Hg]; cbn [is_ListenerStarted] in Hg;
          apply String.eqb_eq in Hg; now subst n
      end.
  - intros Hm.
    destruct (guards_run is_PropertySet
                (is_ListenerStarted "CryptCommandListener") (vold_main e))
      with (pre := pre) (ev := ev) (post := post) as (g & Hin & Hg); auto.
    + intros []; try discriminate; reflexivity.
    + now apply vold_main_guards_property_crypt.
    + destruct g; try discriminate Hg.
      match goal with
      | Hi : In (EvStartListener ?n ?b) _ |- _ =>
          destruct b; [|discriminate Hg]; cbn [is_ListenerStarted] in Hg;
          apply String.eqb_eq in Hg; now subst n
      end.
Qed.

Lemma publication_after_listeners_started_example :
  In (EvStartListener "CommandListener" true)
     (removelast (removelast
        (trace (snd (run (@vold_main example_flags
                            (example_env (Some example_recs)
                                         "quiet SDCARD=mmcblk0p12 ro")))))))
  /\ In (EvStartListener "CryptCommandListener" true)
        (removelast (removelast
           (trace (snd (run (@vold_main example_flags
                               (example_env (Some example_recs)
                                  "quiet SDCARD=mmcblk0p12 ro"))))))).
Proof.
  assert (H : trace (snd (run (@vold_main example_flags
                                 (example_env (Some example_recs)
                                    "quiet SDCARD=mmcblk0p12 ro"))))
              = removelast (removelast
                  (trace (snd (run (@vold_main example_flags
                                      (example_env (Some example_recs)
                                         "quiet SDCARD=mmcblk0p12 ro"))))))
                ++ EvPropertySet "vold.has_adoptable" (Some "1"%string)
                   :: [EvIdleLoop])
    by (vm_compute; reflexivity).
  destruct (@publication_after_listeners_started example_flags
              (example_env (Some example_recs) "quiet SDCARD=mmcblk0p12 ro")
              _ _ _ H eq_refl) as [H1 H2].
  split; [exact H1 | exact (H2 eq_refl)].
Defined.

(** X11. When the contexts are given, every dependency is available, the
    fstab loads, none of its vold-managed entries has a null block device
    or label and the token does not overflow, the trace of [vold_main]
    ends with the publication of [vold.has_adoptable] and the idle loop,
    and the value published is 1 exactly when some vold-managed entry is
    encryptable or the command line carries a non-empty [SDCARD=] token,
    0 otherwise. *)
Theorem published_has_adoptable
    {F : DiskFlags} (e : env) (recs : list fstab_rec) :
  contexts_ok e = true ->
  dependencies_ok e = true ->
  fs_mgr_read_fstab e = Some recs ->
  null_string recs = false ->
  sdcard_overflow e = false ->
  exists pre,
    trace (snd (run (vold_main e)))
    = pre ++ [EvPropertySet "vold.has_adoptable"
                (Some (if any_adoptable recs || sdcard_token_present e
                       then "1" else "0")%string);
              EvIdleLoop].
Proof.
  intros Hc Hd Hf Hn Ho. unfold dependencies_ok in Hd.
  apply andb_prop in Hd as [Hd H6]. apply andb_prop in Hd as [Hd H5].
  apply andb_prop in Hd as [Hd H4].
  rewrite vold_main_split. unfold run.
  destruct (before_config_run e (bind (process_config e) (after_config e))
              Hc Hd) as [evs ->].
  unfold bind.
  pose proof (process_config_result e (mkWorld [] None evs)) as Hr.
  destruct (process_config_state e recs (mkWorld [] None evs) Hf Hn Ho)
    as [Ha _].
  rewrite Hf, Hn, Ho in Hr.
  destruct (process_config e (mkWorld [] None evs)) as [[rc| |] w'];
    cbn [fst snd] in *; try discriminate Hr.
  rewrite after_config_run by (now rewrite H4, H5, H6).
  cbn [snd trace]. rewrite Ha. cbn [option_map].
  eexists. rewrite !app_assoc. reflexivity.
Qed.

Lemma published_has_adoptable_example :
  exists pre,
    trace (snd (run (@vold_main example_flags
                       (example_env (Some example_recs) "quiet"))))
    = pre ++ [EvPropertySet "vold.has_adoptable" (Some "1"%string);
              EvIdleLoop].
Proof.
  exact (@published_has_adoptable example_flags
           (example_env (Some example_recs) "quiet") example_recs
           eq_refl eq_refl eq_refl eq_refl eq_refl).
Defined.

(** X12. When the contexts are given and every dependency is available
    but the fstab does not load, [vold_main] still reaches the idle loop,
    with an empty registry, and what it publishes as [vold.has_adoptable]
    comes from a variable that was never assigned. *)
Theorem unloaded_fstab_publishes_unassigned {F : DiskFlags} (e : env) :
  contexts_ok e = true ->
  dependencies_ok e = true ->
  fs_mgr_read_fstab e = None ->
  fst (run (vold_main e)) = Ret tt
  /\ mDiskSources (snd (run (vold_main e))) = []
  /\ exists pre,
       trace (snd (run (vold_main e)))
       = pre ++ [EvPropertySet "vold.has_adoptable" None; EvIdleLoop].
Proof.
  intros Hc Hd Hf. unfold dependencies_ok in Hd.
  apply andb_prop in Hd as [Hd H6]. apply andb_prop in Hd as [Hd H5].
  apply andb_prop in Hd as [Hd H4].
  rewrite vold_main_split. unfold run.
  destruct (before_config_run e (bind (process_config e) (after_config e))
              Hc Hd) as [evs ->].
  unfold bind. rewrite process_config_not_loaded by assumption.
  rewrite after_config_run by (now rewrite H4, H5, H6).
  cbn [fst snd mDiskSources has_adoptable trace option_map].
  repeat split. eexists. rewrite !app_assoc. reflexivity.
Qed.

Lemma unloaded_fstab_publishes_unassigned_example :
  fst (run (@vold_main example_flags (example_env None "SDCARD=sda1")))
  = Ret tt
  /\ mDiskSources
       (snd (run (@vold_main example_flags (example_env None "SDCARD=sda1"))))
     = []
  /\ exists pre,
       trace (snd (run (@vold_main example_flags
                          (example_env None "SDCARD=sda1"))))
       = pre ++ [EvPropertySet "vold.has_adoptable" None; EvIdleLoop].
Proof.
  exact (@unloaded_fstab_publishes_unassigned example_flags
           (example_env None "SDCARD=sda1") eq_refl eq_refl eq_refl).
Defined.

(** X13. The coldboot walk releases every descriptor and directory stream
    it obtains: over a whole run the successful [opendir] and [openat]
    calls are as many as the [close] and [closedir] calls. *)
Theorem coldboot_descriptors_balanced (path : string) (root : option dir) :
  descriptors_opened (coldboot path root)
  = descriptors_closed (coldboot path root).
Proof.
  destruct root as [d|]; [|reflexivity]. unfold coldboot.
  rewrite !descriptors_opened_app, !descriptors_closed_app.
  rewrite do_coldboot_balanced. cbn. lia.
Qed.

(** X14. The coldboot walk only writes to files named [uevent] that lie
    under the path it was given, reached through entries whose names do
    not begin with a dot: it never leaves the tree through [..]. *)
Theorem coldboot_writes_confined
    (path : string) (root : option dir) (q : location) :
  In q (write_attempts (coldboot path root)) ->
  exists mid,
    q = path :: mid ++ ["uevent"%string]
    /\ forall n, In n mid -> first_is_dot n = false.
Proof.
  intros H. apply write_attempts_In in H as (buf & ok & H).
  destruct root as [d|]; cbn [coldboot] in H.
  - apply in_app_iff in H as [[H|[]]|H]; [discriminate H|].
    apply in_app_iff in H as [H|[H|[]]]; [|discriminate H].
    apply do_coldboot_write_below in H as (mid & -> & Hmid).
    exists mid. auto.
  - destruct H as [H|[]]. discriminate H.
Qed.

Lemma coldboot_writes_confined_example :
  exists mid,
    ["/sys/block"; "sda"; "sda1"; "uevent"]%string
    = "/sys/block"%string :: mid ++ ["uevent"%string]
    /\ forall n, In n mid -> first_is_dot n = false.
Proof.
  apply (coldboot_writes_confined "/sys/block" (Some example_tree)).
  vm_compute. auto.
Defined.

(** X15. After the option loop of [parse_args] each context holds the
    argument of the last occurrence of its option, or what it held before
    when the option does not occur; characters other than [b], [B], [f]
    and [F] change nothing. The [CHECK]s then pass exactly when all four
    contexts are set, and terminate the process otherwise. *)
Theorem parse_args_options
    (e : env) (opts : list (ascii * string)) (cs : contexts) (w : world) :
  (c_blkid (scan_options opts cs)
   = or_else (last_optarg "b" opts) (c_blkid cs)
   /\ c_blkid_untrusted (scan_options opts cs)
      = or_else (last_optarg "B" opts) (c_blkid_untrusted cs)
   /\ c_fsck (scan_options opts cs)
      = or_else (last_optarg "f" opts) (c_fsck cs)
   /\ c_fsck_untrusted (scan_options opts cs)
      = or_else (last_optarg "F" opts) (c_fsck_untrusted cs))
  /\ parse_args (with_contexts e (scan_options opts cs)) w
     = if is_some (or_else (last_optarg "b" opts) (c_blkid cs))
          && is_some (or_else (last_optarg "B" opts) (c_blkid_untrusted cs))
          && is_some (or_else (last_optarg "f" opts) (c_fsck cs))
          && is_some (or_else (last_optarg "F" opts) (c_fsck_untrusted cs))
       then (Ret tt, w) else (Aborted, w).
Proof.
  pose proof (scan_options_contexts opts cs) as (H1 & H2 & H3 & H4).
  split; [auto|].
  unfold parse_args, with_contexts.
  cbn [sBlkidContext sBlkidUntrustedContext sFsckContext
       sFsckUntrustedContext].
  rewrite H1, H2, H3, H4.
  destruct (or_else (last_optarg "b" opts) (c_blkid cs)),
           (or_else (last_optarg "B" opts) (c_blkid_untrusted cs)),
           (or_else (last_optarg "f" opts) (c_fsck cs)),
           (or_else (last_optarg "F" opts) (c_fsck_untrusted cs));
    reflexivity.
Qed.

(** X16. When the three enumerators are non-zero and share no bit, a flag
    is set in the rule of an fstab entry only under its condition:
    Adoptable exactly when the entry is encryptable, DefaultPrimary
    exactly when it has no emulated storage or the debug property is set,
    NonRemovable exactly when it is non-removable. *)
Theorem fstab_flags_exact
    {F : DiskFlags} (e : env) (r : fstab_rec) (sysPattern nickname : string) :
  distinct_flags F ->
  (flag_set kAdoptable
     (ds_flags (DiskSource_of_rec e r sysPattern nickname))
   <-> fs_mgr_is_encryptable r = true)
  /\ (flag_set kDefaultPrimary
        (ds_flags (DiskSource_of_rec e r sysPattern nickname))
      <-> fs_mgr_is_noemulatedsd r = true
          \/ prop_vold_debug_default_primary e = true)
  /\ (flag_set kNonRemovable
        (ds_flags (DiskSource_of_rec e r sysPattern nickname))
      <-> fs_mgr_is_nonremovable r = true).
Proof.
  intros Hdistinct.
  destruct Hdistinct as (Na & Nd & Nn & Had & Han & Hdn).
  assert (Hda := Had). rewrite Z.land_comm in Hda.
  assert (Hna := Han). rewrite Z.land_comm in Hna.
  assert (Hnd := Hdn). rewrite Z.land_comm in Hnd.
  split; [|split]; (split; [|first [apply flags_adoptable
                                   | apply flags_default_primary
                                   | apply flags_non_removable]]).
  - unfold flag_set. rewrite flags_of_rec, land_lor3.
    destruct (fs_mgr_is_encryptable r); [reflexivity|].
    destruct (fs_mgr_is_noemulatedsd r || prop_vold_debug_default_primary e),
             (fs_mgr_is_nonremovable r);
      rewrite ?Hda, ?Hna, ?Z.land_0_l; cbn; congruence.
  - unfold flag_set. rewrite flags_of_rec, land_lor3, <- orb_true_iff.
    destruct (fs_mgr_is_noemulatedsd r || prop_vold_debug_default_primary e);
      [reflexivity|].
    destruct (fs_mgr_is_encryptable r), (fs_mgr_is_nonremovable r);
      rewrite ?Had, ?Hnd, ?Z.land_0_l; cbn; congruence.
  - unfold flag_set. rewrite flags_of_rec, land_lor3.
    destruct (fs_mgr_is_nonremovable r); [reflexivity|].
    destruct (fs_mgr_is_encryptable r),
             (fs_mgr_is_noemulatedsd r || prop_vold_debug_default_primary e);
      rewrite ?Han, ?Hdn, ?Z.land_0_l; cbn; congruence.
Qed.

Lemma fstab_flags_exact_example :
  @distinct_flags example_flags
  /\ ~ @flag_set 1
         (ds_flags (@DiskSource_of_rec example_flags
                      (example_env (Some example_recs) "quiet")
                      (nth 2 example_recs
                           (mkRec None None None None 0 false false false false))
                      "/devices/*/usb*" "usbdisk")).
Proof.
  assert (Hd : @distinct_flags example_flags)
    by (repeat split; try discriminate; reflexivity).
  split; [exact Hd|].
  destruct (@fstab_flags_exact example_flags
              (example_env (Some example_recs) "quiet")
              (nth 2 example_recs
                   (mkRec None None None None 0 false false false false))
              "/devices/*/usb*" "usbdisk" Hd)
    as (H & _).
  intros Hs. apply H in Hs. discriminate Hs.
Defined.

(** X17. Below the root the walk does not depend on the level: from any
    two levels of at least 1 it issues the same system calls. Only level
    0 is treated differently. *)
Theorem coldboot_level_irrelevant_below_root
    (p : location) (d : dir) (lvl lvl' : Z) :
  1 <= lvl -> 1 <= lvl' -> do_coldboot p d lvl = do_coldboot p d lvl'.
Proof.
  revert p lvl lvl'.
  induction d as [ue ents IH] using dir_tree_ind. intros p lvl lvl' H H'.
  rewrite !do_coldboot_eq. f_equal.
  induction ents as [|[name dt tgt] l IHl]; [reflexivity|].
  cbn [readdir_loop]. f_equal.
  - cbn [visit_entry]. destruct (first_is_dot name); [reflexivity|].
    replace (lvl >? 0) with true
      by (symmetry; rewrite Z.gtb_ltb; apply Z.ltb_lt; lia).
    replace (lvl' >? 0) with true
      by (symmetry; rewrite Z.gtb_ltb; apply Z.ltb_lt; lia).
    destruct (negb (is_DT_DIR dt) && true); [reflexivity|].
    destruct tgt as [| |d2]; try reflexivity.
    cbn [descend]. do 2 f_equal.
    apply (IH name dt d2); [now left | lia | lia].
  - apply IHl. intros n t d2 Hin. apply (IH n t d2). now right.
Qed.

Lemma coldboot_level_irrelevant_below_root_example :
  do_coldboot ["/sys/block"; "sda"]%string example_sda 1
  = do_coldboot ["/sys/block"; "sda"]%string example_sda 7.
Proof.
  apply coldboot_level_irrelevant_below_root; lia.
Defined.

Lemma do_coldboot_opens_below (d : dir) :
  forall (p : location) (lvl : Z) (q : location) (ok : bool),
    In (sys_openat_directory q ok) (do_coldboot p d lvl) ->
    exists mid,
      q = p ++ mid /\ mid <> []
      /\ forall n, In n mid -> first_is_dot n = false.
Proof.
  induction d as [ue ents IH] using dir_tree_ind.
  intros p lvl q ok. rewrite do_coldboot_eq, in_app_iff.
  intros [H|H].
  - destruct ue as [|ok']; cbn [trigger_uevent In] in H.
    + destruct H as [H|[]]; discriminate H.
    + destruct H as [H|[H|[H|[]]]]; discriminate H.
  - apply readdir_loop_In in H as (de & Hde & H).
    apply visit_entry_In in H as (name & dt & tgt & -> & Hdot & _ & H).
    assert (Hhere : forall b,
              sys_openat_directory (p ++ [name]) b = sys_openat_directory q ok ->
              exists mid, q = p ++ mid /\ mid <> []
                          /\ forall n, In n mid -> first_is_dot n = false).
    { intros b Hb. injection Hb as <- _. exists [name].
      repeat split; [discriminate|]. intros n [<-|[]]. exact Hdot. }
    destruct tgt as [| |d2]; cbn [descend In app] in H.
    + destruct H as [H|[]]. eapply Hhere, H.
    + destruct H as [H|[H|[H|[]]]]; try discriminate H. eapply Hhere, H.
    + destruct H as [H|[H|H]]; [eapply Hhere, H | discriminate H |].
      apply in_app_iff in H as [H|[H|[]]]; [|discriminate H].
      destruct (IH name dt d2 Hde _ _ _ _ H) as (mid & -> & _ & Hmid).
      exists (name :: mid). rewrite <- app_assoc.
      repeat split; [discriminate|]. intros n [<-|Hn]; auto.
Qed.

(** X5. The token of the command line is the text between the first
    [SDCARD=] and the next space or newline, or the end of the command
    line: it contains neither a space nor a newline, and a later
    [SDCARD=] is not looked at. *)
Theorem sdcard_token_extraction (path t : string) :
  raw_token path = Some t ->
  exists pre rest,
    path = (pre ++ "SDCARD=" ++ t ++ rest)%string
    /\ Std.find path "SDCARD=" = Some (String.length pre)
    /\ no_separator t = true
    /\ (rest = ""%string
        \/ exists c r, rest = String c r /\ Std.mem_char c space_nl = true).
Proof. apply raw_token_shape. Qed.

(** X5 on a command line with two [SDCARD=]: the first one counts. *)
Lemma sdcard_token_extraction_example :
  exists pre rest,
    "a SDCARD=sda1 SDCARD=sdb2"%string
    = (pre ++ "SDCARD=" ++ "sda1" ++ rest)%string
    /\ Std.find "a SDCARD=sda1 SDCARD=sdb2" "SDCARD="
       = Some (String.length pre)
    /\ no_separator "sda1" = true
    /\ (rest = ""%string
        \/ exists c r, rest = String c r /\ Std.mem_char c space_nl = true).
Proof.
  exact (sdcard_token_extraction "a SDCARD=sda1 SDCARD=sdb2" "sda1" eq_refl).
Defined.

(** X18. The coldboot walk never opens an entry whose name begins with a
    dot, at any depth: every directory it tries to open lies under the
    path it was given and is reached through such names only. *)
Theorem coldboot_never_opens_dot_entries
    (path : string) (root : option dir) (q : location) (ok : bool) :
  In (sys_openat_directory q ok) (coldboot path root) ->
  exists mid,
    q = path :: mid /\ mid <> []
    /\ forall n, In n mid -> first_is_dot n = false.
Proof.
  intros H. destruct root as [d|]; cbn [coldboot] in H.
  - apply in_app_iff in H as [[H|[]]|H]; [discriminate H|].
    apply in_app_iff in H as [H|[H|[]]]; [|discriminate H].
    apply do_coldboot_opens_below in H as (mid & -> & Hne & Hmid).
    exists mid. auto.
  - destruct H as [H|[]]. discriminate H.
Qed.

Lemma coldboot_never_opens_dot_entries_example :
  exists mid,
    ["/sys/block"; "loop0"]%string = "/sys/block"%string :: mid
    /\ mid <> []
    /\ forall n, In n mid -> first_is_dot n = false.
Proof.
  apply (coldboot_never_opens_dot_entries "/sys/block" (Some example_tree)
           ["/sys/block"; "loop0"]%string false).
  vm_compute. auto 30.
Defined.
